(** * AgendaTaller: cached views, invalidation and aggregation

    A shallow embedding of [src/app_web.py]: the two tables (Equipment, Job),
    the memoised views and their invalidation functions, the job, equipment
    and owner endpoints, and the aggregations of the statistics and owner
    pages.  Dates are proleptic Gregorian ordinals ([date.toordinal()]),
    amounts are exact rationals, tables are lists in row order. *)

From Stdlib Require Import ZArith QArith List Bool String Ascii Lia.
From Stdlib Require Import DecimalString Sorted Permutation.
Import ListNotations.
Local Open Scope string_scope.
Local Open Scope Z_scope.

Set Implicit Arguments.

(* ================================================================== *)
(** * Definitions *)
(* ================================================================== *)

(** ** The calendar of Python's [datetime] module

    The source does its date arithmetic through [datetime]: [date + timedelta],
    [date - date] and [replace(day=1)].  A date is its ordinal (day 1 is
    0001-01-01); the conversions are those of [datetime.py]. *)

Module Calendar.

Definition date := Z.

Definition MINORD : Z := 1.
Definition MAXORD : Z := 3652059.

Definition is_leap (year : Z) : bool :=
  (year mod 4 =? 0) && (negb (year mod 100 =? 0) || (year mod 400 =? 0)).

Definition DAYS_IN_MONTH (month : Z) : Z :=
  match month with
  | 1 => 31 | 2 => 28 | 3 => 31 | 4 => 30 | 5 => 31 | 6 => 30
  | 7 => 31 | 8 => 31 | 9 => 30 | 10 => 31 | 11 => 30 | 12 => 31
  | _ => -1
  end.

Definition DAYS_BEFORE_MONTH (month : Z) : Z :=
  match month with
  | 1 => 0 | 2 => 31 | 3 => 59 | 4 => 90 | 5 => 120 | 6 => 151
  | 7 => 181 | 8 => 212 | 9 => 243 | 10 => 273 | 11 => 304 | 12 => 334
  | _ => -1
  end.

Definition days_before_year (year : Z) : Z :=
  let y := year - 1 in y * 365 + y / 4 - y / 100 + y / 400.

Definition days_in_month (year month : Z) : Z :=
  if (month =? 2) && is_leap year then 29 else DAYS_IN_MONTH month.

Definition days_before_month (year month : Z) : Z :=
  DAYS_BEFORE_MONTH month + (if (2 <? month) && is_leap year then 1 else 0).

Definition ymd2ord (year month day : Z) : Z :=
  days_before_year year + days_before_month year month + day.

Definition DI400Y : Z := 146097.
Definition DI100Y : Z := 36524.
Definition DI4Y : Z := 1461.

(** The month and day of the [n]-th day (from 0) of a year. *)
Definition month_day (leapyear : bool) (n : Z) : Z * Z :=
  let month := Z.shiftr (n + 50) 5 in
  let preceding :=
    DAYS_BEFORE_MONTH month + (if (2 <? month) && leapyear then 1 else 0) in
  if n <? preceding then
    let month := month - 1 in
    let preceding :=
      preceding - (DAYS_IN_MONTH month + (if (month =? 2) && leapyear then 1 else 0)) in
    (month, n - preceding + 1)
  else (month, n - preceding + 1).

Definition ord2ymd (n0 : Z) : Z * Z * Z :=
  let n := n0 - 1 in
  let n400 := n / DI400Y in
  let n := n mod DI400Y in
  let year := n400 * 400 + 1 in
  let n100 := n / DI100Y in
  let n := n mod DI100Y in
  let n4 := n / DI4Y in
  let n := n mod DI4Y in
  let n1 := n / 365 in
  let n := n mod 365 in
  let year := year + n100 * 100 + n4 * 4 + n1 in
  if (n1 =? 4) || (n100 =? 4) then (year - 1, 12, 31)
  else
    let leapyear := (n1 =? 3) && (negb (n4 =? 24) || (n100 =? 3)) in
    let '(month, day) := month_day leapyear n in
    (year, month, day).

(** [d.replace(day=1)]: the first day of the month of [d]. *)
Definition replace_day1 (d : date) : date :=
  let '(y, m, _) := ord2ymd d in ymd2ord y m 1.

(** [d + timedelta(days=n)]; [None] is Python's OverflowError, raised when
    the result leaves [date.min .. date.max]. *)
Definition date_add (d : date) (n : Z) : option date :=
  let r := d + n in
  if (MINORD <=? r) && (r <=? MAXORD) then Some r else None.

(** The year and month of a date, as [strftime('%b %Y')] labels it. *)
Definition year_month (d : date) : Z * Z :=
  let '(y, m, _) := ord2ymd d in (y, m).

(** Months counted from year 0: the month index of a date. *)
Definition month_index (d : date) : Z :=
  let '(y, m) := year_month d in 12 * y + (m - 1).

(** The first and the last day of a calendar month, and the first day of
    the month of a given index. *)
Definition first_day (y m : Z) : date := ymd2ord y m 1.

Definition last_day (y m : Z) : date := ymd2ord y m (days_in_month y m).

Definition month_first (i : Z) : date := first_day (i / 12) (i mod 12 + 1).

End Calendar.
Export Calendar.

(** ** The tables *)

Record Equipment := {
  eq_id : Z;
  marca : string;
  modelo : string;
  anio : Z;
  n_serie : string;
  propietario : option string;
  vehiculo : option string;
  dominio : option string;
  eq_notes : option string
}.

Record Job := {
  job_id : Z;
  equipment : Z;                      (* foreign key: the equipment's id *)
  date_done : date;
  description : string;
  budget : Q;
  next_service_days : option Z;
  next_service_date : option date;
  notes : option string
}.

(** The database: each table in row order. *)
Record Store := {
  equipments : list Equipment;
  jobs : list Job
}.

Definition empty_store : Store := {| equipments := []; jobs := [] |}.

(** ** Exceptions *)

Inductive exn :=
| DatabaseError                 (* peewee could not run the query *)
| DoesNotExist                  (* Model.DoesNotExist *)
| ValidationError (msg : string)
| ValueError
| OverflowError
| BadRequestKeyError            (* request.form[k] with k missing *)
| KeyError                      (* d[k] with k missing *)
| OtherError.

Inductive result (A : Type) :=
| Ok (a : A)
| Raise (e : exn).
Arguments Ok {A} a.
Arguments Raise {A} e.

Definition bind {A B} (r : result A) (k : A -> result B) : result B :=
  match r with
  | Ok a => k a
  | Raise e => Raise e
  end.

Notation "x <- r ;; k" := (bind r (fun x => k))
  (at level 61, r at next level, right associativity).

Definition of_option {A} (e : exn) (o : option A) : result A :=
  match o with
  | Some a => Ok a
  | None => Raise e
  end.

(** ** Python's stable sort

    [list.sort(key=...)] is stable; [sort_by leb l] inserts from the right so
    that equal keys keep their order. *)

Fixpoint insert_by {A} (leb : A -> A -> bool) (x : A) (l : list A) : list A :=
  match l with
  | [] => [x]
  | y :: r => if leb x y then x :: y :: r else y :: insert_by leb x r
  end.

Fixpoint sort_by {A} (leb : A -> A -> bool) (l : list A) : list A :=
  match l with
  | [] => []
  | x :: r => insert_by leb x (sort_by leb r)
  end.

(** ** Queries *)

(** [Job.select().where(Job.equipment == eq)]. *)
Definition jobs_of (s : Store) (e : Equipment) : list Job :=
  filter (fun j => equipment j =? eq_id e) (jobs s).

(** [.order_by(Job.date_done.desc())]: latest first; rows of one date stay
    in row order. *)
Definition order_by_date_done_desc (js : list Job) : list Job :=
  sort_by (fun a b => date_done b <=? date_done a) js.

(** [.first()]. *)
Definition first {A} (l : list A) : option A := hd_error l.

Definition count {A} (l : list A) : Z := Z.of_nat (List.length l).

(** [Equipment.get_by_id(id)] and [Job.get_by_id(id)]. *)
Definition equipment_by_id (s : Store) (id : Z) : option Equipment :=
  find (fun e => eq_id e =? id) (equipments s).

Definition job_by_id (s : Store) (id : Z) : option Job :=
  find (fun j => job_id j =? id) (jobs s).

(** [fn.SUM(Job.budget)] over the selected rows, with the source's [or 0]. *)
Definition sum_budget (js : list Job) : Q :=
  fold_left (fun acc j => (acc + budget j)%Q) js 0%Q.

(** The id SQLite gives the next row of an INTEGER PRIMARY KEY table. *)
Definition next_id (ids : list Z) : Z :=
  fold_left Z.max ids 0 + 1.

(** ** The cache

    flask_caching, as the source uses it: one entry per memoised function
    and one per cached view, each with its expiry time.  An entry is a hit
    while [now < expires_at]; [delete_memoized] and [delete] make the next
    lookup a miss. *)

Record entry (A : Type) := {
  value : A;
  expires_at : Z
}.

Record service_row := {
  row_equipment : string;
  row_propietario : option string;
  row_date : date;                    (* rendered with strftime('%d/%m/%Y') *)
  days_left : Z;
  row_budget : Q;
  status : string
}.

Record upcoming_data := {
  upcoming_services : list service_row;
  total_upcoming : Z;
  services_vencidos : Z
}.

Record autocomplete_data := {
  marcas : list string;
  modelos : list string;
  propietarios : list string
}.

Record dashboard := {
  d_total_equipment : Z;
  d_total_jobs : Z;
  d_total_upcoming : Z;
  d_services_vencidos : Z;
  d_upcoming_services : list service_row
}.

Record Cache := {
  equipment_count_entry : option (entry Z);
  jobs_count_entry : option (entry Z);
  upcoming_entry : option (entry upcoming_data);
  autocomplete_entry : option (entry autocomplete_data);
  view_entries : list (string * entry dashboard)     (* 'view/<path>' keys *)
}.

Definition empty_cache : Cache :=
  {| equipment_count_entry := None; jobs_count_entry := None;
     upcoming_entry := None; autocomplete_entry := None; view_entries := [] |}.

(** One memoised function's place in the cache. *)
Record slot (A : Type) := {
  slot_get : Cache -> option (entry A);
  slot_set : option (entry A) -> Cache -> Cache
}.

Definition equipment_count_slot : slot Z :=
  {| slot_get := equipment_count_entry;
     slot_set := fun e c =>
       {| equipment_count_entry := e; jobs_count_entry := jobs_count_entry c;
          upcoming_entry := upcoming_entry c;
          autocomplete_entry := autocomplete_entry c;
          view_entries := view_entries c |} |}.

Definition jobs_count_slot : slot Z :=
  {| slot_get := jobs_count_entry;
     slot_set := fun e c =>
       {| equipment_count_entry := equipment_count_entry c; jobs_count_entry := e;
          upcoming_entry := upcoming_entry c;
          autocomplete_entry := autocomplete_entry c;
          view_entries := view_entries c |} |}.

Definition upcoming_slot : slot upcoming_data :=
  {| slot_get := upcoming_entry;
     slot_set := fun e c =>
       {| equipment_count_entry := equipment_count_entry c;
          jobs_count_entry := jobs_count_entry c;
          upcoming_entry := e;
          autocomplete_entry := autocomplete_entry c;
          view_entries := view_entries c |} |}.

Definition autocomplete_slot : slot autocomplete_data :=
  {| slot_get := autocomplete_entry;
     slot_set := fun e c =>
       {| equipment_count_entry := equipment_count_entry c;
          jobs_count_entry := jobs_count_entry c;
          upcoming_entry := upcoming_entry c;
          autocomplete_entry := e;
          view_entries := view_entries c |} |}.

(** A lookup: the stored value while it has not expired. *)
Definition lookup {A} (now : Z) (e : option (entry A)) : option A :=
  match e with
  | Some en => if now <? expires_at en then Some (value en) else None
  | None => None
  end.

(** [@cache.memoize(timeout)]: a hit returns the stored value and leaves the
    cache alone; a miss runs the function and stores what it returns.  An
    exception leaves the cache as it was. *)
Definition memoize {A} (sl : slot A) (timeout : Z) (f : result A)
    (now : Z) (c : Cache) : result A * Cache :=
  match lookup now (slot_get sl c) with
  | Some v => (Ok v, c)
  | None =>
      match f with
      | Ok v => (Ok v, slot_set sl (Some {| value := v; expires_at := now + timeout |}) c)
      | Raise e => (Raise e, c)
      end
  end.

(** [cache.delete_memoized(f)]. *)
Definition delete_memoized {A} (sl : slot A) (c : Cache) : Cache :=
  slot_set sl None c.

Definition view_get (key : string) (c : Cache) : option (entry dashboard) :=
  match find (fun p => String.eqb (fst p) key) (view_entries c) with
  | Some p => Some (snd p)
  | None => None
  end.

(** [cache.delete(key)] on a view key. *)
Definition cache_delete (key : string) (c : Cache) : Cache :=
  {| equipment_count_entry := equipment_count_entry c;
     jobs_count_entry := jobs_count_entry c;
     upcoming_entry := upcoming_entry c;
     autocomplete_entry := autocomplete_entry c;
     view_entries := filter (fun p => negb (String.eqb (fst p) key)) (view_entries c) |}.

Definition cache_set_view (key : string) (v : dashboard) (timeout now : Z)
    (c : Cache) : Cache :=
  {| equipment_count_entry := equipment_count_entry c;
     jobs_count_entry := jobs_count_entry c;
     upcoming_entry := upcoming_entry c;
     autocomplete_entry := autocomplete_entry c;
     view_entries :=
       (key, {| value := v; expires_at := now + timeout |})
       :: filter (fun p => negb (String.eqb (fst p) key)) (view_entries c) |}.

(** [cache.clear()]. *)
Definition cache_clear (c : Cache) : Cache := empty_cache.

(** ** The request's surroundings

    [now] is the clock the cache reads (seconds), [today] is
    [datetime.now().date()], and [db_up = false] is a run in which every
    query raises. *)

Record Env := {
  now : Z;
  today : date;
  db_up : bool
}.

(** A query: the rows, or the database's exception. *)
Definition query {A} (env : Env) (rows : A) : result A :=
  if db_up env then Ok rows else Raise DatabaseError.

(** ** The memoised views *)

(** [get_cached_equipment_count], [@cache.memoize(timeout=600)]. *)
Definition get_cached_equipment_count (env : Env) (s : Store) (c : Cache)
    : result Z * Cache :=
  memoize equipment_count_slot 600 (query env (count (equipments s))) (now env) c.

(** [get_cached_jobs_count], [@cache.memoize(timeout=600)]. *)
Definition get_cached_jobs_count (env : Env) (s : Store) (c : Cache)
    : result Z * Cache :=
  memoize jobs_count_slot 600 (query env (count (jobs s))) (now env) c.

(** [str(n)] of an integer. *)
Definition py_str (n : Z) : string := NilEmpty.string_of_int (Z.to_int n).

(** [f"{eq.marca} {eq.modelo} ({eq.anio})"]. *)
Definition equipment_label (e : Equipment) : string :=
  (marca e ++ " " ++ modelo e ++ " (" ++ py_str (anio e) ++ ")")%string.

(** ['danger' if days_left < 0 else 'warning' if days_left < 7 else 'success']. *)
Definition status_of (days : Z) : string :=
  if days <? 0 then "danger" else if days <? 7 then "warning" else "success".

(** The job the loop takes for an equipment:
    [Job.select().where(Job.equipment == eq).order_by(Job.date_done.desc()).first()]. *)
Definition last_job (s : Store) (e : Equipment) : option Job :=
  first (order_by_date_done_desc (jobs_of s e)).

Definition make_row (today : date) (e : Equipment) (j : Job) (due : date)
    : service_row :=
  {| row_equipment := equipment_label e;
     row_propietario := propietario e;
     row_date := due;
     days_left := due - today;
     row_budget := budget j;
     status := status_of (due - today) |}.

(** One turn of the loop over the equipment: the list, the count of services
    due within 30 days and the count of overdue ones. *)
Definition upcoming_step (today : date) (s : Store)
    (acc : list service_row * Z * Z) (e : Equipment)
    : list service_row * Z * Z :=
  let '(rows, total, vencidos) := acc in
  match last_job s e with
  | Some j =>
      match next_service_date j with
      | Some due =>
          let days := due - today in
          let total := if days <=? 30 then total + 1 else total in
          let vencidos := if days <? 0 then vencidos + 1 else vencidos in
          ((rows ++ [make_row today e j due])%list, total, vencidos)
      | None => acc
      end
  | None => acc
  end.

(** What one equipment adds to the list. *)
Definition equipment_rows (today : date) (s : Store) (e : Equipment)
    : list service_row :=
  match last_job s e with
  | Some j =>
      match next_service_date j with
      | Some due => [make_row today e j due]
      | None => []
      end
  | None => []
  end.

(** The [try] block of [get_cached_upcoming_services]. *)
Definition upcoming_services_try (today : date) (s : Store) : upcoming_data :=
  let '(rows, total, vencidos) :=
    fold_left (upcoming_step today s) (equipments s) ([], 0, 0) in
  {| upcoming_services := sort_by (fun a b => days_left a <=? days_left b) rows;
     total_upcoming := total;
     services_vencidos := vencidos |}.

Definition upcoming_services_default : upcoming_data :=
  {| upcoming_services := []; total_upcoming := 0; services_vencidos := 0 |}.

(** The function under the decorator: the [except] branch returns the empty
    shape, so the function itself never raises. *)
Definition upcoming_services_fn (env : Env) (s : Store) : result upcoming_data :=
  match query env (equipments s) with
  | Ok _ => Ok (upcoming_services_try (today env) s)
  | Raise _ => Ok upcoming_services_default
  end.

(** [get_cached_upcoming_services], [@cache.memoize(timeout=300)]. *)
Definition get_cached_upcoming_services (env : Env) (s : Store) (c : Cache)
    : result upcoming_data * Cache :=
  memoize upcoming_slot 300 (upcoming_services_fn env s) (now env) c.

(** [list(set(l))]: the distinct values; their order is Python's choice. *)
Definition distinct (l : list string) : list string := nodup string_dec l.

(** Python's truth value of an optional string: [None] and [''] are false. *)
Definition truthy (o : option string) : bool :=
  match o with
  | Some s => negb (String.eqb s "")
  | None => false
  end.

(** [x or None] for a string. *)
Definition or_None (s : string) : option string :=
  if String.eqb s "" then None else Some s.

(** [[eq.propietario for eq in ... if eq.propietario]]. *)
Definition owner_names (es : list Equipment) : list string :=
  flat_map (fun e => match propietario e with
                     | Some p => if String.eqb p "" then [] else [p]
                     | None => []
                     end) es.

Definition autocomplete_try (s : Store) : autocomplete_data :=
  {| marcas := distinct (map marca (equipments s));
     modelos := distinct (map modelo (equipments s));
     propietarios := distinct (owner_names (equipments s)) |}.

Definition autocomplete_default : autocomplete_data :=
  {| marcas := []; modelos := []; propietarios := [] |}.

Definition equipment_autocomplete_fn (env : Env) (s : Store)
    : result autocomplete_data :=
  match query env (equipments s) with
  | Ok _ => Ok (autocomplete_try s)
  | Raise _ => Ok autocomplete_default
  end.

(** [get_cached_equipment_autocomplete], [@cache.memoize(timeout=1800)]. *)
Definition get_cached_equipment_autocomplete (env : Env) (s : Store) (c : Cache)
    : result autocomplete_data * Cache :=
  memoize autocomplete_slot 1800 (equipment_autocomplete_fn env s) (now env) c.

(** ** Invalidation *)

Definition clear_cache_on_equipment_change (c : Cache) : Cache :=
  cache_delete "view//"
    (delete_memoized upcoming_slot
      (delete_memoized autocomplete_slot
        (delete_memoized equipment_count_slot c))).

Definition clear_cache_on_job_change (c : Cache) : Cache :=
  cache_delete "view//"
    (delete_memoized upcoming_slot
      (delete_memoized jobs_count_slot c)).

(** ** Aggregations of the detail, statistics and owner pages *)

(** A row of [equipo_detail]'s job list. *)
Record trabajo_row := {
  t_id : Z;
  t_date : date;
  t_description : string;
  t_budget : Q;
  t_next_service : option date;       (* '-' when absent *)
  t_notes : string
}.

Definition or_empty (o : option string) : string :=
  match o with
  | Some s => s
  | None => ""
  end.

Record equipo_detail_data := {
  det_equipo : Equipment;
  det_trabajos : list trabajo_row;
  det_total_gastado : Q;
  det_promedio : Q
}.

(** The loop of [equipo_detail] and its average, which is 0 for an equipment
    without jobs. *)
Definition equipo_detail_data_of (s : Store) (e : Equipment) : equipo_detail_data :=
  let trabajos := order_by_date_done_desc (jobs_of s e) in
  let rows := map (fun j => {| t_id := job_id j; t_date := date_done j;
                              t_description := description j;
                              t_budget := budget j;
                              t_next_service := next_service_date j;
                              t_notes := or_empty (notes j) |}) trabajos in
  let total := sum_budget trabajos in
  {| det_equipo := e;
     det_trabajos := rows;
     det_total_gastado := total;
     det_promedio :=
       match rows with
       | [] => 0%Q
       | _ => (total / inject_Z (count rows))%Q
       end |}.

Record top_equipo := {
  top_name : string;
  top_jobs : Z;
  top_total : Q
}.

(** [top_equipos] of [estadisticas]: equipment with at least one job, by
    descending total, the first ten. *)
Definition top_equipos (s : Store) : list top_equipo :=
  let all :=
    flat_map (fun e =>
      let job_count := count (jobs_of s e) in
      if 0 <? job_count then
        [{| top_name := (marca e ++ " " ++ modelo e)%string;
            top_jobs := job_count;
            top_total := sum_budget (jobs_of s e) |}]
      else []) (equipments s) in
  firstn 10 (sort_by (fun a b => Qle_bool (top_total b) (top_total a)) all).

(** [avg_budget = total_budget / total_jobs if total_jobs > 0 else 0]. *)
Definition avg_budget (s : Store) : Q :=
  let total_jobs := count (jobs s) in
  if 0 <? total_jobs then (sum_budget (jobs s) / inject_Z total_jobs)%Q else 0%Q.

(** [marcas_dist]: one pair per distinct brand. *)
Definition marcas_dist (s : Store) : list (string * Z) :=
  map (fun m => (m, count (filter (fun e => String.eqb (marca e) m) (equipments s))))
      (distinct (map marca (equipments s))).

Record month_total := {
  month : Z * Z;                      (* year and month of strftime('%b %Y') *)
  total : Q
}.

(** The dates of one turn of the monthly loop: [fecha], [mes_inicio.date()]
    and [mes_fin]. *)
Definition month_bounds (today : date) (i : Z) : result (date * date * date) :=
  fecha <- of_option OverflowError (date_add today (- (i * 30))) ;;
  let mes_inicio := replace_day1 fecha in
  if i =? 0 then Ok (fecha, mes_inicio, today)
  else
    siguiente_mes <- of_option OverflowError (date_add mes_inicio 32) ;;
    mes_fin <- of_option OverflowError (date_add (replace_day1 siguiente_mes) (-1)) ;;
    Ok (fecha, mes_inicio, mes_fin).

(** The jobs a month's query selects:
    [(Job.date_done >= mes_inicio.date()) & (Job.date_done <= mes_fin)]. *)
Definition jobs_between (lo hi : date) (js : list Job) : list Job :=
  filter (fun j => (lo <=? date_done j) && (date_done j <=? hi)) js.

Definition month_entry (today : date) (js : list Job) (i : Z) : result month_total :=
  b <- month_bounds today i ;;
  let '(fecha, mes_inicio, mes_fin) := b in
  Ok {| month := year_month fecha;
        total := sum_budget (jobs_between mes_inicio mes_fin js) |}.

(** [for i in range(n - 1, -1, -1)]. *)
Definition range_down (n : nat) : list Z :=
  map Z.of_nat (rev (seq 0 n)).

Fixpoint collect {A B} (f : A -> result B) (l : list A) : result (list B) :=
  match l with
  | [] => Ok []
  | x :: r => y <- f x ;; ys <- collect f r ;; Ok (y :: ys)
  end.

(** [gastos_mes] of [estadisticas]: the loop over [range(11, -1, -1)]. *)
Definition gastos_mes (today : date) (js : list Job) : result (list month_total) :=
  collect (month_entry today js) (range_down 12).

(** The buckets in calendar terms: the anchor of turn [i], the month it
    falls in, and the bucket over that month (cut at [today] for the
    current month). *)
Definition anchor (today : date) (i : Z) : date := today - i * 30.

Definition bucket_start (today : date) (i : Z) : date :=
  let '(y, m) := year_month (anchor today i) in first_day y m.

Definition bucket_end (today : date) (i : Z) : date :=
  if i =? 0 then today
  else let '(y, m) := year_month (anchor today i) in last_day y m.

Definition bucket (today : date) (js : list Job) (i : Z) : month_total :=
  {| month := year_month (anchor today i);
     total := sum_budget (jobs_between (bucket_start today i) (bucket_end today i) js) |}.

Record estadisticas_data := {
  est_total_equipment : Z;
  est_total_jobs : Z;
  est_total_budget : Q;
  est_avg_budget : Q;
  est_top_equipos : list top_equipo;
  est_gastos_mes : list month_total;
  est_marcas_dist : list (string * Z)
}.

(** [api_modelos(marca)]. *)
Definition api_modelos (s : Store) (m : string) : list string :=
  distinct (map modelo (filter (fun e => String.eqb (marca e) m) (equipments s))).

(** An owner's entry of [clientes_list]. *)
Record cliente := {
  nombre : string;
  equipos : list Equipment;
  total_equipos : Z;
  total_trabajos : Z;
  total_gastado : Q;
  ultimo_trabajo : option date
}.

Definition cliente_nuevo (p : string) : cliente :=
  {| nombre := p; equipos := []; total_equipos := 0; total_trabajos := 0;
     total_gastado := 0%Q; ultimo_trabajo := None |}.

(** What one equipment adds to its owner's entry. *)
Definition cliente_add (s : Store) (e : Equipment) (c : cliente) : cliente :=
  let trabajos := jobs_of s e in
  {| nombre := nombre c;
     equipos := (equipos c ++ [e])%list;
     total_equipos := total_equipos c + 1;
     total_trabajos := total_trabajos c + count trabajos;
     total_gastado := (total_gastado c + sum_budget trabajos)%Q;
     ultimo_trabajo :=
       match first (order_by_date_done_desc trabajos) with
       | Some u =>
           match ultimo_trabajo c with
           | Some d => if d <? date_done u then Some (date_done u) else Some d
           | None => Some (date_done u)
           end
       | None => ultimo_trabajo c
       end |}.

(** [propietarios_dict], a dict in insertion order: the entry of [p] is
    created on first use and updated in place. *)
Fixpoint dict_update (p : string) (f : cliente -> cliente) (d : list cliente)
    : list cliente :=
  match d with
  | [] => [f (cliente_nuevo p)]
  | c :: r =>
      if String.eqb (nombre c) p then f c :: r else c :: dict_update p f r
  end.

(** [equipo.propietario or 'Sin especificar']. *)
Definition owner_or_default (e : Equipment) : string :=
  match propietario e with
  | Some p => if String.eqb p "" then "Sin especificar" else p
  | None => "Sin especificar"
  end.

(** The grouping loop of [clientes_list] and its final sort. *)
Definition clientes_data (s : Store) (es : list Equipment) : list cliente :=
  let d := fold_left (fun d e => dict_update (owner_or_default e) (cliente_add s e) d)
                     es [] in
  sort_by (fun a b => Qle_bool (total_gastado b) (total_gastado a)) d.

(** ** Requests and responses *)

(** A form or query string: the first value of a key counts. *)
Definition Form := list (string * string).

Fixpoint dict_get (k : string) (d : Form) : option string :=
  match d with
  | [] => None
  | (k', v) :: r => if String.eqb k' k then Some v else dict_get k r
  end.

(** [d.get(k, default)]. *)
Definition get_default (k default : string) (d : Form) : string :=
  match dict_get k d with
  | Some v => v
  | None => default
  end.

(** [d.get(k)] used as a condition. *)
Definition get_truthy (k : string) (d : Form) : bool := truthy (dict_get k d).

Inductive http_method := GET | POST.

Record Request := {
  method : http_method;
  form : Form;
  args : Form;
  referer : option string
}.

(** Functions of Python and its libraries that the endpoints call on the
    request's strings.  [None] is the ValueError they raise. *)
Class PyLib := {
  strptime_ymd : string -> option date;   (* datetime.strptime(s, '%Y-%m-%d').date() *)
  py_int : string -> option Z;            (* int(s) *)
  py_float : string -> option Q;          (* float(s) *)
  strip : string -> string;               (* s.strip() *)
  upper : string -> string;               (* s.upper() *)
  sql_contains : string -> string -> bool (* peewee's field.contains(s), field first *)
}.

(** Functions of the repository's [utils] package, which the endpoints call.
    The validators return the validated dict or raise, [msg] of a
    ValidationError being its [str()]; [clear_all_data] returns the store it
    leaves and either its result dict ([success] and a message) or the
    [str()] of the exception that left it. *)
Class Utils := {
  validate_equipment_data : Form -> result Form;
  validate_job_data : Form -> result Form;
  clear_all_data : Store -> Store * (string + bool * string)
}.

Inductive url_arg :=
| no_arg
| int_arg (id : Z)
| str_arg (name : string).

Inductive Context :=
| Ctx_dashboard (d : dashboard)
| Ctx_equipo_detail (d : equipo_detail_data)
| Ctx_equipo_form (equipo : option Equipment) (a : autocomplete_data)
| Ctx_trabajo_form (equipo : Equipment) (trabajo : option Job)
| Ctx_trabajo_form_global (equipos : list (Z * string))
| Ctx_estadisticas (d : estadisticas_data)
| Ctx_clientes (clientes : list cliente) (search : string) (total_clientes : Z)
| Ctx_cliente_edit (cliente_nombre : string) (total : Z).

Inductive Response :=
| Redirect (endpoint : string) (arg : url_arg)   (* redirect(url_for(...)) *)
| Render (template : string) (ctx : Context)     (* render_template(...) *)
| Abort (code : Z).                              (* an exception left the view *)

(** What a request works on and leaves behind. *)
Record World := {
  store : Store;
  cache : Cache
}.

(** [flash(message, category)]. *)
Definition flash := (string * string)%type.

Record Outcome := {
  response : Response;
  flashes : list flash;
  world : World
}.

Definition with_store (w : World) (s : Store) : World :=
  {| store := s; cache := cache w |}.

Definition with_cache (w : World) (c : Cache) : World :=
  {| store := store w; cache := c |}.

(** The response to an exception no handler caught. *)
Definition uncaught (e : exn) (w : World) : Outcome :=
  {| response := Abort (match e with BadRequestKeyError => 400 | _ => 500 end);
     flashes := [];
     world := w |}.

(** ** The dashboard *)

Definition dashboard_default : dashboard :=
  {| d_total_equipment := 0; d_total_jobs := 0; d_total_upcoming := 0;
     d_services_vencidos := 0; d_upcoming_services := [] |}.

Definition dashboard_error_flash : flash :=
  ("Error cargando el dashboard. Inténtelo nuevamente.", "error").

(** The body of [index]: the three memoised reads, each on the cache the
    one before left. *)
Definition index_body (env : Env) (w : World) : dashboard * list flash * Cache :=
  match get_cached_equipment_count env (store w) (cache w) with
  | (Raise _, c1) => (dashboard_default, [dashboard_error_flash], c1)
  | (Ok total_equipment, c1) =>
      match get_cached_jobs_count env (store w) c1 with
      | (Raise _, c2) => (dashboard_default, [dashboard_error_flash], c2)
      | (Ok total_jobs, c2) =>
          match get_cached_upcoming_services env (store w) c2 with
          | (Raise _, c3) => (dashboard_default, [dashboard_error_flash], c3)
          | (Ok data, c3) =>
              ({| d_total_equipment := total_equipment;
                  d_total_jobs := total_jobs;
                  d_total_upcoming := total_upcoming data;
                  d_services_vencidos := services_vencidos data;
                  d_upcoming_services := firstn 10 (upcoming_services data) |},
               [], c3)
          end
      end
  end.

(** [index], [@cache.cached(timeout=300)] under the key ['view//']. *)
Definition index (env : Env) (w : World) : Outcome :=
  match lookup (now env) (view_get "view//" (cache w)) with
  | Some d =>
      {| response := Render "dashboard.html" (Ctx_dashboard d);
         flashes := []; world := w |}
  | None =>
      let '(d, fl, c) := index_body env w in
      {| response := Render "dashboard.html" (Ctx_dashboard d);
         flashes := fl;
         world := with_cache w (cache_set_view "view//" d 300 (now env) c) |}
  end.

(** ** The job endpoints *)

Section Endpoints.

Context {lib : PyLib} {utils : Utils}.

(** [Job.create(...)]: a new row at the end of the table. *)
Definition Job_create (s : Store) (equipo : Equipment) (date_done : date)
    (description : string) (budget : Q) (next_days : option Z)
    (next_date : option date) (notes : option string) : Store :=
  {| equipments := equipments s;
     jobs := (jobs s ++
              [{| job_id := next_id (map job_id (jobs s));
                  equipment := eq_id equipo;
                  date_done := date_done;
                  description := description;
                  budget := budget;
                  next_service_days := next_days;
                  next_service_date := next_date;
                  notes := notes |}])%list |}.

(** [int(d['next_service_days']) if d.get('next_service_days') else None]. *)
Definition parse_next_days (d : Form) : result (option Z) :=
  match dict_get "next_service_days" d with
  | Some x =>
      if String.eqb x "" then Ok None
      else n <- of_option ValueError (py_int x) ;; Ok (Some n)
  | None => Ok None
  end.

(** [float(request.form.get('budget', 0))]. *)
Definition form_budget (f : Form) : result Q :=
  match dict_get "budget" f with
  | Some b => of_option ValueError (py_float b)
  | None => Ok 0%Q
  end.

(** [request.form.get('notes') or None]. *)
Definition form_notes (f : Form) : option string :=
  match dict_get "notes" f with
  | Some n => or_None n
  | None => None
  end.

(** [date_done + timedelta(days=next_days) if next_days else None]. *)
Definition next_date_of (date_done : date) (next_days : option Z)
    : result (option date) :=
  match next_days with
  | Some n =>
      if n =? 0 then Ok None
      else d <- of_option OverflowError (date_add date_done n) ;; Ok (Some d)
  | None => Ok None
  end.

(** [Equipment.select().order_by(Equipment.marca, Equipment.modelo)]. *)
Definition order_by_marca_modelo (es : list Equipment) : list Equipment :=
  sort_by (fun a b =>
             match String.compare (marca a) (marca b) with
             | Lt => true
             | Eq => String.leb (modelo a) (modelo b)
             | Gt => false
             end) es.

(** [trabajo_new_global]: the POST branch up to [Job.create]. *)
Definition trabajo_new_global_post (env : Env) (f : Form) (s : Store)
    : result Store :=
  equipo_id <- of_option BadRequestKeyError (dict_get "equipo_id" f) ;;
  id <- of_option ValueError (py_int equipo_id) ;;
  found <- query env (equipment_by_id s id) ;;
  equipo <- of_option DoesNotExist found ;;
  ds <- of_option BadRequestKeyError (dict_get "date_done" f) ;;
  date_done <- of_option ValueError (strptime_ymd ds) ;;
  next_days <- parse_next_days f ;;
  next_date <- next_date_of date_done next_days ;;
  description <- of_option BadRequestKeyError (dict_get "description" f) ;;
  budget <- form_budget f ;;
  Ok (Job_create s equipo date_done description budget next_days next_date
        (form_notes f)).

Definition trabajo_new_global (env : Env) (req : Request) (w : World) : Outcome :=
  match method req with
  | POST =>
      match trabajo_new_global_post env (form req) (store w) with
      | Ok s' =>
          {| response := Redirect "trabajos_list" no_arg;
             flashes := [];
             world := with_store w s' |}
      | Raise e => uncaught e w
      end
  | GET =>
      match query env (order_by_marca_modelo (equipments (store w))) with
      | Ok es =>
          {| response :=
               Render "trabajo_form_global.html"
                 (Ctx_trabajo_form_global
                    (map (fun e => (eq_id e,
                                    (equipment_label e ++ " - " ++ n_serie e)%string))
                         es));
             flashes := [];
             world := w |}
      | Raise e => uncaught e w
      end
  end.

(** [form_data] of [trabajo_new]. *)
Definition job_form_data (f : Form) : Form :=
  [("date_done", strip (get_default "date_done" "" f));
   ("description", strip (get_default "description" "" f));
   ("budget", strip (get_default "budget" "0" f));
   ("next_service_days", strip (get_default "next_service_days" "" f));
   ("notes", strip (get_default "notes" "" f))].

(** The [try] block of [trabajo_new]: the messages flashed inside it and
    either the store with the new job or the exception raised. *)
Definition trabajo_new_try (env : Env) (equipo : Equipment) (f : Form) (s : Store)
    : list flash * result Store :=
  match (validated_data <- validate_job_data (job_form_data f) ;;
         ds <- of_option KeyError (dict_get "date_done" validated_data) ;;
         date_done <- of_option ValueError (strptime_ymd ds) ;;
         Ok (validated_data, date_done)) with
  | Raise e => ([], Raise e)
  | Ok (validated_data, date_done) =>
      if today env <? date_done then
        ([("La fecha del trabajo no puede ser futura", "error")],
         Raise (ValidationError "Fecha futura no permitida"))
      else
        ([],
         next_days <- parse_next_days validated_data ;;
         next_date <- next_date_of date_done next_days ;;
         budget <- match dict_get "budget" validated_data with
                   | Some b =>
                       if String.eqb b "" then Ok 0%Q
                       else of_option ValueError (py_float b)
                   | None => Ok 0%Q
                   end ;;
         description <- of_option KeyError (dict_get "description" validated_data) ;;
         notes <- of_option KeyError (dict_get "notes" validated_data) ;;
         Ok (Job_create s equipo date_done description budget next_days next_date
               (or_None notes)))
  end.

(** The message of the [except] clause that catches [e] in [trabajo_new]. *)
Definition trabajo_new_except (e : exn) : flash :=
  match e with
  | ValidationError msg => (("Error de validación: " ++ msg)%string, "error")
  | ValueError =>
      ("Error en el formato de fecha o números. Verifique los datos ingresados.",
       "error")
  | _ => ("Error interno al crear el trabajo. Inténtelo nuevamente.", "error")
  end.

Definition trabajo_new (env : Env) (equipo_id : Z) (req : Request) (w : World)
    : Outcome :=
  match query env (equipment_by_id (store w) equipo_id) with
  | Raise e => uncaught e w
  | Ok None =>
      {| response := Redirect "equipos_list" no_arg;
         flashes := [("Equipo no encontrado", "error")];
         world := w |}
  | Ok (Some equipo) =>
      match method req with
      | POST =>
          match trabajo_new_try env equipo (form req) (store w) with
          | (fl, Ok s') =>
              {| response := Redirect "equipo_detail" (int_arg equipo_id);
                 flashes :=
                   (fl ++ [(("Trabajo registrado exitosamente para "
                             ++ marca equipo ++ " " ++ modelo equipo)%string,
                            "success")])%list;
                 world := with_store w s' |}
          | (fl, Raise e) =>
              {| response := Render "trabajo_form.html" (Ctx_trabajo_form equipo None);
                 flashes := (fl ++ [trabajo_new_except e])%list;
                 world := w |}
          end
      | GET =>
          {| response := Render "trabajo_form.html" (Ctx_trabajo_form equipo None);
             flashes := [];
             world := w |}
      end
  end.

(** The assignments of [trabajo_edit]'s POST branch: the job as [save()]
    writes it. *)
Definition trabajo_edit_post (trabajo : Job) (f : Form) : result Job :=
  ds <- of_option BadRequestKeyError (dict_get "date_done" f) ;;
  date_done <- of_option ValueError (strptime_ymd ds) ;;
  description <- of_option BadRequestKeyError (dict_get "description" f) ;;
  budget <- form_budget f ;;
  next_days <- parse_next_days f ;;
  next_date <- next_date_of date_done next_days ;;
  Ok {| job_id := job_id trabajo;
        equipment := equipment trabajo;
        date_done := date_done;
        description := description;
        budget := budget;
        next_service_days := next_days;
        next_service_date := next_date;
        notes := form_notes f |}.

(** [trabajo.save()]: the row of that id is replaced. *)
Definition Job_save (s : Store) (j : Job) : Store :=
  {| equipments := equipments s;
     jobs := map (fun k => if job_id k =? job_id j then j else k) (jobs s) |}.

Definition trabajo_edit (env : Env) (trabajo_id : Z) (req : Request) (w : World)
    : Outcome :=
  match (found <- query env (job_by_id (store w) trabajo_id) ;;
         of_option DoesNotExist found) with
  | Raise e => uncaught e w
  | Ok trabajo =>
      match method req with
      | POST =>
          match trabajo_edit_post trabajo (form req) with
          | Raise e => uncaught e w
          | Ok j =>
              let w' := with_store w (Job_save (store w) j) in
              match equipment_by_id (store w') (equipment j) with
              | Some e =>
                  {| response := Redirect "equipo_detail" (int_arg (eq_id e));
                     flashes := []; world := w' |}
              | None => uncaught DoesNotExist w'
              end
          end
      | GET =>
          match equipment_by_id (store w) (equipment trabajo) with
          | Some e =>
              {| response :=
                   Render "trabajo_form.html" (Ctx_trabajo_form e (Some trabajo));
                 flashes := []; world := w |}
          | None => uncaught DoesNotExist w
          end
      end
  end.

(** [x in s] for strings. *)
Fixpoint substring_in (x s : string) : bool :=
  prefix x s ||
  match s with
  | EmptyString => false
  | String _ r => substring_in x r
  end.

(** [trabajo.delete_instance()]. *)
Definition Job_delete (s : Store) (id : Z) : Store :=
  {| equipments := equipments s;
     jobs := filter (fun k => negb (job_id k =? id)) (jobs s) |}.

Definition trabajo_delete (env : Env) (trabajo_id : Z) (req : Request) (w : World)
    : Outcome :=
  match (found <- query env (job_by_id (store w) trabajo_id) ;;
         trabajo <- of_option DoesNotExist found ;;
         equipo <- of_option DoesNotExist
                     (equipment_by_id (store w) (equipment trabajo)) ;;
         Ok (eq_id equipo)) with
  | Ok equipo_id =>
      {| response :=
           if substring_in "/trabajos"
                (match referer req with Some r => r | None => "" end)
           then Redirect "trabajos_list" no_arg
           else Redirect "equipo_detail" (int_arg equipo_id);
         flashes := [];
         world := with_store w (Job_delete (store w) trabajo_id) |}
  | Raise _ =>
      {| response := Redirect "trabajos_list" no_arg; flashes := []; world := w |}
  end.

(** ** The owner endpoints *)

(** [Equipment.select().where(Equipment.propietario == name)]. *)
Definition equipos_de (s : Store) (name : string) : list Equipment :=
  filter (fun e => match propietario e with
                   | Some p => String.eqb p name
                   | None => false
                   end) (equipments s).

(** [Equipment.update(propietario=nuevo).where(Equipment.propietario == nombre)
    .execute()]: the table after the update and the number of rows it
    changed. *)
Definition update_propietario (s : Store) (nombre nuevo : string) : Store * Z :=
  ({| equipments :=
        map (fun e =>
               match propietario e with
               | Some p =>
                   if String.eqb p nombre then
                     {| eq_id := eq_id e; marca := marca e; modelo := modelo e;
                        anio := anio e; n_serie := n_serie e;
                        propietario := Some nuevo;
                        vehiculo := vehiculo e; dominio := dominio e;
                        eq_notes := eq_notes e |}
                   else e
               | None => e
               end) (equipments s);
      jobs := jobs s |},
   count (equipos_de s nombre)).

Definition cliente_edit_error (w : World) : Outcome :=
  {| response := Redirect "clientes_list" no_arg;
     flashes := [("Error procesando la solicitud", "error")];
     world := w |}.

Definition cliente_edit (env : Env) (nombre : string) (req : Request) (w : World)
    : Outcome :=
  match method req with
  | POST =>
      let nuevo_nombre := strip (get_default "nuevo_nombre" "" (form req)) in
      if String.eqb nuevo_nombre "" then
        {| response := Redirect "cliente_edit" (str_arg nombre);
           flashes := [("El nombre del cliente es requerido", "error")];
           world := w |}
      else if String.eqb nuevo_nombre nombre then
        {| response := Redirect "cliente_detail" (str_arg nombre);
           flashes := [("El nombre no ha cambiado", "info")];
           world := w |}
      else
        match query env (equipos_de (store w) nuevo_nombre) with
        | Raise _ => cliente_edit_error w
        | Ok (_ :: _) =>
            {| response := Redirect "cliente_edit" (str_arg nombre);
               flashes := [("Ya existe un cliente con ese nombre", "error")];
               world := w |}
        | Ok [] =>
            let '(s', equipos_actualizados) :=
              update_propietario (store w) nombre nuevo_nombre in
            {| response := Redirect "cliente_detail" (str_arg nuevo_nombre);
               flashes :=
                 [(("Cliente actualizado exitosamente. "
                    ++ py_str equipos_actualizados
                    ++ " equipos actualizados.")%string, "success")];
               world := {| store := s';
                           cache := clear_cache_on_equipment_change (cache w) |} |}
        end
  | GET =>
      match query env (equipos_de (store w) nombre) with
      | Raise _ => cliente_edit_error w
      | Ok [] =>
          {| response := Redirect "clientes_list" no_arg;
             flashes := [("Cliente no encontrado", "error")];
             world := w |}
      | Ok es =>
          {| response := Render "cliente_edit.html" (Ctx_cliente_edit nombre (count es));
             flashes := [];
             world := w |}
      end
  end.

Definition clientes_list (env : Env) (req : Request) (w : World) : Outcome :=
  let search := strip (get_default "search" "" (args req)) in
  let equipos_query :=
    if String.eqb search "" then equipments (store w)
    else filter (fun e => match propietario e with
                          | Some p => sql_contains p search
                          | None => false
                          end) (equipments (store w)) in
  match query env equipos_query with
  | Ok es =>
      let data := clientes_data (store w) es in
      {| response := Render "clientes.html" (Ctx_clientes data search (count data));
         flashes := [];
         world := w |}
  | Raise _ =>
      {| response := Render "clientes.html" (Ctx_clientes [] "" 0);
         flashes := [("Error cargando clientes", "error")];
         world := w |}
  end.

(** ** The equipment endpoints *)

Definition equipo_form_data (f : Form) : Form :=
  map (fun k => (k, strip (get_default k "" f)))
      ["marca"; "modelo"; "anio"; "n_serie"; "propietario"; "vehiculo";
       "dominio"; "notes"].

(** The fields a validated form gives an equipment, read in the order of the
    source; [Raise] is the KeyError or ValueError of the first that fails. *)
Record equipo_fields := {
  f_marca : string;
  f_modelo : string;
  f_anio : Z;
  f_n_serie : string;
  f_propietario : option string;
  f_vehiculo : option string;
  f_dominio : option string;
  f_notes : option string
}.

Definition read_fields (d : Form) : result equipo_fields :=
  m <- of_option KeyError (dict_get "marca" d) ;;
  mo <- of_option KeyError (dict_get "modelo" d) ;;
  a <- of_option KeyError (dict_get "anio" d) ;;
  a' <- of_option ValueError (py_int a) ;;
  n <- of_option KeyError (dict_get "n_serie" d) ;;
  p <- of_option KeyError (dict_get "propietario" d) ;;
  v <- of_option KeyError (dict_get "vehiculo" d) ;;
  dm <- of_option KeyError (dict_get "dominio" d) ;;
  nt <- of_option KeyError (dict_get "notes" d) ;;
  Ok {| f_marca := m; f_modelo := mo; f_anio := a'; f_n_serie := n;
        f_propietario := or_None p; f_vehiculo := or_None v;
        f_dominio := or_None dm; f_notes := or_None nt |}.

Definition equipment_of_fields (id : Z) (x : equipo_fields) : Equipment :=
  {| eq_id := id; marca := f_marca x; modelo := f_modelo x; anio := f_anio x;
     n_serie := f_n_serie x; propietario := f_propietario x;
     vehiculo := f_vehiculo x; dominio := f_dominio x; eq_notes := f_notes x |}.

(** [Equipment.create(...)]. *)
Definition Equipment_create (s : Store) (x : equipo_fields) : Store :=
  {| equipments :=
       (equipments s
        ++ [equipment_of_fields (next_id (map eq_id (equipments s))) x])%list;
     jobs := jobs s |}.

(** The [try] block of [equipo_new]. *)
Definition equipo_new_try (env : Env) (f : Form) (s : Store)
    : list flash * result (Store * equipo_fields) :=
  match (validated_data <- validate_equipment_data (equipo_form_data f) ;;
         n <- of_option KeyError (dict_get "n_serie" validated_data) ;;
         existing <- query env
                       (first (filter (fun e => String.eqb (n_serie e) n)
                                      (equipments s))) ;;
         Ok (validated_data, existing)) with
  | Raise e => ([], Raise e)
  | Ok (_, Some _) =>
      ([("Ya existe un equipo con ese número de serie", "error")],
       Raise (ValidationError "Número de serie duplicado"))
  | Ok (validated_data, None) =>
      ([], x <- read_fields validated_data ;; Ok (Equipment_create s x, x))
  end.

Definition equipo_new_except (e : exn) : flash :=
  match e with
  | ValidationError msg => (("Error de validación: " ++ msg)%string, "error")
  | _ => ("Error interno al crear el equipo. Inténtelo nuevamente.", "error")
  end.

(** The form page of [equipo_new], with the memoised vocabulary. *)
Definition equipo_new_form (env : Env) (fl : list flash) (w : World) : Outcome :=
  match get_cached_equipment_autocomplete env (store w) (cache w) with
  | (Ok a, c) =>
      {| response := Render "equipo_form.html" (Ctx_equipo_form None a);
         flashes := fl;
         world := with_cache w c |}
  | (Raise e, c) =>
      {| response := Abort 500; flashes := fl; world := with_cache w c |}
  end.

Definition equipo_new (env : Env) (req : Request) (w : World) : Outcome :=
  match method req with
  | POST =>
      match equipo_new_try env (form req) (store w) with
      | (fl, Ok (s', x)) =>
          {| response := Redirect "equipos_list" no_arg;
             flashes :=
               (fl ++ [(("Equipo " ++ f_marca x ++ " " ++ f_modelo x
                         ++ " creado exitosamente")%string, "success")])%list;
             world := {| store := s';
                         cache := clear_cache_on_equipment_change (cache w) |} |}
      | (fl, Raise e) => equipo_new_form env (fl ++ [equipo_new_except e])%list w
      end
  | GET => equipo_new_form env [] w
  end.

(** The assignments of [equipo_edit], one after the other: the object as the
    first failing assignment leaves it, and that failure. *)
Definition set_marca (v : string) (e : Equipment) : Equipment :=
  {| eq_id := eq_id e; marca := v; modelo := modelo e; anio := anio e;
     n_serie := n_serie e; propietario := propietario e; vehiculo := vehiculo e;
     dominio := dominio e; eq_notes := eq_notes e |}.

Definition set_modelo (v : string) (e : Equipment) : Equipment :=
  {| eq_id := eq_id e; marca := marca e; modelo := v; anio := anio e;
     n_serie := n_serie e; propietario := propietario e; vehiculo := vehiculo e;
     dominio := dominio e; eq_notes := eq_notes e |}.

Definition set_anio (v : Z) (e : Equipment) : Equipment :=
  {| eq_id := eq_id e; marca := marca e; modelo := modelo e; anio := v;
     n_serie := n_serie e; propietario := propietario e; vehiculo := vehiculo e;
     dominio := dominio e; eq_notes := eq_notes e |}.

Definition set_n_serie (v : string) (e : Equipment) : Equipment :=
  {| eq_id := eq_id e; marca := marca e; modelo := modelo e; anio := anio e;
     n_serie := v; propietario := propietario e; vehiculo := vehiculo e;
     dominio := dominio e; eq_notes := eq_notes e |}.

Definition set_propietario (v : option string) (e : Equipment) : Equipment :=
  {| eq_id := eq_id e; marca := marca e; modelo := modelo e; anio := anio e;
     n_serie := n_serie e; propietario := v; vehiculo := vehiculo e;
     dominio := dominio e; eq_notes := eq_notes e |}.

Definition set_vehiculo (v : option string) (e : Equipment) : Equipment :=
  {| eq_id := eq_id e; marca := marca e; modelo := modelo e; anio := anio e;
     n_serie := n_serie e; propietario := propietario e; vehiculo := v;
     dominio := dominio e; eq_notes := eq_notes e |}.

Definition set_dominio (v : option string) (e : Equipment) : Equipment :=
  {| eq_id := eq_id e; marca := marca e; modelo := modelo e; anio := anio e;
     n_serie := n_serie e; propietario := propietario e; vehiculo := vehiculo e;
     dominio := v; eq_notes := eq_notes e |}.

Definition set_notes (v : option string) (e : Equipment) : Equipment :=
  {| eq_id := eq_id e; marca := marca e; modelo := modelo e; anio := anio e;
     n_serie := n_serie e; propietario := propietario e; vehiculo := vehiculo e;
     dominio := dominio e; eq_notes := v |}.

(** One assignment [equipo.field = value]: [r] is the value or the
    exception its expression raises. *)
Definition assign {A} (r : result A) (set : A -> Equipment -> Equipment)
    (k : Equipment -> Equipment * result unit) (e : Equipment)
    : Equipment * result unit :=
  match r with
  | Ok v => k (set v e)
  | Raise x => (e, Raise x)
  end.

Definition assign_fields (d : Form) : Equipment -> Equipment * result unit :=
  assign (of_option KeyError (dict_get "marca" d)) set_marca
  (assign (of_option KeyError (dict_get "modelo" d)) set_modelo
  (assign (a <- of_option KeyError (dict_get "anio" d) ;;
           of_option ValueError (py_int a)) set_anio
  (assign (of_option KeyError (dict_get "n_serie" d)) set_n_serie
  (assign (of_option KeyError (dict_get "propietario" d))
          (fun v => set_propietario (or_None v))
  (assign (of_option KeyError (dict_get "vehiculo" d))
          (fun v => set_vehiculo (or_None v))
  (assign (of_option KeyError (dict_get "dominio" d))
          (fun v => set_dominio (or_None v))
  (assign (of_option KeyError (dict_get "notes" d))
          (fun v => set_notes (or_None v))
  (fun e => (e, Ok tt))))))))).

(** [equipo.save()]. *)
Definition Equipment_save (s : Store) (e : Equipment) : Store :=
  {| equipments := map (fun k => if eq_id k =? eq_id e then e else k) (equipments s);
     jobs := jobs s |}.

(** The [try] block of [equipo_edit]: the messages flashed inside it, the
    object in memory, and whether it was saved. *)
Definition equipo_edit_try (equipo : Equipment) (f : Form) (s : Store)
    : list flash * Equipment * result (Store * Form) :=
  match (validated_data <- validate_equipment_data (equipo_form_data f) ;;
         n <- of_option KeyError (dict_get "n_serie" validated_data) ;;
         Ok (validated_data,
             first (filter (fun e => String.eqb (n_serie e) n
                                     && negb (eq_id e =? eq_id equipo))
                           (equipments s)))) with
  | Raise e => ([], equipo, Raise e)
  | Ok (_, Some _) =>
      ([("Ya existe otro equipo con ese número de serie", "error")], equipo,
       Raise (ValidationError "Número de serie duplicado"))
  | Ok (validated_data, None) =>
      match assign_fields validated_data equipo with
      | (equipo', Ok _) =>
          ([], equipo', Ok (Equipment_save s equipo', validated_data))
      | (equipo', Raise e) => ([], equipo', Raise e)
      end
  end.

Definition equipo_edit_except (e : exn) : flash :=
  match e with
  | ValidationError msg => (("Error de validación: " ++ msg)%string, "error")
  | _ => ("Error interno al actualizar el equipo. Inténtelo nuevamente.", "error")
  end.

Definition equipo_edit (env : Env) (equipo_id : Z) (req : Request) (w : World)
    : Outcome :=
  match query env (equipment_by_id (store w) equipo_id) with
  | Raise e => uncaught e w
  | Ok None =>
      {| response := Redirect "equipos_list" no_arg;
         flashes := [("Equipo no encontrado", "error")];
         world := w |}
  | Ok (Some equipo) =>
      let form_page fl e :=
        {| response := Render "equipo_form.html"
                         (Ctx_equipo_form (Some e) (autocomplete_try (store w)));
           flashes := fl;
           world := w |} in
      match method req with
      | POST =>
          match equipo_edit_try equipo (form req) (store w) with
          | (fl, _, Ok (s', validated_data)) =>
              {| response := Redirect "equipo_detail" (int_arg equipo_id);
                 flashes :=
                   (fl ++ [(("Equipo " ++ get_default "marca" "" validated_data
                             ++ " " ++ get_default "modelo" "" validated_data
                             ++ " actualizado exitosamente")%string, "success")])%list;
                 world := with_store w s' |}
          | (fl, equipo', Raise e) =>
              form_page (fl ++ [equipo_edit_except e])%list equipo'
          end
      | GET => form_page [] equipo
      end
  end.

(** [equipo.delete_instance(recursive=True)]: the equipment's jobs, then the
    equipment. *)
Definition Equipment_delete (s : Store) (id : Z) : Store :=
  {| equipments := filter (fun e => negb (eq_id e =? id)) (equipments s);
     jobs := filter (fun j => negb (equipment j =? id)) (jobs s) |}.

Definition equipo_delete (env : Env) (equipo_id : Z) (w : World) : Outcome :=
  match (found <- query env (equipment_by_id (store w) equipo_id) ;;
         of_option DoesNotExist found) with
  | Ok _ =>
      {| response := Redirect "equipos_list" no_arg;
         flashes := [];
         world := with_store w (Equipment_delete (store w) equipo_id) |}
  | Raise _ =>
      {| response := Redirect "equipos_list" no_arg; flashes := []; world := w |}
  end.

Definition equipo_detail (env : Env) (equipo_id : Z) (w : World) : Outcome :=
  match (found <- query env (equipment_by_id (store w) equipo_id) ;;
         of_option DoesNotExist found) with
  | Ok equipo =>
      {| response := Render "equipo_detail.html"
                       (Ctx_equipo_detail (equipo_detail_data_of (store w) equipo));
         flashes := [];
         world := w |}
  | Raise e => uncaught e w
  end.

(** ** Statistics and administration *)

Definition estadisticas_data_of (env : Env) (s : Store) : result estadisticas_data :=
  _ <- query env tt ;;
  meses <- gastos_mes (today env) (jobs s) ;;
  Ok {| est_total_equipment := count (equipments s);
        est_total_jobs := count (jobs s);
        est_total_budget := sum_budget (jobs s);
        est_avg_budget := avg_budget s;
        est_top_equipos := top_equipos s;
        est_gastos_mes := meses;
        est_marcas_dist := marcas_dist s |}.

Definition estadisticas (env : Env) (w : World) : Outcome :=
  match estadisticas_data_of env (store w) with
  | Ok d =>
      {| response := Render "estadisticas.html" (Ctx_estadisticas d);
         flashes := [];
         world := w |}
  | Raise e => uncaught e w
  end.

Definition dquote : string := String (ascii_of_nat 34) EmptyString.

Definition clear_all_data_route (req : Request) (w : World) : Outcome :=
  let confirmation := upper (strip (get_default "confirmation" "" (form req))) in
  if negb (String.eqb confirmation "CONFIRMAR") then
    {| response := Redirect "admin_panel" no_arg;
       flashes := [(("Debe escribir " ++ dquote ++ "CONFIRMAR" ++ dquote
                     ++ " para proceder")%string, "error")];
       world := w |}
  else
    match clear_all_data (store w) with
    | (s', inr (true, message)) =>
        {| response := Redirect "admin_panel" no_arg;
           flashes := [(message, "success")];
           world := {| store := s'; cache := cache_clear (cache w) |} |}
    | (s', inr (false, error)) =>
        {| response := Redirect "admin_panel" no_arg;
           flashes := [(("Error limpiando datos: " ++ error)%string, "error")];
           world := with_store w s' |}
    | (s', inl e) =>
        {| response := Redirect "admin_panel" no_arg;
           flashes := [(("Error interno: " ++ e)%string, "error")];
           world := with_store w s' |}
    end.

End Endpoints.

(** ** A library instance to run the endpoints on concrete requests

    Plain readings of the library functions on the inputs the examples use:
    zero-padded ISO dates, decimal integers, ASCII blanks and letters. *)

Module Reference.

Definition is_digit (c : ascii) : bool :=
  (48 <=? nat_of_ascii c)%nat && (nat_of_ascii c <=? 57)%nat.

Fixpoint digits (s : string) (acc : Z) : option Z :=
  match s with
  | EmptyString => Some acc
  | String c r =>
      if is_digit c then digits r (10 * acc + Z.of_nat (nat_of_ascii c - 48))
      else None
  end.

Definition natural (s : string) : option Z :=
  match s with
  | EmptyString => None
  | _ => digits s 0
  end.

Definition int (s : string) : option Z :=
  match s with
  | String "-" r => option_map Z.opp (natural r)
  | _ => natural s
  end.

Definition float (s : string) : option Q :=
  option_map inject_Z (int s).

Definition strptime (s : string) : option date :=
  match natural (substring 0 4 s), natural (substring 5 2 s),
        natural (substring 8 2 s) with
  | Some y, Some m, Some d =>
      if (String.length s =? 10)%nat
         && String.eqb (substring 4 1 s) "-" && String.eqb (substring 7 1 s) "-"
         && (1 <=? y) && (1 <=? m) && (m <=? 12)
         && (1 <=? d) && (d <=? days_in_month y m)
      then Some (ymd2ord y m d) else None
  | _, _, _ => None
  end.

Definition is_blank (c : ascii) : bool :=
  let n := nat_of_ascii c in
  ((9 <=? n)%nat && (n <=? 13)%nat) || (n =? 32)%nat.

Fixpoint lstrip (s : string) : string :=
  match s with
  | String c r => if is_blank c then lstrip r else s
  | EmptyString => EmptyString
  end.

Fixpoint rstrip (s : string) : string :=
  match s with
  | String c r =>
      match rstrip r with
      | EmptyString => if is_blank c then EmptyString else String c EmptyString
      | r' => String c r'
      end
  | EmptyString => EmptyString
  end.

Definition upper_char (c : ascii) : ascii :=
  let n := nat_of_ascii c in
  if (97 <=? n)%nat && (n <=? 122)%nat then ascii_of_nat (n - 32) else c.

Fixpoint map_string (f : ascii -> ascii) (s : string) : string :=
  match s with
  | String c r => String (f c) (map_string f r)
  | EmptyString => EmptyString
  end.

Definition lib : PyLib :=
  {| strptime_ymd := strptime;
     py_int := int;
     py_float := float;
     strip := fun s => rstrip (lstrip s);
     upper := map_string upper_char;
     sql_contains := fun field s =>
       substring_in (map_string upper_char s) (map_string upper_char field) |}.

(** Validators that accept every form, and a wipe that empties both tables. *)
Definition utils : Utils :=
  {| validate_equipment_data := fun f => Ok f;
     validate_job_data := fun f => Ok f;
     clear_all_data := fun _ => (empty_store, inr (true, "Datos eliminados")) |}.

End Reference.

(** ** Example data

    The scenario of the specification (equipment E1 with jobs J1 and J2,
    entered through the global job form) and a store with two owners. *)

Module Scenario.

Definition E1 : Equipment :=
  {| eq_id := 1; marca := "Bosch"; modelo := "GSB 13"; anio := 2020;
     n_serie := "SN-1"; propietario := None; vehiculo := None; dominio := None;
     eq_notes := None |}.

Definition env_at (seconds : Z) (d : date) (up : bool) : Env :=
  {| now := seconds; today := d; db_up := up |}.

Definition post (f : Form) : Request :=
  {| method := POST; form := f; args := []; referer := None |}.

Definition job_form (date_done budget days : string) : Form :=
  [("equipo_id", "1"); ("date_done", date_done); ("description", "service");
   ("budget", budget); ("next_service_days", days); ("notes", "")].

Definition equipo_form (serie : string) : Form :=
  [("marca", "Bosch"); ("modelo", "GSB 13"); ("anio", "2021"); ("n_serie", serie);
   ("propietario", "Ana"); ("vehiculo", ""); ("dominio", ""); ("notes", "")].

Definition w0 : World :=
  {| store := {| equipments := [E1]; jobs := [] |}; cache := empty_cache |}.

(** The store after J1 and J2 were entered through [trabajo_new_global]. *)
Definition w2 : World :=
  world (trabajo_new_global (lib := Reference.lib)
           (env_at 0 (ymd2ord 2024 2 10) true)
           (post (job_form "2024-02-01" "50" "15"))
           (world (trabajo_new_global (lib := Reference.lib)
                     (env_at 0 (ymd2ord 2024 2 10) true)
                     (post (job_form "2024-01-10" "100" "30")) w0))).

Definition owned (id : Z) (serie : string) (owner : option string) : Equipment :=
  {| eq_id := id; marca := "Bosch"; modelo := "GSB 13"; anio := 2020;
     n_serie := serie; propietario := owner; vehiculo := None; dominio := None;
     eq_notes := None |}.

Definition job_on (id : Z) (d : date) (b : Q) (due : option date) : Job :=
  {| job_id := id; equipment := 1; date_done := d; description := "service";
     budget := b; next_service_days := None; next_service_date := due;
     notes := None |}.

End Scenario.

Module Owners.
Import Scenario.

Definition rename (nuevo : string) : Request :=
  post [("nuevo_nombre", nuevo)].

(** Two owners, and a cache that holds the equipment count. *)
Definition w_owners : World :=
  {| store := {| equipments := [owned 1 "SN-1" (Some "Ana"); owned 2 "SN-2" (Some "Luis");
                                owned 3 "SN-3" (Some "Ana")];
                 jobs := [] |};
     cache := snd (get_cached_equipment_count (env_at 0 (ymd2ord 2024 2 10) true)
                     {| equipments := [owned 1 "SN-1" (Some "Ana");
                                       owned 2 "SN-2" (Some "Luis");
                                       owned 3 "SN-3" (Some "Ana")];
                        jobs := [] |} empty_cache) |}.

End Owners.

(** ** Relations the statements use *)

(** The next service date a job's interval asks for: the date performed
    plus the interval, and none for no interval or the interval 0. *)
Definition next_date_ok (j : Job) : Prop :=
  next_service_date j =
  match next_service_days j with
  | Some n => if n =? 0 then None else Some (date_done j + n)
  | None => None
  end.

Definition jobs_ok (s : Store) : Prop :=
  forall j, In j (jobs s) -> next_date_ok j.

(** The sum of a list of integers. *)
Definition sumZ (l : list Z) : Z := fold_right Z.add 0 l.

(** What the grouping loop keeps true of the dict [d] after the equipment
    [done]: the names are distinct; each entry counts its equipment, has at
    least one, all of them processed and of that owner; every processed
    equipment is in the entry of its owner; and the counts add up. *)
Definition grouped (d : list cliente) (done : list Equipment) : Prop :=
  NoDup (map nombre d)
  /\ (forall c, In c d ->
        total_equipos c = count (equipos c) /\ 1 <= total_equipos c
        /\ forall e, In e (equipos c) -> In e done /\ owner_or_default e = nombre c)
  /\ (forall e, In e done ->
        exists c, In c d /\ nombre c = owner_or_default e /\ In e (equipos c))
  /\ sumZ (map total_equipos d) = count done.


(** Every job belongs to an equipment of the store. *)
Definition no_orphans (s : Store) : Prop :=
  forall j, In j (jobs s) -> exists e, In e (equipments s) /\ eq_id e = equipment j.

(** No two equipment rows share a serial number, or an id. *)
Definition unique_series (s : Store) : Prop := NoDup (map n_serie (equipments s)).

Definition unique_ids (s : Store) : Prop := NoDup (map eq_id (equipments s)).

(** A row after the rename of [nombre] to [nuevo]: a row of that owner has
    the new owner and is otherwise the same; any other row is the same. *)
Definition renamed (nombre nuevo : string) (e e' : Equipment) : Prop :=
  (propietario e = Some nombre -> e' = set_propietario (Some nuevo) e)
  /\ (propietario e <> Some nombre -> e' = e).


(** ** Checks over a range of integers, for the calendar's tables *)

Fixpoint all_from (k : nat) (z : Z) (f : Z -> bool) : bool :=
  match k with
  | O => true
  | S k' => f z && all_from k' (z + 1) f
  end.

Definition month_day_ok (leap : bool) (k : Z) : bool :=
  let '(m, d) := month_day leap k in
  (1 <=? m) && (m <=? 12) && (1 <=? d)
  && (d <=? (if (m =? 2) && leap then 29 else DAYS_IN_MONTH m))
  && (DAYS_BEFORE_MONTH m + (if (2 <? m) && leap then 1 else 0) + d =? k + 1).

Definition month_day_inv_ok (leap : bool) (m : Z) : bool :=
  all_from 31 1 (fun d =>
    negb (d <=? (if (m =? 2) && leap then 29 else DAYS_IN_MONTH m))
    || (let '(m', d') :=
          month_day leap
            (DAYS_BEFORE_MONTH m + (if (2 <? m) && leap then 1 else 0) + d - 1) in
        (m' =? m) && (d' =? d))).

(* ================================================================== *)
(** * Theorems *)
(* ================================================================== *)

Unset Implicit Arguments.

Import Scenario Owners.

(** ** The calendar *)

Ltac month_calc :=
  cbv [DAYS_BEFORE_MONTH DAYS_IN_MONTH Z.eqb Z.ltb Z.compare Pos.eqb Pos.compare
       Pos.compare_cont andb negb orb] in *.

Ltac fold_sums :=
  repeat match goal with
         | |- context [Z.pos ?a + Z.pos ?b] =>
             let c := eval vm_compute in (Z.pos a + Z.pos b) in
             change (Z.pos a + Z.pos b) with c
         end.

Lemma is_leap_spec y :
  is_leap y = true <-> (y mod 4 = 0 /\ (y mod 100 <> 0 \/ y mod 400 = 0)).
Proof.
  unfold is_leap.
  rewrite andb_true_iff, orb_true_iff, negb_true_iff, !Z.eqb_eq, Z.eqb_neq.
  tauto.
Qed.

Lemma days_before_year_succ y :
  days_before_year (y + 1) = days_before_year y + (if is_leap y then 366 else 365).
Proof.
  unfold days_before_year.
  destruct (is_leap y) eqn:E.
  - apply is_leap_spec in E. Z.div_mod_to_equations; lia.
  - assert (~ (y mod 4 = 0 /\ (y mod 100 <> 0 \/ y mod 400 = 0))) as N.
    { intro H. apply is_leap_spec in H. congruence. }
    Z.div_mod_to_equations; lia.
Qed.

Lemma month_day_last : month_day true 365 = (12, 31).
Proof. reflexivity. Qed.

Lemma ord2ymd_year n0 :
  let '(y, m, d) := ord2ymd n0 in
  let k := n0 - 1 - days_before_year y in
  0 <= k < (if is_leap y then 366 else 365) /\ (m, d) = month_day (is_leap y) k.
Proof.
  unfold ord2ymd, DI400Y, DI100Y, DI4Y.
  set (n := n0 - 1).
  pose proof (Z.div_mod n 146097 ltac:(lia)) as H400.
  pose proof (Z.mod_pos_bound n 146097 ltac:(lia)) as B400.
  set (a := n / 146097) in *. set (r400 := n mod 146097) in *.
  pose proof (Z.div_mod r400 36524 ltac:(lia)) as H100.
  pose proof (Z.mod_pos_bound r400 36524 ltac:(lia)) as B100.
  set (b := r400 / 36524) in *. set (r100 := r400 mod 36524) in *.
  pose proof (Z.div_mod r100 1461 ltac:(lia)) as H4.
  pose proof (Z.mod_pos_bound r100 1461 ltac:(lia)) as B4.
  set (c := r100 / 1461) in *. set (r4 := r100 mod 1461) in *.
  pose proof (Z.div_mod r4 365 ltac:(lia)) as H1.
  pose proof (Z.mod_pos_bound r4 365 ltac:(lia)) as B1.
  set (e := r4 / 365) in *. set (r1 := r4 mod 365) in *.
  assert (0 <= b <= 4) by lia.
  assert (0 <= c <= 24) by lia.
  assert (0 <= e <= 4) by lia.
  destruct ((e =? 4) || (b =? 4)) eqn:E.
  - (* the last day of a leap year *)
    assert (Hy : a * 400 + 1 + b * 100 + c * 4 + e - 1 = 400 * a + 100 * b + 4 * c + e) by lia.
    rewrite Hy.
    assert (L : is_leap (400 * a + 100 * b + 4 * c + e) = true).
    { apply is_leap_spec. apply orb_true_iff in E.
      destruct E as [E|E]; apply Z.eqb_eq in E.
      - assert (c < 24 \/ c = 24 /\ b < 3 \/ c = 24 /\ b = 3) as [?|[?|?]] by lia;
          Z.div_mod_to_equations; lia.
      - assert (c = 0 /\ e = 0) as [-> ->] by lia. subst b.
        Z.div_mod_to_equations; lia. }
    rewrite L. cbv zeta.
    assert (K : n - days_before_year (400 * a + 100 * b + 4 * c + e) = 365).
    { unfold days_before_year.
      apply orb_true_iff in E. destruct E as [E|E]; apply Z.eqb_eq in E.
      - Z.div_mod_to_equations; lia.
      - assert (c = 0 /\ e = 0) as [-> ->] by lia. subst b.
        Z.div_mod_to_equations; lia. }
    rewrite K. split; [lia|reflexivity].
  - apply orb_false_iff in E. destruct E as [E1 E2].
    apply Z.eqb_neq in E1, E2.
    assert (Hy : a * 400 + 1 + b * 100 + c * 4 + e = 400 * a + 100 * b + 4 * c + e + 1) by lia.
    rewrite Hy.
    set (y := 400 * a + 100 * b + 4 * c + e + 1).
    assert (D : days_before_year y = 146097 * a + 36524 * b + 1461 * c + 365 * e).
    { unfold days_before_year, y. Z.div_mod_to_equations; lia. }
    assert (L : is_leap y = (e =? 3) && (negb (c =? 24) || (b =? 3))).
    { apply eq_true_iff_eq. rewrite is_leap_spec.
      rewrite andb_true_iff, orb_true_iff, negb_true_iff, !Z.eqb_eq, Z.eqb_neq.
      unfold y. split; intros; Z.div_mod_to_equations; lia. }
    rewrite <- L.
    destruct (month_day (is_leap y) r1) as [m d] eqn:MD.
    cbv zeta.
    assert (K : n - days_before_year y = r1) by lia.
    rewrite K, MD. split; [|reflexivity].
    destruct (is_leap y); lia.
Qed.

Lemma all_from_spec f n : forall z,
  all_from n z f = true -> forall x, z <= x < z + Z.of_nat n -> f x = true.
Proof.
  induction n as [|n IH]; intros z H x Hx.
  - simpl in Hx. lia.
  - simpl in H. apply andb_true_iff in H. destruct H as [H0 H1].
    destruct (Z.eq_dec x z) as [->|N]; [assumption|].
    apply (IH (z + 1) H1). lia.
Qed.

Lemma month_day_spec (leap : bool) (k : Z) :
  0 <= k < (if leap then 366 else 365) ->
  let '(m, d) := month_day leap k in
  1 <= m <= 12 /\ 1 <= d <= (if (m =? 2) && leap then 29 else DAYS_IN_MONTH m)
  /\ DAYS_BEFORE_MONTH m + (if (2 <? m) && leap then 1 else 0) + d = k + 1.
Proof.
  intros Hk.
  assert (H : month_day_ok leap k = true).
  { destruct leap.
    - apply (@all_from_spec (month_day_ok true) 366 0); [vm_compute; reflexivity|lia].
    - apply (@all_from_spec (month_day_ok false) 365 0); [vm_compute; reflexivity|lia]. }
  unfold month_day_ok in H. destruct (month_day leap k) as [m d].
  rewrite !andb_true_iff, !Z.leb_le, Z.eqb_eq in H. lia.
Qed.

(** Every ordinal is the ordinal of the date [ord2ymd] gives it. *)
Lemma ord2ymd_valid n y m d :
  ord2ymd n = (y, m, d) ->
  1 <= m <= 12 /\ 1 <= d <= days_in_month y m /\ ymd2ord y m d = n.
Proof.
  intros E. pose proof (ord2ymd_year n) as H. rewrite E in H.
  cbv zeta in H. destruct H as [Hk Hmd].
  pose proof (@month_day_spec (is_leap y) _ Hk) as S.
  rewrite <- Hmd in S. destruct S as (Hm & Hd & Hs).
  unfold days_in_month, ymd2ord, days_before_month. repeat split; try lia.
Qed.

Lemma days_before_year_mono y y' : y <= y' -> days_before_year y <= days_before_year y'.
Proof.
  unfold days_before_year. intros L.
  pose proof (Z.div_le_mono (y - 1) (y' - 1) 4 ltac:(lia) ltac:(lia)).
  pose proof (Z.div_le_mono (y - 1) (y' - 1) 400 ltac:(lia) ltac:(lia)).
  pose proof (Z.div_le_mono (y' - 1) (y - 1 + (y' - y) * 100) 100 ltac:(lia) ltac:(lia)) as H100.
  rewrite Z.div_add in H100 by lia.
  cbv zeta. lia.
Qed.

Lemma day_of_year_bounds y m d :
  1 <= m <= 12 -> 1 <= d <= days_in_month y m ->
  1 <= days_before_month y m + d <= (if is_leap y then 366 else 365).
Proof.
  intros Hm Hd. unfold days_before_month, days_in_month in *.
  assert (m = 1 \/ m = 2 \/ m = 3 \/ m = 4 \/ m = 5 \/ m = 6 \/ m = 7 \/ m = 8
          \/ m = 9 \/ m = 10 \/ m = 11 \/ m = 12) as C by lia.
  revert Hd. destruct (is_leap y); intros Hd.
  all: repeat (destruct C as [->|C]; [month_calc; lia|]); subst; month_calc; lia.
Qed.

Lemma month_day_inv (leap : bool) (m d : Z) :
  1 <= m <= 12 -> 1 <= d <= (if (m =? 2) && leap then 29 else DAYS_IN_MONTH m) ->
  month_day leap (DAYS_BEFORE_MONTH m + (if (2 <? m) && leap then 1 else 0) + d - 1)
  = (m, d).
Proof.
  intros Hm Hd.
  assert (H : month_day_inv_ok leap m = true).
  { destruct leap.
    - apply (@all_from_spec (month_day_inv_ok true) 12 1); [vm_compute; reflexivity|lia].
    - apply (@all_from_spec (month_day_inv_ok false) 12 1); [vm_compute; reflexivity|lia]. }
  unfold month_day_inv_ok in H.
  pose proof (@all_from_spec _ 31 1 H d) as H'.
  assert (d <= 31).
  { assert (m = 1 \/ m = 2 \/ m = 3 \/ m = 4 \/ m = 5 \/ m = 6 \/ m = 7 \/ m = 8
          \/ m = 9 \/ m = 10 \/ m = 11 \/ m = 12) as C by lia.
    destruct leap; repeat (destruct C as [->|C]; [month_calc; lia|]); subst; month_calc; lia. }
  specialize (H' ltac:(lia)). cbv beta in H'.
  apply orb_true_iff in H'. destruct H' as [H'|H'].
  - apply negb_true_iff, Z.leb_gt in H'. lia.
  - destruct (month_day leap _) as [m' d'].
    apply andb_true_iff in H'. destruct H' as [A B].
    apply Z.eqb_eq in A, B. congruence.
Qed.

(** The date [ord2ymd] gives the ordinal of a valid date is that date. *)
Lemma ord2ymd_ymd2ord y m d :
  1 <= m <= 12 -> 1 <= d <= days_in_month y m ->
  ord2ymd (ymd2ord y m d) = (y, m, d).
Proof.
  intros Hm Hd.
  pose proof (day_of_year_bounds y m d Hm Hd) as B.
  pose proof (ord2ymd_year (ymd2ord y m d)) as H.
  destruct (ord2ymd (ymd2ord y m d)) as [[y' m'] d'].
  cbv zeta in H. destruct H as [Hk Hmd].
  assert (y' = y).
  { unfold ymd2ord in Hk.
    destruct (Z.lt_trichotomy y' y) as [L|[E|L]]; [|assumption|].
    - pose proof (days_before_year_mono (y' + 1) y ltac:(lia)).
      rewrite days_before_year_succ in H. lia.
    - pose proof (days_before_year_mono (y + 1) y' ltac:(lia)).
      rewrite days_before_year_succ in H. lia. }
  subst y'.
  replace (ymd2ord y m d - 1 - days_before_year y)
    with (DAYS_BEFORE_MONTH m + (if (2 <? m) && is_leap y then 1 else 0) + d - 1)
    in Hmd by (unfold ymd2ord, days_before_month; lia).
  rewrite month_day_inv in Hmd by (unfold days_in_month in Hd; assumption).
  congruence.
Qed.

Lemma days_in_month_bounds y m : 1 <= m <= 12 -> 28 <= days_in_month y m <= 31.
Proof.
  intros Hm. unfold days_in_month.
  assert (m = 1 \/ m = 2 \/ m = 3 \/ m = 4 \/ m = 5 \/ m = 6 \/ m = 7 \/ m = 8
          \/ m = 9 \/ m = 10 \/ m = 11 \/ m = 12) as C by lia.
  destruct (is_leap y);
    repeat (destruct C as [->|C]; [month_calc; lia|]); subst; month_calc; lia.
Qed.

(** The first day of the next month follows the last day of this one. *)
Lemma first_day_next y m :
  1 <= m <= 12 ->
  first_day (if m =? 12 then y + 1 else y) (if m =? 12 then 1 else m + 1)
  = first_day y m + days_in_month y m.
Proof.
  intros Hm. unfold first_day, ymd2ord, days_before_month, days_in_month.
  assert (m = 1 \/ m = 2 \/ m = 3 \/ m = 4 \/ m = 5 \/ m = 6 \/ m = 7 \/ m = 8
          \/ m = 9 \/ m = 10 \/ m = 11 \/ m = 12) as C by lia.
  repeat (destruct C as [->|C];
          [month_calc; fold_sums; month_calc; destruct (is_leap y); lia|]).
  subst. month_calc. rewrite days_before_year_succ.
  destruct (is_leap y), (is_leap (y + 1)); lia.
Qed.

Lemma month_first_succ i :
  month_first (i + 1) = month_first i + days_in_month (i / 12) (i mod 12 + 1).
Proof.
  unfold month_first.
  pose proof (Z.mod_pos_bound i 12 ltac:(lia)) as B.
  rewrite <- (first_day_next (i / 12) (i mod 12 + 1)) by lia.
  destruct (i mod 12 + 1 =? 12) eqn:E.
  - apply Z.eqb_eq in E.
    replace ((i + 1) / 12) with (i / 12 + 1) by (Z.div_mod_to_equations; lia).
    replace ((i + 1) mod 12 + 1) with 1 by (Z.div_mod_to_equations; lia).
    reflexivity.
  - apply Z.eqb_neq in E.
    replace ((i + 1) / 12) with (i / 12) by (Z.div_mod_to_equations; lia).
    replace ((i + 1) mod 12 + 1) with (i mod 12 + 1 + 1) by (Z.div_mod_to_equations; lia).
    reflexivity.
Qed.

Lemma month_first_lt_succ i : month_first i + 28 <= month_first (i + 1) <= month_first i + 31.
Proof.
  rewrite month_first_succ.
  pose proof (Z.mod_pos_bound i 12 ltac:(lia)).
  pose proof (days_in_month_bounds (i / 12) (i mod 12 + 1) ltac:(lia)). lia.
Qed.

Lemma month_first_mono i j : i <= j -> month_first i <= month_first j.
Proof.
  intros L. replace j with (i + Z.of_nat (Z.to_nat (j - i))) by lia.
  induction (Z.to_nat (j - i)) as [|n IH].
  - rewrite Z.add_0_r. lia.
  - replace (i + Z.of_nat (S n)) with (i + Z.of_nat n + 1) by lia.
    pose proof (month_first_lt_succ (i + Z.of_nat n)). lia.
Qed.

Lemma month_first_lt i j : i < j -> month_first i < month_first j.
Proof.
  intros L. pose proof (month_first_mono (i + 1) j ltac:(lia)).
  pose proof (month_first_lt_succ i). lia.
Qed.

(** A date lies in the month of its month index. *)
Lemma month_index_bounds n :
  month_first (month_index n) <= n < month_first (month_index n + 1).
Proof.
  unfold month_index, year_month.
  destruct (ord2ymd n) as [[y m] d] eqn:E.
  destruct (@ord2ymd_valid n y m d E) as (Hm & Hd & Hn).
  rewrite month_first_succ. unfold month_first.
  replace ((12 * y + (m - 1)) / 12) with y by (Z.div_mod_to_equations; lia).
  replace ((12 * y + (m - 1)) mod 12 + 1) with m by (Z.div_mod_to_equations; lia).
  unfold first_day. unfold ymd2ord in *. lia.
Qed.

Lemma month_index_unique n i :
  month_first i <= n < month_first (i + 1) -> month_index n = i.
Proof.
  intros H. pose proof (month_index_bounds n) as B.
  destruct (Z.lt_trichotomy (month_index n) i) as [L|[E|L]]; [|assumption|].
  - pose proof (month_first_mono (month_index n + 1) i ltac:(lia)). lia.
  - pose proof (month_first_mono (i + 1) (month_index n) ltac:(lia)). lia.
Qed.

Lemma month_index_mono n n' : n <= n' -> month_index n <= month_index n'.
Proof.
  intros L. pose proof (month_index_bounds n). pose proof (month_index_bounds n').
  destruct (Z_le_gt_dec (month_index n) (month_index n')) as [|G]; [assumption|].
  pose proof (month_first_mono (month_index n' + 1) (month_index n) ltac:(lia)). lia.
Qed.

Lemma replace_day1_month_first n : replace_day1 n = month_first (month_index n).
Proof.
  unfold replace_day1, month_index, year_month, month_first, first_day.
  destruct (ord2ymd n) as [[y m] d] eqn:E.
  destruct (@ord2ymd_valid n y m d E) as (Hm & Hd & Hn).
  replace ((12 * y + (m - 1)) / 12) with y by (Z.div_mod_to_equations; lia).
  replace ((12 * y + (m - 1)) mod 12 + 1) with m by (Z.div_mod_to_equations; lia).
  reflexivity.
Qed.

(** [replace(day=1)] after 32 days from the first of a month is the first of
    the next month. *)
Lemma next_month_first i :
  replace_day1 (month_first i + 32) = month_first (i + 1).
Proof.
  rewrite replace_day1_month_first. f_equal. apply month_index_unique.
  pose proof (month_first_lt_succ i). pose proof (month_first_lt_succ (i + 1)). lia.
Qed.

Lemma month_first_last_day i :
  month_first (i + 1) - 1 = last_day (i / 12) (i mod 12 + 1).
Proof.
  rewrite month_first_succ. unfold month_first, first_day, last_day, ymd2ord. lia.
Qed.

Lemma month_index_year_month n y m :
  year_month n = (y, m) -> month_index n / 12 = y /\ month_index n mod 12 + 1 = m.
Proof.
  unfold month_index, year_month. destruct (ord2ymd n) as [[y' m'] d] eqn:E.
  intros [= -> ->]. destruct (@ord2ymd_valid n y m d E) as (Hm & _).
  split; Z.div_mod_to_equations; lia.
Qed.
(** ** Sorting and the latest job *)

Section Sorting.

Context {A : Type} (leb : A -> A -> bool).

Lemma insert_by_perm x l : Permutation (insert_by leb x l) (x :: l).
Proof.
  induction l as [|y r IH]; simpl; [reflexivity|].
  destruct (leb x y); [reflexivity|].
  rewrite IH. apply perm_swap.
Qed.

Lemma sort_by_perm l : Permutation (sort_by leb l) l.
Proof.
  induction l as [|x r IH]; simpl; [reflexivity|].
  rewrite insert_by_perm. constructor. assumption.
Qed.

Lemma sort_by_In x l : In x (sort_by leb l) <-> In x l.
Proof.
  split; apply Permutation_in; [|symmetry]; apply sort_by_perm.
Qed.

Lemma sort_by_length l : List.length (sort_by leb l) = List.length l.
Proof. apply Permutation_length, sort_by_perm. Qed.

Hypothesis leb_total : forall a b, leb a b = false -> leb b a = true.
Hypothesis leb_trans : forall a b c, leb a b = true -> leb b c = true -> leb a c = true.

Lemma insert_by_sorted x l :
  StronglySorted (fun a b => leb a b = true) l ->
  StronglySorted (fun a b => leb a b = true) (insert_by leb x l).
Proof.
  induction 1 as [|y r Hr IH Hy]; simpl.
  - repeat constructor.
  - destruct (leb x y) eqn:E.
    + constructor; [constructor; assumption|].
      constructor; [assumption|].
      rewrite Forall_forall in *. intros z Hz. eapply leb_trans; eauto.
    + constructor; [assumption|].
      rewrite Forall_forall in *. intros z Hz.
      apply (Permutation_in _ (insert_by_perm x r)) in Hz.
      destruct Hz as [<-|Hz]; [apply leb_total; assumption|apply Hy; assumption].
Qed.

Lemma sort_by_sorted l : StronglySorted (fun a b => leb a b = true) (sort_by leb l).
Proof.
  induction l as [|x r IH]; simpl; [constructor|].
  apply insert_by_sorted. assumption.
Qed.

End Sorting.

Lemma sort_by_key_sorted {A} (key : A -> Z) (l : list A) :
  StronglySorted (fun a b => key a <= key b)
                 (sort_by (fun a b => key a <=? key b) l).
Proof.
  eapply StronglySorted_ind with
    (P := fun l => StronglySorted (fun a b => key a <= key b) l);
    [constructor| |apply (sort_by_sorted (fun a b => key a <=? key b))].
  - intros a r _ IH Ha. constructor; [assumption|].
    eapply Forall_impl; [|exact Ha]. intros b Hb. apply Z.leb_le. assumption.
  - intros a b E. apply Z.leb_gt in E. apply Z.leb_le. lia.
  - intros a b c H1 H2. apply Z.leb_le in H1, H2. apply Z.leb_le. lia.
Qed.

Lemma first_sort_by_max {A} (leb : A -> A -> bool) (l : list A) (x : A) :
  (forall a b, leb a b = false -> leb b a = true) ->
  (forall a b c, leb a b = true -> leb b c = true -> leb a c = true) ->
  (forall a, leb a a = true) ->
  first (sort_by leb l) = Some x ->
  In x l /\ forall y, In y l -> leb x y = true.
Proof.
  intros Ht Htr Hr H.
  pose proof (sort_by_sorted leb Ht Htr l) as S.
  unfold first in H. destruct (sort_by leb l) as [|h r] eqn:E; [discriminate|].
  injection H as ->.
  assert (I : forall y, In y l <-> In y (x :: r)).
  { intros y. rewrite <- E. symmetry. apply sort_by_In. }
  split; [apply I; left; reflexivity|].
  intros y Hy. apply I in Hy. destruct Hy as [<-|Hy]; [apply Hr|].
  inversion S as [|? ? _ F]; subst. rewrite Forall_forall in F. apply F, Hy.
Qed.

Lemma first_sort_by_none {A} (leb : A -> A -> bool) (l : list A) :
  first (sort_by leb l) = None -> l = [].
Proof.
  intros H. pose proof (sort_by_length leb l) as L.
  unfold first in H. destruct (sort_by leb l); [|discriminate].
  destruct l; [reflexivity|discriminate].
Qed.

Lemma jobs_of_In s e j :
  In j (jobs_of s e) <-> In j (jobs s) /\ equipment j = eq_id e.
Proof.
  unfold jobs_of. rewrite filter_In, Z.eqb_eq. tauto.
Qed.

(** The job the loop takes is a job of the equipment, and none of its jobs is
    later. *)
Lemma last_job_latest s e j :
  last_job s e = Some j ->
  In j (jobs s) /\ equipment j = eq_id e
  /\ forall j', In j' (jobs s) -> equipment j' = eq_id e -> date_done j' <= date_done j.
Proof.
  unfold last_job, order_by_date_done_desc. intros H.
  apply first_sort_by_max in H.
  - destruct H as [I M]. apply jobs_of_In in I. destruct I as [I1 I2].
    repeat split; try assumption.
    intros j' H1 H2. apply Z.leb_le, M, jobs_of_In. auto.
  - intros a b E. apply Z.leb_gt in E. apply Z.leb_le. lia.
  - intros a b c H1 H2. apply Z.leb_le in H1, H2. apply Z.leb_le. lia.
  - intros a. apply Z.leb_refl.
Qed.

Lemma last_job_none s e :
  last_job s e = None <-> jobs_of s e = [].
Proof.
  unfold last_job, order_by_date_done_desc. split.
  - apply first_sort_by_none.
  - intros ->. reflexivity.
Qed.

Lemma upcoming_fold today s es : forall rows t v,
  fold_left (upcoming_step today s) es (rows, t, v)
  = ((rows ++ flat_map (equipment_rows today s) es)%list,
     t + count (filter (fun r => days_left r <=? 30) (flat_map (equipment_rows today s) es)),
     v + count (filter (fun r => days_left r <? 0) (flat_map (equipment_rows today s) es))).
Proof.
  induction es as [|e r IH]; intros rows t v.
  - simpl. rewrite app_nil_r. unfold count. simpl.
    apply f_equal2; [apply f_equal2; [reflexivity|]|]; lia.
  - cbn [fold_left flat_map]. unfold upcoming_step at 2, equipment_rows at 1 3 5.
    destruct (last_job s e) as [j|]; [destruct (next_service_date j) as [due|]|].
    + rewrite IH. cbn [app filter make_row days_left].
      rewrite <- app_assoc. cbn [app].
      destruct (due - today <=? 30), (due - today <? 0);
        unfold count; cbn [List.length];
        (apply f_equal2; [apply f_equal2; [reflexivity|]|]; lia).
    + rewrite IH. reflexivity.
    + rewrite IH. reflexivity.
Qed.

(** The computation of the view in closed form. *)
Lemma upcoming_services_try_eq today s :
  let rows := flat_map (equipment_rows today s) (equipments s) in
  upcoming_services_try today s =
  {| upcoming_services := sort_by (fun a b => days_left a <=? days_left b) rows;
     total_upcoming := count (filter (fun r => days_left r <=? 30) rows);
     services_vencidos := count (filter (fun r => days_left r <? 0) rows) |}.
Proof.
  unfold upcoming_services_try. rewrite upcoming_fold. reflexivity.
Qed.
(** ** Monthly spend *)

Lemma date_add_in_range d n :
  MINORD <= d + n <= MAXORD -> date_add d n = Some (d + n).
Proof.
  intros H. unfold date_add.
  destruct (Z.leb_spec MINORD (d + n)); destruct (Z.leb_spec (d + n) MAXORD);
    simpl; try reflexivity; lia.
Qed.

Lemma bucket_start_month_first today i :
  bucket_start today i = month_first (month_index (anchor today i)).
Proof.
  unfold bucket_start. destruct (year_month (anchor today i)) as [y m] eqn:E.
  destruct (month_index_year_month _ _ _ E) as [<- <-].
  unfold month_first. reflexivity.
Qed.

(** The dates the loop computes for turn [i] are the month of the anchor. *)
Lemma month_bounds_bucket today i :
  0 <= i <= 11 -> 331 <= today <= MAXORD - 2 ->
  month_bounds today i = Ok (anchor today i, bucket_start today i, bucket_end today i).
Proof.
  intros Hi Ht. unfold month_bounds, MAXORD, MINORD in *.
  assert (A : today + - (i * 30) = anchor today i) by (unfold anchor; lia).
  rewrite date_add_in_range by (unfold MINORD, MAXORD; lia).
  rewrite A. cbn [of_option bind].
  rewrite replace_day1_month_first, <- bucket_start_month_first.
  unfold bucket_end.
  destruct (i =? 0) eqn:E0; [reflexivity|].
  apply Z.eqb_neq in E0.
  pose proof (month_index_bounds (anchor today i)) as B.
  pose proof (month_first_lt_succ (month_index (anchor today i))) as S.
  rewrite bucket_start_month_first.
  assert (Ha : 1 <= anchor today i <= today - 30) by (unfold anchor; lia).
  rewrite date_add_in_range by (unfold MINORD, MAXORD; lia).
  cbn [of_option bind].
  rewrite next_month_first.
  rewrite date_add_in_range by (unfold MINORD, MAXORD; lia).
  cbn [of_option bind].
  replace (month_first (month_index (anchor today i) + 1) + -1)
    with (month_first (month_index (anchor today i) + 1) - 1) by lia.
  rewrite month_first_last_day.
  destruct (year_month (anchor today i)) as [y m] eqn:E.
  destruct (month_index_year_month _ _ _ E) as [-> ->]. reflexivity.
Qed.

Lemma month_entry_bucket today js i :
  0 <= i <= 11 -> 331 <= today <= MAXORD - 2 ->
  month_entry today js i = Ok (bucket today js i).
Proof.
  intros Hi Ht. unfold month_entry. rewrite month_bounds_bucket by assumption.
  reflexivity.
Qed.

Lemma collect_map {A B} (f : A -> result B) (g : A -> B) (l : list A) :
  (forall x, In x l -> f x = Ok (g x)) -> collect f l = Ok (map g l).
Proof.
  induction l as [|x r IH]; intros H; [reflexivity|].
  simpl. rewrite (H x (or_introl eq_refl)). cbn [bind].
  rewrite IH by (intros; apply H; right; assumption). reflexivity.
Qed.

Lemma bucket_start_mono today i :
  bucket_start today (i + 1) <= bucket_start today i.
Proof.
  rewrite !bucket_start_month_first. apply month_first_mono, month_index_mono.
  unfold anchor. lia.
Qed.

Lemma bucket_start_first_day today i y m :
  year_month (anchor today i) = (y, m) ->
  ord2ymd (bucket_start today i) = (y, m, 1)
  /\ ord2ymd (last_day y m) = (y, m, days_in_month y m).
Proof.
  intros E. unfold bucket_start. rewrite E. unfold first_day, last_day.
  unfold year_month in E. destruct (ord2ymd (anchor today i)) as [[y' m'] d] eqn:O.
  injection E as -> ->.
  destruct (ord2ymd_valid _ _ _ _ O) as (Hm & Hd & _).
  pose proof (days_in_month_bounds y m Hm).
  split; apply ord2ymd_ymd2ord; lia.
Qed.

(** C6, as the code has it: for a current date from which the loop's date
    arithmetic stays in range, [gastos_mes] returns the twelve buckets of
    turns 11 down to 0, oldest first; the bucket of turn [i] is labelled by
    the month of the anchor [today - i * 30], starts on the first day of that
    month and ends on its last day, or on [today] for turn 0, and its total is
    the sum of the budgets of the jobs dated from its start to its end.  The
    starts never decrease from one bucket to the next. *)
Theorem gastos_mes_buckets today js :
  331 <= today <= MAXORD - 2 ->
  gastos_mes today js = Ok (map (bucket today js) [11; 10; 9; 8; 7; 6; 5; 4; 3; 2; 1; 0])
  /\ (forall i, 0 <= i < 11 -> bucket_start today (i + 1) <= bucket_start today i)
  /\ (forall i y m, year_month (anchor today i) = (y, m) ->
        ord2ymd (bucket_start today i) = (y, m, 1)
        /\ (i <> 0 -> ord2ymd (bucket_end today i) = (y, m, days_in_month y m))
        /\ bucket_end today 0 = today).
Proof.
  intros Ht. split; [|split].
  - unfold gastos_mes. change (range_down 12) with [11; 10; 9; 8; 7; 6; 5; 4; 3; 2; 1; 0].
    apply collect_map. intros i Hi. apply month_entry_bucket; [|assumption].
    simpl in Hi. lia.
  - intros i _. apply bucket_start_mono.
  - intros i y m E. destruct (bucket_start_first_day today i y m E) as [A B].
    split; [assumption|]. split; [|reflexivity].
    intros N. unfold bucket_end. apply Z.eqb_neq in N. rewrite N, E. assumption.
Qed.

Lemma gastos_mes_buckets_witness :
  331 <= ymd2ord 2024 1 31 <= MAXORD - 2
  /\ gastos_mes (ymd2ord 2024 1 31) [job_on 1 (ymd2ord 2024 1 15) 100 None]
     = Ok (map (bucket (ymd2ord 2024 1 31) [job_on 1 (ymd2ord 2024 1 15) 100 None])
               [11; 10; 9; 8; 7; 6; 5; 4; 3; 2; 1; 0]).
Proof.
  assert (H : 331 <= ymd2ord 2024 1 31 <= MAXORD - 2) by (vm_compute; split; discriminate).
  split; [exact H|].
  apply (gastos_mes_buckets (ymd2ord 2024 1 31) [job_on 1 (ymd2ord 2024 1 15) 100 None] H).
Defined.

(** On 2024-01-31 the turns 1 and 0 both fall in January 2024: the two
    buckets start on the same day, and a job of 100 dated 2024-01-15 is
    counted in both, so the buckets add up to 200. *)
Lemma gastos_mes_counterexample :
  let today := ymd2ord 2024 1 31 in
  let js := [job_on 1 (ymd2ord 2024 1 15) 100 None] in
  exists l,
    gastos_mes today js = Ok l
    /\ month_bounds today 1
       = Ok (ymd2ord 2024 1 1, ymd2ord 2024 1 1, ymd2ord 2024 1 31)
    /\ month_bounds today 0
       = Ok (ymd2ord 2024 1 31, ymd2ord 2024 1 1, ymd2ord 2024 1 31)
    /\ ~ (bucket_start today 1 < bucket_start today 0)
    /\ month_index (bucket_start today 0) <> month_index (bucket_start today 1) + 1
    /\ ~ (fold_left Qplus (map total l) 0 == sum_budget js)%Q.
Proof.
  vm_compute. eexists. repeat split; discriminate.
Qed.
(** ** The job endpoints and the cache *)
Section Job_endpoints.
Context {lib : PyLib} {utils : Utils}.

(** The four job endpoints leave the cache as they found it. *)
Lemma job_endpoints_keep_cache env id req w :
  cache (world (trabajo_new_global env req w)) = cache w
  /\ cache (world (trabajo_new env id req w)) = cache w
  /\ cache (world (trabajo_edit env id req w)) = cache w
  /\ cache (world (trabajo_delete env id req w)) = cache w.
Proof.
  repeat split.
  - unfold trabajo_new_global. destruct (method req).
    + destruct (query env _); reflexivity.
    + destruct (trabajo_new_global_post env (form req) (store w)); reflexivity.
  - unfold trabajo_new. destruct (query env _) as [[e|]|]; try reflexivity.
    destruct (method req); [reflexivity|].
    destruct (trabajo_new_try env e (form req) (store w)) as [fl [s'|x]]; reflexivity.
  - unfold trabajo_edit.
    destruct (bind _ _) as [j|]; [|reflexivity].
    destruct (method req).
    + destruct (equipment_by_id _ _); reflexivity.
    + destruct (trabajo_edit_post j (form req)) as [j'|]; [|reflexivity].
      cbv zeta. destruct (equipment_by_id _ _); reflexivity.
  - unfold trabajo_delete. destruct (bind _ _); reflexivity.
Qed.

End Job_endpoints.


(** C1 (the code leaves the cache alone): the job count is read and cached
    with no jobs in the store; a job is then created through
    [trabajo_new_global]; the cache is what it was, and the next read of the
    job count, within its ten minutes, is a hit that still answers 0 while
    the store holds one job. *)
Theorem job_created_jobs_count_stale :
  let day := ymd2ord 2024 2 10 in
  let '(before, c1) := get_cached_jobs_count (env_at 0 day true) (store w0) (cache w0) in
  let o := trabajo_new_global (lib := Reference.lib) (env_at 10 day true)
             (post (job_form "2024-02-01" "50" "15"))
             {| store := store w0; cache := c1 |} in
  let '(after, _) := get_cached_jobs_count (env_at 20 day true)
                       (store (world o)) (cache (world o)) in
  before = Ok 0 /\ response o = Redirect "trabajos_list" no_arg
  /\ count (jobs (store (world o))) = 1
  /\ cache (world o) = c1
  /\ after = Ok 0.
Proof. vm_compute. repeat split. Qed.

(** ** Upcoming services *)

Lemma equipment_rows_In today s e row :
  In row (equipment_rows today s e) ->
  exists j due, last_job s e = Some j /\ next_service_date j = Some due
                /\ row = make_row today e j due.
Proof.
  unfold equipment_rows. destruct (last_job s e) as [j|]; [|intros []].
  destruct (next_service_date j) as [due|] eqn:E; [|intros []].
  intros [<-|[]]. exists j, due. auto.
Qed.

Lemma upcoming_rows_In today s row :
  In row (upcoming_services (upcoming_services_try today s)) ->
  exists e j due,
    In e (equipments s) /\ last_job s e = Some j
    /\ next_service_date j = Some due /\ row = make_row today e j due.
Proof.
  rewrite upcoming_services_try_eq. cbn [upcoming_services].
  rewrite sort_by_In, in_flat_map. intros (e & He & Hr).
  apply equipment_rows_In in Hr. destruct Hr as (j & due & ? & ? & ?).
  exists e, j, due. auto.
Qed.

Lemma count_filter_perm {A} (p : A -> bool) (l l' : list A) :
  Permutation l l' -> count (filter p l) = count (filter p l').
Proof.
  intros P. unfold count. f_equal.
  induction P; simpl; try destruct (p x); try destruct (p y); simpl; congruence.
Qed.

Lemma upcoming_services_fn_total env s :
  upcoming_services_fn env s
  = Ok (if db_up env then upcoming_services_try (today env) s
        else upcoming_services_default).
Proof. unfold upcoming_services_fn, query. destruct (db_up env); reflexivity. Qed.

Lemma memoize_miss {A} (sl : slot A) timeout (v : A) now c :
  lookup now (slot_get sl c) = None ->
  memoize sl timeout (Ok v) now c
  = (Ok v, slot_set sl (Some {| value := v; expires_at := now + timeout |}) c).
Proof. unfold memoize. intros ->. reflexivity. Qed.

Lemma memoize_hit {A} (sl : slot A) timeout (f : result A) (v : A) now c :
  lookup now (slot_get sl c) = Some v ->
  memoize sl timeout f now c = (Ok v, c).
Proof. unfold memoize. intros ->. reflexivity. Qed.

(** The rows of an equipment depend on the job table only. *)
Lemma equipment_rows_jobs today s s' e :
  jobs s' = jobs s -> equipment_rows today s' e = equipment_rows today s e.
Proof. unfold equipment_rows, last_job, jobs_of. intros ->. reflexivity. Qed.

(** The equipment without jobs adds nothing to the rows of the loop. *)
Lemma rows_without_jobless today s es :
  flat_map (equipment_rows today s)
    (filter (fun e => match jobs_of s e with [] => false | _ :: _ => true end) es)
  = flat_map (equipment_rows today s) es.
Proof.
  induction es as [|e r IH]; [reflexivity|]. cbn [filter flat_map].
  destruct (jobs_of s e) as [|j js] eqn:J.
  - rewrite IH. unfold equipment_rows at 2.
    rewrite (proj2 (last_job_none s e) J). reflexivity.
  - cbn [flat_map]. rewrite IH. reflexivity.
Qed.

(** One row for each equipment whose latest job has a next service date. *)
Lemma rows_length today s es :
  count (flat_map (equipment_rows today s) es)
  = count (filter (fun e => match last_job s e with
                            | Some j => match next_service_date j with
                                        | Some _ => true
                                        | None => false
                                        end
                            | None => false
                            end) es).
Proof.
  unfold count. f_equal.
  induction es as [|e r IH]; [reflexivity|]. cbn [flat_map filter].
  rewrite length_app, IH. unfold equipment_rows.
  destruct (last_job s e) as [j|]; [destruct (next_service_date j)|]; reflexivity.
Qed.

Lemma upcoming_rows_complete today s e j due :
  In e (equipments s) -> last_job s e = Some j -> next_service_date j = Some due ->
  In (make_row today e j due) (upcoming_services (upcoming_services_try today s)).
Proof.
  intros He Hj Hd. rewrite upcoming_services_try_eq. cbn [upcoming_services].
  apply sort_by_In, in_flat_map. exists e. split; [assumption|].
  unfold equipment_rows. rewrite Hj, Hd. left. reflexivity.
Qed.

(** The view computes the same result on the store without the equipment
    that has no job. *)
Lemma upcoming_services_try_without_jobless today s :
  upcoming_services_try today
    {| equipments :=
         filter (fun e => match jobs_of s e with [] => false | _ :: _ => true end)
                (equipments s);
       jobs := jobs s |}
  = upcoming_services_try today s.
Proof.
  rewrite !upcoming_services_try_eq. cbv zeta. cbn [equipments].
  rewrite (flat_map_ext _ (equipment_rows today s)).
  - rewrite rows_without_jobless. reflexivity.
  - intros e. apply equipment_rows_jobs. reflexivity.
Qed.

(** C2, as the code has it: the view always computes a result; its list is
    sorted by ascending [days_left]; every row comes from an equipment of the
    store and the job the loop takes for it, a job of that equipment with a
    next service date, so an equipment without jobs adds no row; and
    [total_upcoming] is the number of rows with [days_left <= 30].  Rows with
    more than 30 days left are listed too: while the database answers, every
    equipment whose latest job has a next service date has its row in the
    list, whatever the days left, and the list has one row for each such
    equipment.  The equipment without jobs counts for nothing: the view
    computes the same result on the store without it. *)
Theorem upcoming_services_sorted_from_jobs env s :
  exists d,
    upcoming_services_fn env s = Ok d
    /\ (forall c, lookup (now env) (upcoming_entry c) = None ->
                  fst (get_cached_upcoming_services env s c) = Ok d)
    /\ StronglySorted (fun a b => days_left a <= days_left b) (upcoming_services d)
    /\ (forall row, In row (upcoming_services d) ->
          exists e j due,
            In e (equipments s) /\ In j (jobs s) /\ equipment j = eq_id e
            /\ last_job s e = Some j /\ next_service_date j = Some due
            /\ row = make_row (today env) e j due)
    /\ (forall e, In e (equipments s) -> jobs_of s e = [] ->
                  equipment_rows (today env) s e = [])
    /\ total_upcoming d
       = count (filter (fun r => days_left r <=? 30) (upcoming_services d))
    /\ (db_up env = true ->
        (forall e j due,
           In e (equipments s) -> last_job s e = Some j ->
           next_service_date j = Some due ->
           In (make_row (today env) e j due) (upcoming_services d))
        /\ count (upcoming_services d)
           = count (filter (fun e => match last_job s e with
                                     | Some j => match next_service_date j with
                                                 | Some _ => true
                                                 | None => false
                                                 end
                                     | None => false
                                     end) (equipments s)))
    /\ upcoming_services_fn env
         {| equipments :=
              filter (fun e => match jobs_of s e with [] => false | _ :: _ => true end)
                     (equipments s);
            jobs := jobs s |}
       = Ok d.
Proof.
  rewrite upcoming_services_fn_total. eexists. split; [reflexivity|].
  split; [|split; [|split; [|split; [|split; [|split]]]]].
  - intros c Hc. unfold get_cached_upcoming_services.
    rewrite upcoming_services_fn_total, memoize_miss by assumption. reflexivity.
  - destruct (db_up env); [|constructor].
    rewrite upcoming_services_try_eq. apply sort_by_key_sorted.
  - intros row Hr. destruct (db_up env); [|destruct Hr].
    apply upcoming_rows_In in Hr. destruct Hr as (e & j & due & He & Hj & Hd & ->).
    destruct (last_job_latest s e j Hj) as (? & ? & _).
    exists e, j, due. auto 10.
  - intros e _ Hn. unfold equipment_rows.
    rewrite (proj2 (last_job_none s e) Hn). reflexivity.
  - destruct (db_up env); [|reflexivity].
    rewrite upcoming_services_try_eq. cbn [total_upcoming upcoming_services].
    apply count_filter_perm. symmetry. apply sort_by_perm.
  - intros ->. split.
    + intros e j due. apply upcoming_rows_complete.
    + rewrite upcoming_services_try_eq. cbn [upcoming_services].
      rewrite <- (rows_length (today env)). unfold count.
      rewrite sort_by_length. reflexivity.
  - rewrite upcoming_services_fn_total. destruct (db_up env); [|reflexivity].
    f_equal. apply upcoming_services_try_without_jobless.
Qed.

(** A job whose next service is 31 days away is listed, and not counted in
    [total_upcoming]. *)
Lemma upcoming_services_counterexample :
  let today := ymd2ord 2024 2 10 in
  let s := {| equipments := [E1];
              jobs := [job_on 1 (ymd2ord 2024 2 1) 50 (Some (ymd2ord 2024 3 12))] |} in
  exists row,
    fst (get_cached_upcoming_services (env_at 0 today true) s empty_cache)
    = Ok {| upcoming_services := [row]; total_upcoming := 0; services_vencidos := 0 |}
    /\ days_left row = 31 /\ ~ days_left row <= 30.
Proof.
  eexists. split; [vm_compute; reflexivity|].
  split; [reflexivity|]. cbn [days_left]. lia.
Qed.

(** ** A failed computation *)

(** C3, as the code has it: when the database raises during a miss, each of
    the two views returns its empty shape, and that empty shape is stored
    under the view's key with the view's timeout, like any other result. *)
Theorem failed_computation_is_cached env s c :
  db_up env = false ->
  lookup (now env) (upcoming_entry c) = None ->
  lookup (now env) (autocomplete_entry c) = None ->
  get_cached_upcoming_services env s c
  = (Ok upcoming_services_default,
     slot_set upcoming_slot
       (Some {| value := upcoming_services_default; expires_at := now env + 300 |}) c)
  /\ get_cached_equipment_autocomplete env s c
     = (Ok autocomplete_default,
        slot_set autocomplete_slot
          (Some {| value := autocomplete_default; expires_at := now env + 1800 |}) c).
Proof.
  intros Hd Hu Ha. split.
  - unfold get_cached_upcoming_services. rewrite upcoming_services_fn_total, Hd.
    apply memoize_miss. assumption.
  - unfold get_cached_equipment_autocomplete, equipment_autocomplete_fn, query.
    rewrite Hd. apply memoize_miss. assumption.
Qed.

Lemma failed_computation_is_cached_witness :
  db_up (env_at 0 (ymd2ord 2024 2 10) false) = false
  /\ get_cached_upcoming_services (env_at 0 (ymd2ord 2024 2 10) false) (store w2) empty_cache
     = (Ok upcoming_services_default,
        slot_set upcoming_slot
          (Some {| value := upcoming_services_default; expires_at := 0 + 300 |})
          empty_cache).
Proof.
  split; [reflexivity|].
  apply (failed_computation_is_cached (env_at 0 (ymd2ord 2024 2 10) false) (store w2)
           empty_cache); reflexivity.
Defined.

(** The empty shape computed while the database was down is still served
    299 seconds later, when the database is back and the view would compute
    one row. *)
Lemma failed_computation_counterexample :
  let day := ymd2ord 2024 2 10 in
  let '(r1, c1) := get_cached_upcoming_services (env_at 0 day false) (store w2) empty_cache in
  let '(r2, c2) := get_cached_upcoming_services (env_at 299 day true) (store w2) c1 in
  let '(r3, _) := get_cached_equipment_autocomplete (env_at 0 day false) (store w2) empty_cache in
  r1 = Ok upcoming_services_default
  /\ upcoming_entry c1
     = Some {| value := upcoming_services_default; expires_at := 300 |}
  /\ r2 = Ok upcoming_services_default
  /\ upcoming_services_fn (env_at 299 day true) (store w2) <> Ok upcoming_services_default
  /\ r3 = Ok autocomplete_default.
Proof. vm_compute. repeat split. discriminate. Qed.

(** ** Renaming an owner *)
Section Owner_endpoints.
Context {lib : PyLib}.

Lemma update_propietario_renamed s nombre nuevo :
  Forall2 (renamed nombre nuevo) (equipments s)
          (equipments (fst (update_propietario s nombre nuevo)))
  /\ jobs (fst (update_propietario s nombre nuevo)) = jobs s
  /\ snd (update_propietario s nombre nuevo)
     = count (filter (fun e => match propietario e with
                               | Some p => String.eqb p nombre
                               | None => false
                               end) (equipments s)).
Proof.
  split; [|split; reflexivity].
  unfold update_propietario. cbn [fst equipments].
  induction (equipments s) as [|e r IH]; [constructor|].
  cbn [map]. constructor; [|assumption].
  unfold renamed. destruct (propietario e) as [p|] eqn:E.
  - destruct (String.eqb_spec p nombre) as [->|N].
    + split; [reflexivity|congruence].
    + split; [intros [= ?]; contradiction|reflexivity].
  - split; [discriminate|reflexivity].
Qed.

Lemma cliente_edit_post env nombre req w :
  method req = POST ->
  let nuevo := strip (get_default "nuevo_nombre" "" (form req)) in
  nuevo <> "" -> nuevo <> nombre -> db_up env = true ->
  cliente_edit env nombre req w =
  match equipos_de (store w) nuevo with
  | _ :: _ =>
      {| response := Redirect "cliente_edit" (str_arg nombre);
         flashes := [("Ya existe un cliente con ese nombre", "error")];
         world := w |}
  | [] =>
      {| response := Redirect "cliente_detail" (str_arg nuevo);
         flashes :=
           [(("Cliente actualizado exitosamente. "
              ++ py_str (snd (update_propietario (store w) nombre nuevo))
              ++ " equipos actualizados.")%string, "success")];
         world := {| store := fst (update_propietario (store w) nombre nuevo);
                     cache := clear_cache_on_equipment_change (cache w) |} |}
  end.
Proof.
  intros Hm nuevo H1 H2 Hd. unfold cliente_edit. rewrite Hm. fold nuevo.
  apply String.eqb_neq in H1, H2. rewrite H1, H2.
  unfold query. rewrite Hd.
  destruct (equipos_de (store w) nuevo); reflexivity.
Qed.

(** C5, as the code has it: two guards come before the duplicate check.  A
    POST whose stripped new name is empty is rejected as missing, and one
    whose stripped new name is the current name is answered as unchanged,
    whatever equipment has that owner; both leave the store and the cache
    untouched and ask the database nothing.  A POST whose stripped new name
    is not empty and differs from the current one is rejected with the
    conflict message, the store and the cache untouched, when some equipment
    has the new name as owner; otherwise every row of the old owner gets the
    new owner and nothing else changes, and the message reports the number of
    rows that had the old owner. *)
Theorem rename_owner_guarded env nombre req w :
  method req = POST ->
  let nuevo := strip (get_default "nuevo_nombre" "" (form req)) in
  let o := cliente_edit env nombre req w in
  (nuevo = "" ->
     o = {| response := Redirect "cliente_edit" (str_arg nombre);
            flashes := [("El nombre del cliente es requerido", "error")];
            world := w |})
  /\ (nuevo <> "" -> nuevo = nombre ->
        o = {| response := Redirect "cliente_detail" (str_arg nombre);
               flashes := [("El nombre no ha cambiado", "info")];
               world := w |})
  /\ (nuevo <> "" -> nuevo <> nombre -> db_up env = true ->
        ((exists e, In e (equipments (store w)) /\ propietario e = Some nuevo) ->
           response o = Redirect "cliente_edit" (str_arg nombre)
           /\ flashes o = [("Ya existe un cliente con ese nombre", "error")]
           /\ world o = w)
        /\ ((forall e, In e (equipments (store w)) -> propietario e <> Some nuevo) ->
              response o = Redirect "cliente_detail" (str_arg nuevo)
              /\ Forall2 (renamed nombre nuevo) (equipments (store w))
                         (equipments (store (world o)))
              /\ jobs (store (world o)) = jobs (store w)
              /\ flashes o =
                 [(("Cliente actualizado exitosamente. "
                    ++ py_str (count (equipos_de (store w) nombre))
                    ++ " equipos actualizados.")%string, "success")])).
Proof.
  intros Hm nuevo o. split; [|split].
  - intros E. unfold o, cliente_edit. rewrite Hm. fold nuevo. rewrite E. reflexivity.
  - intros H1 E. unfold o, cliente_edit. rewrite Hm. fold nuevo.
    apply String.eqb_neq in H1. rewrite H1, E, String.eqb_refl. reflexivity.
  - intros H1 H2 Hd. unfold o.
    rewrite (cliente_edit_post env nombre req w Hm H1 H2 Hd). fold nuevo.
    split.
    + intros (e & He & Hp).
      assert (I : In e (equipos_de (store w) nuevo)).
      { unfold equipos_de. apply filter_In. split; [assumption|].
        rewrite Hp. apply String.eqb_refl. }
      destruct (equipos_de (store w) nuevo); [destruct I|]. auto.
    + intros Hn.
      assert (E : equipos_de (store w) nuevo = []).
      { unfold equipos_de. destruct (filter _ _) as [|e r] eqn:F; [reflexivity|].
        assert (I : In e (e :: r)) by (left; reflexivity).
        rewrite <- F in I. apply filter_In in I. destruct I as [I P].
        destruct (propietario e) as [p|] eqn:Q; [|discriminate].
        apply String.eqb_eq in P. subst p. exfalso. exact (Hn e I Q). }
      rewrite E. cbn [response flashes world store].
      destruct (update_propietario_renamed (store w) nombre nuevo) as (A & B & C).
      repeat split; assumption.
Qed.

(** C4, as the code has it: a successful rename runs
    [clear_cache_on_equipment_change]: the equipment count, the vocabulary,
    the upcoming services and the dashboard entry are deleted, the job count
    entry stays, and the next read of the equipment count is computed from
    the store. *)
Theorem rename_owner_clears_equipment_caches env nombre req w :
  method req = POST -> db_up env = true ->
  let nuevo := strip (get_default "nuevo_nombre" "" (form req)) in
  let c' := cache (world (cliente_edit env nombre req w)) in
  nuevo <> "" -> nuevo <> nombre ->
  (forall e, In e (equipments (store w)) -> propietario e <> Some nuevo) ->
  c' = clear_cache_on_equipment_change (cache w)
  /\ equipment_count_entry c' = None
  /\ autocomplete_entry c' = None
  /\ upcoming_entry c' = None
  /\ view_get "view//" c' = None
  /\ jobs_count_entry c' = jobs_count_entry (cache w)
  /\ (forall env' s',
        db_up env' = true ->
        fst (get_cached_equipment_count env' s' c') = Ok (count (equipments s'))).
Proof.
  intros Hm Hd nuevo c' H1 H2 Hn.
  assert (E : c' = clear_cache_on_equipment_change (cache w)).
  { unfold c'. rewrite (cliente_edit_post env nombre req w Hm H1 H2 Hd). fold nuevo.
    destruct (equipos_de (store w) nuevo) as [|e r] eqn:F; [reflexivity|].
    assert (I : In e (e :: r)) by (left; reflexivity).
    rewrite <- F in I. apply filter_In in I. destruct I as [I P].
    destruct (propietario e) as [p|] eqn:Q; [|discriminate].
    apply String.eqb_eq in P. subst p. exfalso. exact (Hn e I Q). }
  rewrite E. repeat split.
  - unfold view_get, clear_cache_on_equipment_change, cache_delete. cbn [view_entries].
    destruct (find _ _) as [p|] eqn:F; [|reflexivity].
    apply find_some in F. destruct F as [F1 F2].
    apply filter_In in F1. destruct F1 as [_ F1]. rewrite F2 in F1. discriminate.
  - intros env' s' Hu. unfold get_cached_equipment_count, memoize, query.
    rewrite Hu. reflexivity.
Qed.

(** C10: a POST whose stripped new name equals the current name answers
    with the [info] message and leaves the store and the cache as they were,
    whatever equipment has that owner. *)
Theorem rename_to_same_name_is_noop env nombre req w :
  method req = POST ->
  strip (get_default "nuevo_nombre" "" (form req)) = nombre ->
  nombre <> "" ->
  cliente_edit env nombre req w =
  {| response := Redirect "cliente_detail" (str_arg nombre);
     flashes := [("El nombre no ha cambiado", "info")];
     world := w |}.
Proof.
  intros Hm Hs Hn. unfold cliente_edit. rewrite Hm, Hs.
  apply String.eqb_neq in Hn. rewrite Hn, String.eqb_refl. reflexivity.
Qed.

End Owner_endpoints.



Lemma rename_owner_guarded_witness :
  cliente_edit (lib := Reference.lib) (env_at 10 (ymd2ord 2024 2 10) true)
    "Ana" (rename "  ") w_owners
  = {| response := Redirect "cliente_edit" (str_arg "Ana");
       flashes := [("El nombre del cliente es requerido", "error")];
       world := w_owners |}
  /\ response (cliente_edit (lib := Reference.lib) (env_at 10 (ymd2ord 2024 2 10) true)
                 "Ana" (rename " Luis ") w_owners)
     = Redirect "cliente_edit" (str_arg "Ana")
  /\ world (cliente_edit (lib := Reference.lib) (env_at 10 (ymd2ord 2024 2 10) true)
              "Ana" (rename " Luis ") w_owners) = w_owners.
Proof.
  split.
  - apply (rename_owner_guarded (lib := Reference.lib)
             (env_at 10 (ymd2ord 2024 2 10) true) "Ana" (rename "  ") w_owners eq_refl).
    reflexivity.
  - destruct (rename_owner_guarded (lib := Reference.lib)
                (env_at 10 (ymd2ord 2024 2 10) true) "Ana" (rename " Luis ") w_owners
                eq_refl) as (_ & _ & H).
    destruct H as [H _].
    + vm_compute. discriminate.
    + vm_compute. discriminate.
    + reflexivity.
    + destruct H as (A & _ & B).
      * exists (owned 2 "SN-2" (Some "Luis")). split; [vm_compute; auto|reflexivity].
      * split; assumption.
Defined.

(** Renaming Ana to Ana, while Ana owns equipment: no conflict is signalled. *)
Lemma rename_owner_counterexample :
  let o := cliente_edit (lib := Reference.lib) (env_at 10 (ymd2ord 2024 2 10) true)
             "Ana" (rename "Ana") w_owners in
  (exists e, In e (equipments (store w_owners)) /\ propietario e = Some "Ana")
  /\ response o = Redirect "cliente_detail" (str_arg "Ana")
  /\ flashes o = [("El nombre no ha cambiado", "info")]
  /\ response o <> Redirect "cliente_edit" (str_arg "Ana")
  /\ flashes o <> [("Ya existe un cliente con ese nombre", "error")].
Proof.
  split.
  - exists (owned 1 "SN-1" (Some "Ana")). split; [left; reflexivity|reflexivity].
  - vm_compute. repeat split; discriminate.
Qed.

Lemma rename_owner_clears_witness :
  equipment_count_entry
    (cache (world (cliente_edit (lib := Reference.lib)
                     (env_at 10 (ymd2ord 2024 2 10) true) "Ana" (rename "Eva") w_owners)))
  = None.
Proof.
  apply (rename_owner_clears_equipment_caches (lib := Reference.lib)
           (env_at 10 (ymd2ord 2024 2 10) true) "Ana" (rename "Eva") w_owners
           eq_refl eq_refl).
  - vm_compute. discriminate.
  - vm_compute. discriminate.
  - intros e H. vm_compute in H. destruct H as [<-|[<-|[<-|[]]]]; discriminate.
Defined.

(** The equipment count is in the cache before the rename of Ana to Eva and
    gone after it. *)
Lemma rename_owner_cache_counterexample :
  let env := env_at 10 (ymd2ord 2024 2 10) true in
  let o := cliente_edit (lib := Reference.lib) env "Ana" (rename "Eva") w_owners in
  lookup (now env) (equipment_count_entry (cache w_owners)) = Some 3
  /\ response o = Redirect "cliente_detail" (str_arg "Eva")
  /\ equipment_count_entry (cache (world o)) = None
  /\ lookup (now env) (equipment_count_entry (cache (world o))) = None.
Proof. vm_compute. repeat split. Qed.

Lemma rename_to_same_name_witness :
  cliente_edit (lib := Reference.lib) (env_at 10 (ymd2ord 2024 2 10) true)
    "Ana" (rename " Ana") w_owners
  = {| response := Redirect "cliente_detail" (str_arg "Ana");
       flashes := [("El nombre no ha cambiado", "info")];
       world := w_owners |}.
Proof.
  apply (rename_to_same_name_is_noop (lib := Reference.lib)); try reflexivity.
  discriminate.
Defined.

(** ** The forecast of an equipment *)

Lemma status_of_tier days :
  (days < 0 -> status_of days = "danger")
  /\ (0 <= days < 7 -> status_of days = "warning")
  /\ (7 <= days -> status_of days = "success").
Proof.
  unfold status_of.
  destruct (Z.ltb_spec days 0), (Z.ltb_spec days 7); repeat split; intros; try lia;
    reflexivity.
Qed.

(** C7: every row of the list comes from an equipment and one of its jobs
    that no other job of the equipment postdates, carries that job's next
    service date and budget, and has the status of its tier; and for E1 with
    J1 (100, 2024-01-10, 30 days) and J2 (50, 2024-02-01, 15 days), the view
    on 2024-02-10 has the one row of J2: due 2024-02-16, 6 days left,
    [warning], counted in [total_upcoming]. *)
Theorem forecast_from_latest_job :
  (forall today s row,
     In row (upcoming_services (upcoming_services_try today s)) ->
     (exists e j due,
        In e (equipments s) /\ In j (jobs s) /\ equipment j = eq_id e
        /\ (forall j', In j' (jobs s) -> equipment j' = eq_id e ->
                       date_done j' <= date_done j)
        /\ next_service_date j = Some due
        /\ row_equipment row = equipment_label e
        /\ row_date row = due
        /\ days_left row = due - today
        /\ row_budget row = budget j)
     /\ (days_left row < 0 -> status row = "danger")
     /\ (0 <= days_left row < 7 -> status row = "warning")
     /\ (7 <= days_left row -> status row = "success"))
  /\ jobs (store w2)
     = [{| job_id := 1; equipment := 1; date_done := ymd2ord 2024 1 10;
           description := "service"; budget := 100;
           next_service_days := Some 30;
           next_service_date := Some (ymd2ord 2024 2 9); notes := None |};
        {| job_id := 2; equipment := 1; date_done := ymd2ord 2024 2 1;
           description := "service"; budget := 50;
           next_service_days := Some 15;
           next_service_date := Some (ymd2ord 2024 2 16); notes := None |}]
  /\ fst (get_cached_upcoming_services (env_at 0 (ymd2ord 2024 2 10) true)
            (store w2) empty_cache)
     = Ok {| upcoming_services :=
               [{| row_equipment := "Bosch GSB 13 (2020)";
                   row_propietario := None;
                   row_date := ymd2ord 2024 2 16;
                   days_left := 6;
                   row_budget := 50;
                   status := "warning" |}];
             total_upcoming := 1;
             services_vencidos := 0 |}.
Proof.
  split; [|split; vm_compute; reflexivity].
  intros today s row Hr.
  apply upcoming_rows_In in Hr. destruct Hr as (e & j & due & He & Hj & Hd & ->).
  destruct (last_job_latest s e j Hj) as (I & Q & M).
  split.
  - exists e, j, due. repeat split; assumption.
  - cbn [days_left status make_row]. apply status_of_tier.
Qed.

(** ** The next service date of a job *)

(** C8 (the code misses the interval 0): a job created or edited with
    [next_service_days = 0] is stored with the interval 0 and no next service
    date, where the invariant asks for the date performed. *)
Theorem zero_interval_job_has_no_next_date :
  let env := env_at 0 (ymd2ord 2024 2 10) true in
  let created := trabajo_new_global (lib := Reference.lib) env
                   (post (job_form "2024-02-01" "50" "0")) w0 in
  let edited := trabajo_edit (lib := Reference.lib) env 2
                  (post (job_form "2024-02-01" "50" "0")) w2 in
  jobs (store (world created))
  = [{| job_id := 1; equipment := 1; date_done := ymd2ord 2024 2 1;
        description := "service"; budget := 50;
        next_service_days := Some 0; next_service_date := None;
        notes := None |}]
  /\ option_map next_service_days (job_by_id (store (world edited)) 2) = Some (Some 0)
  /\ option_map next_service_date (job_by_id (store (world edited)) 2) = Some None.
Proof. vm_compute. repeat split. Qed.

(** ** Future dates *)
Section Future_dates.
Context {lib : PyLib} {utils : Utils}.

(** C9: [trabajo_new] answers a POST whose validated date parses to a day
    after today with the two error messages and leaves the store as it was;
    [trabajo_new_global] creates the job and [trabajo_edit] saves it, whatever
    the date. *)
Theorem future_date_rejected_only_by_trabajo_new :
  (forall env equipo_id req w equipo validated_data ds d,
     method req = POST ->
     query env (equipment_by_id (store w) equipo_id) = Ok (Some equipo) ->
     validate_job_data (job_form_data (form req)) = Ok validated_data ->
     dict_get "date_done" validated_data = Some ds ->
     strptime_ymd ds = Some d ->
     today env < d ->
     trabajo_new env equipo_id req w
     = {| response := Render "trabajo_form.html" (Ctx_trabajo_form equipo None);
          flashes := [("La fecha del trabajo no puede ser futura", "error");
                      ("Error de validación: Fecha futura no permitida", "error")];
          world := w |})
  /\ (forall env req w ids id equipo ds d description budget next_days next_date,
        method req = POST ->
        dict_get "equipo_id" (form req) = Some ids -> py_int ids = Some id ->
        query env (equipment_by_id (store w) id) = Ok (Some equipo) ->
        dict_get "date_done" (form req) = Some ds -> strptime_ymd ds = Some d ->
        today env < d ->
        parse_next_days (form req) = Ok next_days ->
        next_date_of d next_days = Ok next_date ->
        dict_get "description" (form req) = Some description ->
        form_budget (form req) = Ok budget ->
        trabajo_new_global env req w
        = {| response := Redirect "trabajos_list" no_arg;
             flashes := [];
             world := with_store w
                        (Job_create (store w) equipo d description budget next_days
                           next_date (form_notes (form req))) |})
  /\ (forall env trabajo_id req w trabajo ds d description budget next_days next_date,
        method req = POST ->
        query env (job_by_id (store w) trabajo_id) = Ok (Some trabajo) ->
        dict_get "date_done" (form req) = Some ds -> strptime_ymd ds = Some d ->
        today env < d ->
        dict_get "description" (form req) = Some description ->
        form_budget (form req) = Ok budget ->
        parse_next_days (form req) = Ok next_days ->
        next_date_of d next_days = Ok next_date ->
        store (world (trabajo_edit env trabajo_id req w))
        = Job_save (store w)
            {| job_id := job_id trabajo; equipment := equipment trabajo;
               date_done := d; description := description; budget := budget;
               next_service_days := next_days; next_service_date := next_date;
               notes := form_notes (form req) |}).
Proof.
  split; [|split].
  - intros env equipo_id req w equipo vd ds d Hm Hq Hv Hk Hp Hf.
    unfold trabajo_new. rewrite Hq, Hm. unfold trabajo_new_try.
    rewrite Hv. cbn [bind]. rewrite Hk. cbn [of_option bind]. rewrite Hp.
    cbn [of_option bind]. apply Z.ltb_lt in Hf. rewrite Hf. reflexivity.
  - intros env req w ids id equipo ds d description budget next_days next_date
           Hm H1 H2 H3 H4 H5 _ H6 H7 H8 H9.
    unfold trabajo_new_global. rewrite Hm. unfold trabajo_new_global_post.
    rewrite H1. cbn [of_option bind]. rewrite H2. cbn [of_option bind].
    rewrite H3. cbn [of_option bind]. rewrite H4. cbn [of_option bind].
    rewrite H5. cbn [of_option bind]. rewrite H6. cbn [bind].
    rewrite H7. cbn [bind]. rewrite H8. cbn [of_option bind]. rewrite H9.
    reflexivity.
  - intros env trabajo_id req w trabajo ds d description budget next_days next_date
           Hm H1 H2 H3 _ H4 H5 H6 H7.
    unfold trabajo_edit. rewrite H1. cbn [of_option bind]. rewrite Hm.
    unfold trabajo_edit_post.
    rewrite H2. cbn [of_option bind]. rewrite H3. cbn [of_option bind].
    rewrite H4. cbn [of_option bind]. rewrite H5. cbn [bind].
    rewrite H6. cbn [bind]. rewrite H7. cbn [bind]. cbv zeta.
    destruct (equipment_by_id _ _); reflexivity.
Qed.

End Future_dates.

Lemma future_date_witness :
  let env := env_at 0 (ymd2ord 2024 2 10) true in
  today env < ymd2ord 2024 3 1
  /\ world (trabajo_new (lib := Reference.lib) (utils := Reference.utils) env 1
              (post (job_form "2024-03-01" "50" "15")) w0) = w0
  /\ List.length (jobs (store (world (trabajo_new_global (lib := Reference.lib) env
                          (post (job_form "2024-03-01" "50" "15")) w0)))) = 1%nat
  /\ map date_done
       (jobs (store (world (trabajo_edit (lib := Reference.lib) env 2
                              (post (job_form "2024-03-01" "50" "15")) w2))))
     = [ymd2ord 2024 1 10; ymd2ord 2024 3 1].
Proof.
  destruct (future_date_rejected_only_by_trabajo_new (lib := Reference.lib)
              (utils := Reference.utils)) as (A & B & C).
  split; [reflexivity|]. split; [|split].
  - rewrite (A (env_at 0 (ymd2ord 2024 2 10) true) 1
               (post (job_form "2024-03-01" "50" "15")) w0 E1
               (job_form_data (lib := Reference.lib) (job_form "2024-03-01" "50" "15"))
               "2024-03-01" (ymd2ord 2024 3 1));
      reflexivity.
  - rewrite (B (env_at 0 (ymd2ord 2024 2 10) true)
               (post (job_form "2024-03-01" "50" "15")) w0 "1" 1 E1
               "2024-03-01" (ymd2ord 2024 3 1) "service" 50%Q (Some 15)
               (Some (ymd2ord 2024 3 16)));
      reflexivity.
  - rewrite (C (env_at 0 (ymd2ord 2024 2 10) true) 2
               (post (job_form "2024-03-01" "50" "15")) w2
               {| job_id := 2; equipment := 1; date_done := ymd2ord 2024 2 1;
                  description := "service"; budget := 50%Q;
                  next_service_days := Some 15;
                  next_service_date := Some (ymd2ord 2024 2 16); notes := None |}
               "2024-03-01" (ymd2ord 2024 3 1) "service" 50%Q (Some 15)
               (Some (ymd2ord 2024 3 16)));
      reflexivity.
Defined.

(** ** What the job endpoints write *)

Lemma date_add_some d n r : date_add d n = Some r -> r = d + n.
Proof.
  unfold date_add. destruct (_ && _); [|discriminate]. intros [= <-]. reflexivity.
Qed.

Lemma next_date_of_ok d nd nx :
  next_date_of d nd = Ok nx ->
  nx = match nd with
       | Some n => if n =? 0 then None else Some (d + n)
       | None => None
       end.
Proof.
  unfold next_date_of. destruct nd as [n|]; [|intros [= <-]; reflexivity].
  destruct (n =? 0); [intros [= <-]; reflexivity|].
  destruct (date_add d n) as [r|] eqn:E; [|discriminate].
  cbn [of_option bind]. intros [= <-]. apply date_add_some in E. rewrite E. reflexivity.
Qed.

Lemma bind_ok {A B} (r : result A) (k : A -> result B) (b : B) :
  bind r k = Ok b -> exists a, r = Ok a /\ k a = Ok b.
Proof. destruct r as [a|e]; [eauto|discriminate]. Qed.

Lemma of_option_ok {A} (e : exn) (o : option A) (a : A) :
  of_option e o = Ok a -> o = Some a.
Proof. destruct o; [intros [= ->]; reflexivity|discriminate]. Qed.

Ltac ok_steps :=
  repeat match goal with
         | H : bind _ _ = Ok _ |- _ =>
             let a := fresh "a" in
             let H1 := fresh "Hs" in
             let H2 := fresh "Hk" in
             apply bind_ok in H; destruct H as (a & H1 & H2); cbv beta in H2
         | H : of_option _ _ = Ok _ |- _ => apply of_option_ok in H
         | H : Ok _ = Ok _ |- _ => injection H as H
         | H : query _ _ = Ok _ |- _ =>
             unfold query in H; destruct (db_up _); [|discriminate];
             injection H as H
         end.

Section Job_writes.
Context {lib : PyLib} {utils : Utils}.

(** What [trabajo_new_global] writes on success. *)
Lemma trabajo_new_global_post_ok env f s s' :
  trabajo_new_global_post env f s = Ok s' ->
  exists equipo j,
    In equipo (equipments s) /\ equipment j = eq_id equipo
    /\ s' = {| equipments := equipments s; jobs := (jobs s ++ [j])%list |}
    /\ job_id j = next_id (map job_id (jobs s))
    /\ next_date_ok j.
Proof.
  unfold trabajo_new_global_post. intros H. ok_steps. subst.
  match goal with H : equipment_by_id _ _ = Some ?e |- _ =>
    apply find_some in H; destruct H as [I _]; exists e end.
  unfold Job_create.
  eexists. split; [eassumption|]. split; [|split; [reflexivity|split; [reflexivity|]]];
    [reflexivity|].
  unfold next_date_ok. cbn [next_service_date next_service_days date_done].
  eapply next_date_of_ok. eassumption.
Qed.

(** What [trabajo_new] writes on success. *)
Lemma trabajo_new_try_ok env equipo f s fl s' :
  trabajo_new_try env equipo f s = (fl, Ok s') ->
  exists j,
    equipment j = eq_id equipo
    /\ s' = {| equipments := equipments s; jobs := (jobs s ++ [j])%list |}
    /\ job_id j = next_id (map job_id (jobs s))
    /\ date_done j <= today env
    /\ next_date_ok j.
Proof.
  unfold trabajo_new_try.
  destruct (bind _ _) as [[vd d]|] eqn:E; [|discriminate].
  destruct (Z.ltb_spec (today env) d) as [L|L]; [discriminate|].
  intros [= _ H]. ok_steps. subst.
  unfold Job_create.
  eexists. split; [|split; [reflexivity|split; [reflexivity|split; [exact L|]]]];
    [reflexivity|].
  unfold next_date_ok. cbn [next_service_date next_service_days date_done].
  eapply next_date_of_ok. eassumption.
Qed.

Lemma trabajo_edit_post_ok trabajo f j :
  trabajo_edit_post trabajo f = Ok j ->
  job_id j = job_id trabajo /\ equipment j = equipment trabajo /\ next_date_ok j.
Proof.
  unfold trabajo_edit_post. intros H. ok_steps. subst.
  split; [reflexivity|]. split; [reflexivity|].
  unfold next_date_ok. cbn [next_service_date next_service_days date_done].
  eapply next_date_of_ok. eassumption.
Qed.

End Job_writes.

Section Job_outcomes.
Context {lib : PyLib} {utils : Utils}.

(** [trabajo_new_global] writes one job or nothing: either the world is as
    it was, or the answer is the redirect to the job list and the store has
    one more job, of an equipment of the store, with the next free id; the
    cache is the same in both cases. *)
Theorem trabajo_new_global_all_or_nothing env req w :
  let o := trabajo_new_global env req w in
  world o = w
  \/ (response o = Redirect "trabajos_list" no_arg
      /\ cache (world o) = cache w
      /\ exists equipo j,
           In equipo (equipments (store w)) /\ equipment j = eq_id equipo
           /\ job_id j = next_id (map job_id (jobs (store w)))
           /\ store (world o)
              = {| equipments := equipments (store w);
                   jobs := (jobs (store w) ++ [j])%list |}).
Proof.
  unfold trabajo_new_global. destruct (method req).
  - left. destruct (query env _); reflexivity.
  - destruct (trabajo_new_global_post env (form req) (store w)) as [s'|e] eqn:E.
    + right. apply trabajo_new_global_post_ok in E.
      destruct E as (equipo & j & I & Q & -> & N & _).
      split; [reflexivity|]. split; [reflexivity|].
      exists equipo, j. auto.
    + left. reflexivity.
Qed.

(** [trabajo_new] writes one job or nothing, and never a job dated after
    today: either the world is as it was, or the answer is the redirect to
    the equipment's page and the store has one more job, of the equipment of
    the URL, dated today or before. *)
Theorem trabajo_new_all_or_nothing env equipo_id req w :
  let o := trabajo_new env equipo_id req w in
  world o = w
  \/ (response o = Redirect "equipo_detail" (int_arg equipo_id)
      /\ cache (world o) = cache w
      /\ exists j,
           equipment j = equipo_id /\ date_done j <= today env
           /\ job_id j = next_id (map job_id (jobs (store w)))
           /\ store (world o)
              = {| equipments := equipments (store w);
                   jobs := (jobs (store w) ++ [j])%list |}).
Proof.
  unfold trabajo_new.
  destruct (query env _) as [[equipo|]|] eqn:Q; try (left; reflexivity).
  destruct (method req); [left; reflexivity|].
  destruct (trabajo_new_try env equipo (form req) (store w)) as [fl [s'|x]] eqn:E;
    [|left; reflexivity].
  right. apply trabajo_new_try_ok in E. destruct E as (j & Hj & -> & N & D & _).
  split; [reflexivity|]. split; [reflexivity|].
  exists j. repeat split; try assumption.
  rewrite Hj. unfold query in Q. destruct (db_up env); [|discriminate].
  injection Q as Q. apply find_some in Q. destruct Q as [_ Q].
  apply Z.eqb_eq in Q. exact Q.
Qed.

Lemma Job_save_jobs s j :
  map job_id (jobs (Job_save s j)) = map job_id (jobs s)
  /\ (forall k, In k (jobs (Job_save s j)) -> k = j \/ In k (jobs s))
  /\ (forall k, In k (jobs s) -> job_id k <> job_id j -> In k (jobs (Job_save s j))).
Proof.
  unfold Job_save. cbn [jobs]. repeat split.
  - rewrite map_map. apply map_ext_in. intros k _.
    destruct (Z.eqb_spec (job_id k) (job_id j)); congruence.
  - intros k H. apply in_map_iff in H. destruct H as (k' & <- & I).
    destruct (job_id k' =? job_id j); auto.
  - intros k I N. apply in_map_iff. exists k. split; [|assumption].
    destruct (Z.eqb_spec (job_id k) (job_id j)); congruence.
Qed.

Lemma trabajo_edit_store env trabajo_id req w :
  store (world (trabajo_edit env trabajo_id req w)) = store w
  \/ exists trabajo j,
       In trabajo (jobs (store w)) /\ job_id trabajo = trabajo_id
       /\ trabajo_edit_post trabajo (form req) = Ok j
       /\ store (world (trabajo_edit env trabajo_id req w)) = Job_save (store w) j.
Proof.
  unfold trabajo_edit.
  destruct (bind _ _) as [trabajo|] eqn:Q; [|left; reflexivity].
  ok_steps. subst.
  match goal with H : job_by_id _ _ = Some _ |- _ =>
    apply find_some in H; destruct H as [I Hid]; apply Z.eqb_eq in Hid end.
  destruct (method req).
  - left. destruct (equipment_by_id _ _); reflexivity.
  - destruct (trabajo_edit_post trabajo (form req)) as [j|] eqn:E; [|left; reflexivity].
    right. exists trabajo, j. repeat split; try assumption.
    cbv zeta. destruct (equipment_by_id _ _); reflexivity.
Qed.

(** [trabajo_edit] rewrites one row and nothing else: the jobs keep their
    ids, in the same order, the equipment table and the cache are as they
    were, every job of another id is still there, and a job that was not
    there before has the id of the URL and the equipment of the job it
    replaces. *)
Theorem trabajo_edit_touches_one_row env trabajo_id req w :
  let w' := world (trabajo_edit env trabajo_id req w) in
  map job_id (jobs (store w')) = map job_id (jobs (store w))
  /\ equipments (store w') = equipments (store w)
  /\ cache w' = cache w
  /\ (forall k, In k (jobs (store w)) -> job_id k <> trabajo_id ->
                In k (jobs (store w')))
  /\ (forall k, In k (jobs (store w')) ->
         In k (jobs (store w))
         \/ (job_id k = trabajo_id
             /\ exists t, In t (jobs (store w)) /\ job_id t = trabajo_id
                          /\ equipment k = equipment t)).
Proof.
  cbv zeta.
  destruct (job_endpoints_keep_cache env trabajo_id req w) as (_ & _ & C & _).
  destruct (trabajo_edit_store env trabajo_id req w) as [E|(t & j & I & Hid & P & E)];
    rewrite E.
  - repeat split; auto.
  - apply trabajo_edit_post_ok in P. destruct P as (P1 & P2 & _).
    destruct (Job_save_jobs (store w) j) as (A & A' & B).
    repeat split; try assumption.
    + intros k Hk N. apply B; congruence.
    + intros k Hk. destruct (A' k Hk) as [->|Hk']; [right|left; assumption].
      split; [congruence|]. exists t. auto.
Qed.

End Job_outcomes.

Lemma trabajo_delete_store env trabajo_id req w :
  store (world (trabajo_delete env trabajo_id req w)) = store w
  \/ (store (world (trabajo_delete env trabajo_id req w))
      = Job_delete (store w) trabajo_id
      /\ exists t e, job_by_id (store w) trabajo_id = Some t
                     /\ equipment_by_id (store w) (equipment t) = Some e
                     /\ response (trabajo_delete env trabajo_id req w)
                        = if substring_in "/trabajos"
                               (match referer req with Some r => r | None => "" end)
                          then Redirect "trabajos_list" no_arg
                          else Redirect "equipo_detail" (int_arg (eq_id e))).
Proof.
  unfold trabajo_delete.
  destruct (bind _ _) as [id|] eqn:Q; [|left; reflexivity].
  right. split; [reflexivity|]. ok_steps. subst. eauto.
Qed.

Section Job_invariants.
Context {lib : PyLib} {utils : Utils}.

(** Jobs written through the job endpoints have the next service date their
    interval asks for, the interval 0 counting as none: if every job of the
    store has it, every job has it after a request to any of the four
    endpoints. *)
Theorem job_next_date_invariant env id req w :
  jobs_ok (store w) ->
  jobs_ok (store (world (trabajo_new_global env req w)))
  /\ jobs_ok (store (world (trabajo_new env id req w)))
  /\ jobs_ok (store (world (trabajo_edit env id req w)))
  /\ jobs_ok (store (world (trabajo_delete env id req w))).
Proof.
  intros H. repeat split.
  - unfold trabajo_new_global. destruct (method req).
    + destruct (query env _); exact H.
    + destruct (trabajo_new_global_post env (form req) (store w)) as [s'|e] eqn:E;
        [|exact H].
      apply trabajo_new_global_post_ok in E.
      destruct E as (equipo & j & _ & _ & -> & _ & N).
      intros k Hk. cbn [world with_store store jobs] in Hk.
      apply in_app_or in Hk. destruct Hk as [Hk|[<-|[]]]; [apply H|]; assumption.
  - unfold trabajo_new.
    destruct (query env _) as [[equipo|]|]; try exact H.
    destruct (method req); [exact H|].
    destruct (trabajo_new_try env equipo (form req) (store w)) as [fl [s'|x]] eqn:E;
      [|exact H].
    apply trabajo_new_try_ok in E. destruct E as (j & _ & -> & _ & _ & N).
    intros k Hk. cbn [world with_store store jobs] in Hk.
    apply in_app_or in Hk. destruct Hk as [Hk|[<-|[]]]; [apply H|]; assumption.
  - destruct (trabajo_edit_store env id req w) as [E|(t & j & _ & _ & P & E)];
      rewrite E; [exact H|].
    apply trabajo_edit_post_ok in P. destruct P as (_ & _ & N).
    intros k Hk. destruct (Job_save_jobs (store w) j) as (_ & A & _).
    destruct (A k Hk) as [->|Hk']; [assumption|apply H; assumption].
  - destruct (trabajo_delete_store env id req w) as [E|[E _]]; rewrite E; [exact H|].
    intros k Hk. unfold Job_delete in Hk. cbn [jobs] in Hk.
    apply filter_In in Hk. apply H, Hk.
Qed.

(** No request to a job endpoint leaves a job without its equipment: if every
    job of the store belongs to an equipment of the store, so does every job
    afterwards. *)
Theorem job_endpoints_keep_no_orphans env id req w :
  no_orphans (store w) ->
  no_orphans (store (world (trabajo_new_global env req w)))
  /\ no_orphans (store (world (trabajo_new env id req w)))
  /\ no_orphans (store (world (trabajo_edit env id req w)))
  /\ no_orphans (store (world (trabajo_delete env id req w))).
Proof.
  intros H. repeat split.
  - unfold trabajo_new_global. destruct (method req).
    + destruct (query env _); exact H.
    + destruct (trabajo_new_global_post env (form req) (store w)) as [s'|e] eqn:E;
        [|exact H].
      apply trabajo_new_global_post_ok in E.
      destruct E as (equipo & j & I & Q & -> & _).
      intros k Hk. cbn [world with_store store jobs equipments] in *.
      apply in_app_or in Hk. destruct Hk as [Hk|[<-|[]]]; [apply H, Hk|].
      exists equipo. auto.
  - unfold trabajo_new.
    destruct (query env _) as [[equipo|]|] eqn:Q; try exact H.
    destruct (method req); [exact H|].
    destruct (trabajo_new_try env equipo (form req) (store w)) as [fl [s'|x]] eqn:E;
      [|exact H].
    apply trabajo_new_try_ok in E. destruct E as (j & Hj & -> & _).
    intros k Hk. cbn [world with_store store jobs equipments] in *.
    apply in_app_or in Hk. destruct Hk as [Hk|[<-|[]]]; [apply H, Hk|].
    exists equipo. split; [|congruence].
    unfold query in Q. destruct (db_up env); [|discriminate].
    injection Q as Q. apply find_some in Q. apply Q.
  - destruct (trabajo_edit_store env id req w) as [E|(t & j & It & _ & P & E)];
      rewrite E; [exact H|].
    apply trabajo_edit_post_ok in P. destruct P as (_ & P & _).
    destruct (Job_save_jobs (store w) j) as (_ & A & _).
    intros k Hk. destruct (A k Hk) as [->|Hk']; [|apply H, Hk'].
    rewrite P. apply H, It.
  - destruct (trabajo_delete_store env id req w) as [E|[E _]]; rewrite E; [exact H|].
    intros k Hk. unfold Job_delete in *. cbn [jobs equipments] in *.
    apply filter_In in Hk. apply H, Hk.
Qed.

(** Deleting a job removes the rows of that id and no other: with the
    database up and the job and its equipment in the store, the job is gone
    afterwards, every other job is still there, the equipment table and the
    cache are untouched, and the answer goes back to the job list when the
    Referer contains [/trabajos], to the equipment's page otherwise. *)
Theorem trabajo_delete_removes_the_job env trabajo_id req w t e :
  db_up env = true ->
  job_by_id (store w) trabajo_id = Some t ->
  equipment_by_id (store w) (equipment t) = Some e ->
  let o := trabajo_delete env trabajo_id req w in
  job_by_id (store (world o)) trabajo_id = None
  /\ (forall k, In k (jobs (store (world o)))
                <-> In k (jobs (store w)) /\ job_id k <> trabajo_id)
  /\ equipments (store (world o)) = equipments (store w)
  /\ cache (world o) = cache w
  /\ response o = (if substring_in "/trabajos"
                        (match referer req with Some r => r | None => "" end)
                   then Redirect "trabajos_list" no_arg
                   else Redirect "equipo_detail" (int_arg (eq_id e))).
Proof.
  intros Hd Ht He. unfold trabajo_delete, query. rewrite Hd. cbn [bind].
  rewrite Ht. cbn [of_option bind]. rewrite He. cbn [of_option bind].
  cbn [world response with_store store cache]. repeat split.
  - unfold job_by_id, Job_delete. cbn [jobs].
    destruct (find _ _) as [k|] eqn:F; [|reflexivity].
    apply find_some in F. destruct F as [F1 F2]. apply filter_In in F1.
    destruct F1 as [_ F1]. rewrite F2 in F1. discriminate.
  - unfold Job_delete in H. cbn [jobs] in H. apply filter_In in H. apply H.
  - unfold Job_delete in H. cbn [jobs] in H. apply filter_In in H.
    destruct H as [_ H]. apply negb_true_iff, Z.eqb_neq in H. exact H.
  - intros [I N]. unfold Job_delete. cbn [jobs]. apply filter_In.
    split; [assumption|]. apply negb_true_iff, Z.eqb_neq. exact N.
Qed.

End Job_invariants.

Lemma w2_jobs_ok : jobs_ok (store w2).
Proof.
  intros j H. vm_compute in H.
  destruct H as [<-|[<-|[]]]; vm_compute; reflexivity.
Qed.

Lemma w2_no_orphans : no_orphans (store w2).
Proof.
  intros j H. exists E1. split; [left; reflexivity|].
  vm_compute in H. destruct H as [<-|[<-|[]]]; reflexivity.
Qed.

Lemma job_next_date_invariant_witness :
  jobs_ok (store w2)
  /\ jobs_ok (store (world (trabajo_new_global (lib := Reference.lib)
                             (env_at 0 (ymd2ord 2024 2 10) true)
                             (post (job_form "2024-02-05" "10" "0")) w2))).
Proof.
  split; [exact w2_jobs_ok|].
  apply (job_next_date_invariant (lib := Reference.lib) (utils := Reference.utils)
           (env_at 0 (ymd2ord 2024 2 10) true) 1
           (post (job_form "2024-02-05" "10" "0")) w2 w2_jobs_ok).
Defined.

Lemma job_endpoints_keep_no_orphans_witness :
  no_orphans (store w2)
  /\ no_orphans (store (world (trabajo_delete
                                 (env_at 0 (ymd2ord 2024 2 10) true) 1
                                 (post []) w2))).
Proof.
  split; [exact w2_no_orphans|].
  apply (job_endpoints_keep_no_orphans (lib := Reference.lib)
           (utils := Reference.utils) (env_at 0 (ymd2ord 2024 2 10) true) 1
           (post []) w2 w2_no_orphans).
Defined.

Lemma trabajo_delete_witness :
  job_by_id (store (world (trabajo_delete (env_at 0 (ymd2ord 2024 2 10) true) 1
                             (post []) w2))) 1
  = None.
Proof.
  destruct (job_by_id (store w2) 1) as [t|] eqn:Ht;
    [|vm_compute in Ht; discriminate].
  destruct (equipment_by_id (store w2) (equipment t)) as [e|] eqn:He.
  - exact (proj1 (trabajo_delete_removes_the_job
                    (env_at 0 (ymd2ord 2024 2 10) true) 1 (post []) w2 t e
                    eq_refl Ht He)).
  - vm_compute in Ht. injection Ht as <-. vm_compute in He. discriminate.
Defined.

(** ** What the equipment endpoints write *)

Section Equipment_writes.
Context {lib : PyLib} {utils : Utils}.

Lemma read_fields_n_serie d x :
  read_fields d = Ok x -> dict_get "n_serie" d = Some (f_n_serie x).
Proof.
  unfold read_fields. intros H. ok_steps. subst. cbn [f_n_serie]. assumption.
Qed.

Lemma first_filter_none {A} (p : A -> bool) (l : list A) :
  first (filter p l) = None -> forall x, In x l -> p x = false.
Proof.
  intros H x I. destruct (p x) eqn:E; [|reflexivity].
  assert (F : In x (filter p l)) by (apply filter_In; auto).
  unfold first in H. destruct (filter p l); [destruct F|discriminate].
Qed.

Lemma equipo_new_try_ok env f s fl s' x :
  equipo_new_try env f s = (fl, Ok (s', x)) ->
  fl = [] /\ s' = Equipment_create s x
  /\ forall e, In e (equipments s) -> n_serie e <> f_n_serie x.
Proof.
  unfold equipo_new_try.
  destruct (bind _ _) as [[vd [ex|]]|] eqn:E; try discriminate.
  intros [= <- H]. ok_steps. subst.
  match goal with H : read_fields _ = Ok _ |- _ =>
    apply read_fields_n_serie in H; rename H into R end.
  repeat split. intros e I Q.
  match goal with H : _ = None |- _ =>
    pose proof (first_filter_none _ _ H e I) as N end.
  cbv beta in N. apply String.eqb_neq in N. congruence.
Qed.

Lemma equipo_new_form_store env fl w :
  store (world (equipo_new_form env fl w)) = store w.
Proof.
  unfold equipo_new_form.
  destruct (get_cached_equipment_autocomplete env (store w) (cache w)) as [[a|e] c];
    reflexivity.
Qed.

Lemma equipo_new_store env req w :
  store (world (equipo_new env req w)) = store w
  \/ exists x,
       store (world (equipo_new env req w))
       = {| equipments :=
              (equipments (store w)
               ++ [equipment_of_fields
                     (next_id (map eq_id (equipments (store w)))) x])%list;
            jobs := jobs (store w) |}
       /\ forall e, In e (equipments (store w)) -> n_serie e <> f_n_serie x.
Proof.
  unfold equipo_new. destruct (method req).
  - left. apply equipo_new_form_store.
  - destruct (equipo_new_try env (form req) (store w)) as [fl [[s' x]|e]] eqn:E.
    + right. apply equipo_new_try_ok in E. destruct E as (-> & -> & N).
      exists x. auto.
    + left. apply equipo_new_form_store.
Qed.

(** [equipo_new] creates one equipment or none: either the store is as it
    was, or the answer is the redirect to the list, the store has one more
    equipment, with the next free id and a serial number no equipment had,
    the jobs are untouched, and the cache is the one
    [clear_cache_on_equipment_change] leaves. *)
Theorem equipo_new_all_or_nothing env req w :
  let o := equipo_new env req w in
  store (world o) = store w
  \/ (response o = Redirect "equipos_list" no_arg
      /\ cache (world o) = clear_cache_on_equipment_change (cache w)
      /\ exists x,
           store (world o)
           = {| equipments :=
                  (equipments (store w)
                   ++ [equipment_of_fields
                         (next_id (map eq_id (equipments (store w)))) x])%list;
                jobs := jobs (store w) |}
           /\ forall e, In e (equipments (store w)) -> n_serie e <> f_n_serie x).
Proof.
  unfold equipo_new. destruct (method req).
  - left. apply equipo_new_form_store.
  - destruct (equipo_new_try env (form req) (store w)) as [fl [[s' x]|e]] eqn:E.
    + right. apply equipo_new_try_ok in E. destruct E as (-> & -> & N).
      split; [reflexivity|]. split; [reflexivity|]. exists x. auto.
    + left. apply equipo_new_form_store.
Qed.

(** [equipo_new] keeps the serial numbers distinct. *)
Theorem equipo_new_keeps_unique_series env req w :
  unique_series (store w) -> unique_series (store (world (equipo_new env req w))).
Proof.
  intros U.
  destruct (equipo_new_store env req w) as [E|(x & E & N)]; rewrite E; [exact U|].
  unfold unique_series in *. cbn [equipments]. rewrite map_app. cbn [map].
  apply NoDup_app_remove_l with (l := []). cbn [app].
  apply Permutation_NoDup with (l := f_n_serie x :: map n_serie (equipments (store w))).
  - apply Permutation_cons_append.
  - constructor; [|exact U]. intros I. apply in_map_iff in I.
    destruct I as (e & Q & I). exact (N e I Q).
Qed.

Lemma assign_fields_ok d e e' :
  assign_fields d e = (e', Ok tt) ->
  eq_id e' = eq_id e /\ dict_get "n_serie" d = Some (n_serie e').
Proof.
  unfold assign_fields, assign.
  repeat match goal with
         | |- context [of_option KeyError (dict_get ?k d)] =>
             destruct (dict_get k d); cbn [of_option bind];
             [|intros [= ]; discriminate]
         | |- context [of_option ValueError (py_int ?a)] =>
             destruct (py_int a); cbn [of_option bind]; [|intros [= ]; discriminate]
         end.
  intros [= <-]. split; reflexivity.
Qed.

Lemma equipo_edit_try_ok equipo f s fl e' s' vd :
  equipo_edit_try equipo f s = (fl, e', Ok (s', vd)) ->
  fl = [] /\ s' = Equipment_save s e' /\ eq_id e' = eq_id equipo
  /\ forall k, In k (equipments s) -> n_serie k = n_serie e' -> eq_id k = eq_id equipo.
Proof.
  unfold equipo_edit_try.
  destruct (bind _ _) as [[vd' [ex|]]|] eqn:E; try discriminate.
  destruct (assign_fields vd' equipo) as [e'' [[]|x]] eqn:A; [|discriminate].
  intros [= <- <- <- <-]. apply assign_fields_ok in A. destruct A as [A1 A2].
  ok_steps. subst. repeat split; try assumption.
  intros k I Q.
  match goal with H : first _ = None |- _ =>
    pose proof (first_filter_none _ _ H k I) as N end.
  cbv beta in N.
  match type of N with
  | (String.eqb _ ?a && _)%bool = false =>
      assert (S : String.eqb (n_serie k) a = true)
        by (apply String.eqb_eq; congruence)
  end.
  rewrite S in N. cbn [andb] in N. apply negb_false_iff, Z.eqb_eq in N. exact N.
Qed.

Lemma equipo_edit_store env equipo_id req w :
  world (equipo_edit env equipo_id req w) = w
  \/ exists equipo e',
       In equipo (equipments (store w)) /\ eq_id equipo = equipo_id
       /\ eq_id e' = equipo_id
       /\ (forall k, In k (equipments (store w)) -> n_serie k = n_serie e' ->
                     eq_id k = equipo_id)
       /\ world (equipo_edit env equipo_id req w)
          = with_store w (Equipment_save (store w) e').
Proof.
  unfold equipo_edit.
  destruct (query env _) as [[equipo|]|] eqn:Q; try (left; reflexivity).
  ok_steps. apply find_some in Q. destruct Q as [I Hid]. apply Z.eqb_eq in Hid.
  destruct (method req); [left; reflexivity|].
  destruct (equipo_edit_try equipo (form req) (store w)) as [[fl e'] [[s' vd]|x]] eqn:E;
    [|left; reflexivity].
  right. apply equipo_edit_try_ok in E. destruct E as (-> & -> & E1 & E2).
  exists equipo, e'. rewrite Hid in *. auto.
Qed.

Lemma Equipment_save_series s e' :
  unique_ids s -> unique_series s ->
  (forall k, In k (equipments s) -> n_serie k = n_serie e' -> eq_id k = eq_id e') ->
  unique_series (Equipment_save s e').
Proof.
  unfold unique_ids, unique_series, Equipment_save. cbn [equipments].
  induction (equipments s) as [|k r IH]; intros Ui Us H; [constructor|].
  cbn [map] in *. inversion Ui as [|? ? Ni Ui']; subst.
  inversion Us as [|? ? Ns Us']; subst.
  assert (IH' := IH Ui' Us' (fun k' I => H k' (or_intror I))).
  constructor; [|exact IH'].
  intros I. apply in_map_iff in I. destruct I as (x & Qx & Ix).
  apply in_map_iff in Ix. destruct Ix as (k' & <- & Ik').
  destruct (Z.eqb_spec (eq_id k) (eq_id e')) as [Ek|Ek];
    destruct (Z.eqb_spec (eq_id k') (eq_id e')) as [Ek'|Ek'].
  - apply Ni. apply in_map_iff. exists k'. split; [congruence|assumption].
  - apply Ni. apply in_map_iff. exists k'. split; [|assumption].
    rewrite (H k' (or_intror Ik') Qx). congruence.
  - apply Ek. apply (H k (or_introl eq_refl)). congruence.
  - apply Ns. apply in_map_iff. exists k'. auto.
Qed.

(** [equipo_edit] keeps the serial numbers distinct, in a table whose ids are
    distinct: the duplicate check leaves out the edited row only. *)
Theorem equipo_edit_keeps_unique_series env equipo_id req w :
  unique_ids (store w) -> unique_series (store w) ->
  unique_series (store (world (equipo_edit env equipo_id req w))).
Proof.
  intros Ui Us.
  destruct (equipo_edit_store env equipo_id req w)
    as [E|(equipo & e' & _ & _ & Q & N & E)]; rewrite E; [exact Us|].
  cbn [store with_store]. apply Equipment_save_series; try assumption.
  intros k I S. rewrite Q. exact (N k I S).
Qed.

End Equipment_writes.

Lemma fold_max_ge (l : list Z) : forall a, a <= fold_left Z.max l a.
Proof.
  induction l as [|x r IH]; intros a; cbn [fold_left]; [lia|].
  pose proof (IH (Z.max a x)). lia.
Qed.

Lemma fold_max_In (l : list Z) : forall a x, In x l -> x <= fold_left Z.max l a.
Proof.
  induction l as [|y r IH]; intros a x I; [destruct I|].
  cbn [fold_left]. destruct I as [->|I]; [|apply IH, I].
  pose proof (fold_max_ge r (Z.max a x)). lia.
Qed.

(** The id of a new row is above every id of the table. *)
Lemma next_id_fresh ids x : In x ids -> x < next_id ids.
Proof. intros I. unfold next_id. pose proof (fold_max_In ids 0 x I). lia. Qed.

(** Deleting an equipment leaves the remaining ids distinct. *)
Lemma Equipment_delete_ids s id : unique_ids s -> unique_ids (Equipment_delete s id).
Proof.
  unfold unique_ids, Equipment_delete. cbn [equipments].
  induction (equipments s) as [|k r IH]; intros U; [constructor|].
  cbn [map filter] in *. apply NoDup_cons_iff in U. destruct U as [N U].
  destruct (eq_id k =? id); cbn [negb map]; [apply IH, U|].
  apply NoDup_cons_iff. split; [|apply IH, U].
  rewrite in_map_iff in *. intros (x & Q & I). apply filter_In in I.
  apply N. exists x. tauto.
Qed.

Section Equipment_invariants.
Context {lib : PyLib} {utils : Utils}.

Lemma Equipment_save_ids s e' :
  map eq_id (equipments (Equipment_save s e')) = map eq_id (equipments s).
Proof.
  unfold Equipment_save. cbn [equipments]. rewrite map_map. apply map_ext.
  intros k. destruct (Z.eqb_spec (eq_id k) (eq_id e')); congruence.
Qed.

Lemma update_propietario_ids s nombre nuevo :
  map eq_id (equipments (fst (update_propietario s nombre nuevo)))
  = map eq_id (equipments s).
Proof.
  unfold update_propietario. cbn [fst equipments]. rewrite map_map. apply map_ext.
  intros k. destruct (propietario k) as [p|]; [|reflexivity].
  destruct (String.eqb p nombre); reflexivity.
Qed.

Lemma cliente_edit_store env nombre req w :
  world (cliente_edit env nombre req w) = w
  \/ exists nuevo,
       nuevo <> "" /\ nuevo <> nombre /\ equipos_de (store w) nuevo = []
       /\ world (cliente_edit env nombre req w)
          = {| store := fst (update_propietario (store w) nombre nuevo);
               cache := clear_cache_on_equipment_change (cache w) |}.
Proof.
  unfold cliente_edit. destruct (method req).
  - left. destruct (query env _) as [[|e r]|]; reflexivity.
  - set (nuevo := strip (get_default "nuevo_nombre" "" (form req))).
    destruct (String.eqb_spec nuevo "") as [|N1]; [left; reflexivity|].
    destruct (String.eqb_spec nuevo nombre) as [|N2]; [left; reflexivity|].
    unfold query. destruct (db_up env); [|left; reflexivity].
    destruct (equipos_de (store w) nuevo) as [|e r] eqn:E; [|left; reflexivity].
    right. exists nuevo. auto.
Qed.

Lemma equipo_delete_store env equipo_id w :
  world (equipo_delete env equipo_id w) = w
  \/ ((exists e, equipment_by_id (store w) equipo_id = Some e)
      /\ world (equipo_delete env equipo_id w)
         = with_store w (Equipment_delete (store w) equipo_id)).
Proof.
  unfold equipo_delete.
  destruct (bind _ _) as [e|] eqn:Q; [|left; reflexivity].
  right. ok_steps. subst. split; [eauto|reflexivity].
Qed.

(** The equipment and owner endpoints keep the ids of the equipment table
    distinct. *)
Theorem equipment_endpoints_keep_unique_ids env id nombre req w :
  unique_ids (store w) ->
  unique_ids (store (world (equipo_new env req w)))
  /\ unique_ids (store (world (equipo_edit env id req w)))
  /\ unique_ids (store (world (equipo_delete env id w)))
  /\ unique_ids (store (world (cliente_edit env nombre req w))).
Proof.
  intros U. repeat split.
  - destruct (equipo_new_store env req w) as [E|(x & E & _)]; rewrite E; [exact U|].
    unfold unique_ids in *. cbn [equipments]. rewrite map_app. cbn [map eq_id equipment_of_fields].
    apply Permutation_NoDup
      with (l := next_id (map eq_id (equipments (store w)))
                 :: map eq_id (equipments (store w))).
    + apply Permutation_cons_append.
    + constructor; [|exact U]. intros I. apply next_id_fresh in I. lia.
  - destruct (equipo_edit_store env id req w) as [E|(_ & e' & _ & _ & _ & _ & E)];
      rewrite E; [exact U|].
    unfold unique_ids. cbn [store with_store]. rewrite Equipment_save_ids. exact U.
  - destruct (equipo_delete_store env id w) as [E|[_ E]]; rewrite E; [exact U|].
    cbn [store with_store]. apply Equipment_delete_ids, U.
  - destruct (cliente_edit_store env nombre req w) as [E|(nuevo & _ & _ & _ & E)];
      rewrite E; [exact U|].
    unfold unique_ids. cbn [store]. rewrite update_propietario_ids. exact U.
Qed.

(** Deleting an equipment deletes its jobs with it: with the database up and
    the equipment in the store, no equipment and no job of that id is left,
    every other equipment and every job of another equipment is still there,
    and the cache is as it was. *)
Theorem equipo_delete_cascades env equipo_id w e :
  db_up env = true ->
  equipment_by_id (store w) equipo_id = Some e ->
  let w' := world (equipo_delete env equipo_id w) in
  equipment_by_id (store w') equipo_id = None
  /\ (forall k, In k (equipments (store w'))
                <-> In k (equipments (store w)) /\ eq_id k <> equipo_id)
  /\ (forall j, In j (jobs (store w'))
                <-> In j (jobs (store w)) /\ equipment j <> equipo_id)
  /\ cache w' = cache w.
Proof.
  intros Hd He. unfold equipo_delete, query. rewrite Hd. cbn [bind].
  rewrite He. cbn [of_option world with_store store cache].
  unfold Equipment_delete. cbn [equipments jobs]. repeat split.
  - unfold equipment_by_id. cbn [equipments].
    destruct (find _ _) as [k|] eqn:F; [|reflexivity].
    apply find_some in F. destruct F as [F1 F2]. apply filter_In in F1.
    destruct F1 as [_ F1]. rewrite F2 in F1. discriminate.
  - apply filter_In in H. apply H.
  - apply filter_In in H. destruct H as [_ H].
    apply negb_true_iff, Z.eqb_neq in H. exact H.
  - intros [I N]. apply filter_In. split; [assumption|].
    apply negb_true_iff, Z.eqb_neq. exact N.
  - apply filter_In in H. apply H.
  - apply filter_In in H. destruct H as [_ H].
    apply negb_true_iff, Z.eqb_neq in H. exact H.
  - intros [I N]. apply filter_In. split; [assumption|].
    apply negb_true_iff, Z.eqb_neq. exact N.
Qed.

(** No request to an equipment or owner endpoint leaves a job without its
    equipment. *)
Theorem equipment_endpoints_keep_no_orphans env id nombre req w :
  no_orphans (store w) ->
  no_orphans (store (world (equipo_new env req w)))
  /\ no_orphans (store (world (equipo_edit env id req w)))
  /\ no_orphans (store (world (equipo_delete env id w)))
  /\ no_orphans (store (world (cliente_edit env nombre req w))).
Proof.
  intros H.
  assert (K : forall s', jobs s' = jobs (store w) ->
                         (forall x, In x (map eq_id (equipments (store w))) ->
                                    In x (map eq_id (equipments s'))) ->
                         no_orphans s').
  { intros s' J I j Hj. rewrite J in Hj. destruct (H j Hj) as (e & Ie & Q).
    assert (M : In (equipment j) (map eq_id (equipments s'))).
    { apply I. apply in_map_iff. eauto. }
    apply in_map_iff in M. destruct M as (e' & Q' & I'). eauto. }
  repeat split.
  - destruct (equipo_new_store env req w) as [E|(x & E & _)]; rewrite E; [exact H|].
    apply K; [reflexivity|]. intros y I. cbn [equipments]. rewrite map_app.
    apply in_or_app. left. exact I.
  - destruct (equipo_edit_store env id req w) as [E|(_ & e' & _ & _ & _ & _ & E)];
      rewrite E; [exact H|].
    apply K; [reflexivity|]. cbn [store with_store]. rewrite Equipment_save_ids. auto.
  - destruct (equipo_delete_store env id w) as [E|[_ E]]; rewrite E; [exact H|].
    intros j Hj. cbn [store with_store] in *. unfold Equipment_delete in *.
    cbn [jobs equipments] in *. apply filter_In in Hj. destruct Hj as [Hj N].
    destruct (H j Hj) as (e & Ie & Q). exists e. split; [|assumption].
    apply filter_In. split; [assumption|]. rewrite Q. exact N.
  - destruct (cliente_edit_store env nombre req w) as [E|(nuevo & _ & _ & _ & E)];
      rewrite E; [exact H|].
    apply K; [reflexivity|]. cbn [store]. rewrite update_propietario_ids. auto.
Qed.

(** [equipo_edit] and [equipo_delete] leave the cache as they found it. *)
Theorem equipo_edit_and_delete_keep_cache env id req w :
  cache (world (equipo_edit env id req w)) = cache w
  /\ cache (world (equipo_delete env id w)) = cache w.
Proof.
  split.
  - destruct (equipo_edit_store env id req w) as [E|(_ & e' & _ & _ & _ & _ & E)];
      rewrite E; reflexivity.
  - destruct (equipo_delete_store env id w) as [E|[_ E]]; rewrite E; reflexivity.
Qed.

End Equipment_invariants.

Lemma w_owners_unique :
  unique_ids (store w_owners) /\ unique_series (store w_owners).
Proof.
  split; vm_compute; repeat constructor; cbn [In];
    intros H; repeat (destruct H as [H|H]; [discriminate|]); exact H.
Qed.

Lemma equipo_new_keeps_unique_series_witness :
  unique_series (store w_owners)
  /\ unique_series (store (world (equipo_new (lib := Reference.lib)
                                    (utils := Reference.utils)
                                    (env_at 10 (ymd2ord 2024 2 10) true)
                                    (post (equipo_form "SN-2")) w_owners))).
Proof.
  split; [apply w_owners_unique|].
  apply (equipo_new_keeps_unique_series (lib := Reference.lib)
           (utils := Reference.utils)), w_owners_unique.
Defined.

Lemma equipo_edit_keeps_unique_series_witness :
  unique_ids (store w_owners) /\ unique_series (store w_owners)
  /\ unique_series (store (world (equipo_edit (lib := Reference.lib)
                                    (utils := Reference.utils)
                                    (env_at 10 (ymd2ord 2024 2 10) true) 1
                                    (post (equipo_form "SN-1")) w_owners))).
Proof.
  split; [apply w_owners_unique|]. split; [apply w_owners_unique|].
  apply (equipo_edit_keeps_unique_series (lib := Reference.lib)
           (utils := Reference.utils)); apply w_owners_unique.
Defined.

Lemma equipment_endpoints_keep_unique_ids_witness :
  unique_ids (store w_owners)
  /\ unique_ids (store (world (equipo_delete (env_at 10 (ymd2ord 2024 2 10) true) 2
                                 w_owners))).
Proof.
  split; [apply w_owners_unique|].
  apply (equipment_endpoints_keep_unique_ids (lib := Reference.lib)
           (utils := Reference.utils) (env_at 10 (ymd2ord 2024 2 10) true) 2 "Ana"
           (post []) w_owners), w_owners_unique.
Defined.

Lemma equipo_delete_cascades_witness :
  equipment_by_id
    (store (world (equipo_delete (env_at 10 (ymd2ord 2024 2 10) true) 1 w2))) 1
  = None.
Proof.
  exact (proj1 (equipo_delete_cascades (env_at 10 (ymd2ord 2024 2 10) true) 1 w2 E1
                  eq_refl eq_refl)).
Defined.

Lemma equipment_endpoints_keep_no_orphans_witness :
  no_orphans (store w2)
  /\ no_orphans (store (world (equipo_delete (env_at 10 (ymd2ord 2024 2 10) true) 1
                                 w2))).
Proof.
  split; [exact w2_no_orphans|].
  apply (equipment_endpoints_keep_no_orphans (lib := Reference.lib)
           (utils := Reference.utils) (env_at 10 (ymd2ord 2024 2 10) true) 1 "Ana"
           (post []) w2 w2_no_orphans).
Defined.

(** ** The cache and its invalidation *)

Lemma lookup_fresh {A} (v : A) now now' timeout :
  lookup now' (Some {| value := v; expires_at := now + timeout |})
  = if now' <? now + timeout then Some v else None.
Proof. reflexivity. Qed.

(** What a memoised function answers after a miss filled its entry: the
    stored value while the entry has not expired, whatever the function
    would compute now, and the function's result afterwards. *)
Lemma memoize_after_miss {A} (sl : slot A) timeout (v : A) (f' : result A) now now' c :
  slot_get sl (slot_set sl (Some {| value := v; expires_at := now + timeout |}) c)
  = Some {| value := v; expires_at := now + timeout |} ->
  (now' < now + timeout ->
   memoize sl timeout f' now'
     (slot_set sl (Some {| value := v; expires_at := now + timeout |}) c)
   = (Ok v, slot_set sl (Some {| value := v; expires_at := now + timeout |}) c))
  /\ (now + timeout <= now' ->
      fst (memoize sl timeout f' now'
             (slot_set sl (Some {| value := v; expires_at := now + timeout |}) c))
      = f').
Proof.
  intros G. unfold memoize. rewrite G, lookup_fresh. split; intros H.
  - apply Z.ltb_lt in H. rewrite H. reflexivity.
  - apply Z.ltb_ge in H. rewrite H. destruct f'; reflexivity.
Qed.

(** The two counts are served from the cache for 600 seconds and the
    upcoming services for 300: after a read that missed, with the database
    up, a read before the expiry answers what the first read computed and
    leaves the cache alone, whatever the store holds by then; a read from the
    expiry on computes on the store of that moment. *)
Theorem memoised_views_expire env env' s s' c :
  db_up env = true -> db_up env' = true ->
  lookup (now env) (equipment_count_entry c) = None ->
  lookup (now env) (jobs_count_entry c) = None ->
  lookup (now env) (upcoming_entry c) = None ->
  let c1 := snd (get_cached_equipment_count env s c) in
  let c2 := snd (get_cached_jobs_count env s c) in
  let c3 := snd (get_cached_upcoming_services env s c) in
  (now env' < now env + 600 ->
     get_cached_equipment_count env' s' c1 = (Ok (count (equipments s)), c1)
     /\ get_cached_jobs_count env' s' c2 = (Ok (count (jobs s)), c2))
  /\ (now env' < now env + 300 ->
        get_cached_upcoming_services env' s' c3
        = (Ok (upcoming_services_try (today env) s), c3))
  /\ (now env + 600 <= now env' ->
        fst (get_cached_equipment_count env' s' c1) = Ok (count (equipments s'))
        /\ fst (get_cached_jobs_count env' s' c2) = Ok (count (jobs s')))
  /\ (now env + 300 <= now env' ->
        fst (get_cached_upcoming_services env' s' c3)
        = Ok (upcoming_services_try (today env') s')).
Proof.
  intros U U' M1 M2 M3.
  unfold get_cached_equipment_count, get_cached_jobs_count,
    get_cached_upcoming_services.
  rewrite !upcoming_services_fn_total. unfold query. rewrite U, U'.
  rewrite (memoize_miss equipment_count_slot 600 _ (now env) c M1).
  rewrite (memoize_miss jobs_count_slot 600 _ (now env) c M2).
  rewrite (memoize_miss upcoming_slot 300 _ (now env) c M3).
  cbn [snd].
  destruct (memoize_after_miss equipment_count_slot 600 (count (equipments s))
              (Ok (count (equipments s'))) (now env) (now env') c eq_refl) as [A1 B1].
  destruct (memoize_after_miss jobs_count_slot 600 (count (jobs s))
              (Ok (count (jobs s'))) (now env) (now env') c eq_refl) as [A2 B2].
  destruct (memoize_after_miss upcoming_slot 300 (upcoming_services_try (today env) s)
              (Ok (upcoming_services_try (today env') s')) (now env) (now env') c
              eq_refl) as [A3 B3].
  split; [|split; [|split]]; intros H; auto.
Qed.

Lemma memoised_views_expire_witness :
  get_cached_jobs_count (env_at 599 (ymd2ord 2024 2 10) true) (store w2)
    (snd (get_cached_jobs_count (env_at 0 (ymd2ord 2024 2 10) true) (store w0)
            empty_cache))
  = (Ok (count (jobs (store w0))),
     snd (get_cached_jobs_count (env_at 0 (ymd2ord 2024 2 10) true) (store w0)
            empty_cache)).
Proof.
  apply (memoised_views_expire (env_at 0 (ymd2ord 2024 2 10) true)
           (env_at 599 (ymd2ord 2024 2 10) true) (store w0) (store w2) empty_cache);
    reflexivity.
Defined.

Lemma view_get_delete key k c :
  view_get k (cache_delete key c)
  = if String.eqb k key then None else view_get k c.
Proof.
  unfold view_get, cache_delete. cbn [view_entries].
  induction (view_entries c) as [|[k' e] r IH]; cbn [filter find fst snd].
  - destruct (String.eqb k key); reflexivity.
  - destruct (String.eqb_spec k' key) as [->|N]; cbn [negb find fst snd].
    + rewrite IH. destruct (String.eqb_spec key k) as [<-|N']; [|reflexivity].
      rewrite String.eqb_refl. reflexivity.
    + destruct (String.eqb_spec k' k) as [->|N']; [|exact IH].
      destruct (String.eqb_spec k key); [contradiction|reflexivity].
Qed.

(** What the two invalidation functions delete and what they leave: the job
    function deletes the job count, the upcoming services and the dashboard
    entry and leaves the equipment count, the vocabulary and every other
    view; the equipment function deletes the equipment count, the
    vocabulary, the upcoming services and the dashboard entry and leaves the
    job count and every other view.  Deleting twice is deleting once. *)
Theorem invalidation_deletes_and_leaves c :
  let cj := clear_cache_on_job_change c in
  let ce := clear_cache_on_equipment_change c in
  (jobs_count_entry cj = None /\ upcoming_entry cj = None
   /\ view_get "view//" cj = None
   /\ equipment_count_entry cj = equipment_count_entry c
   /\ autocomplete_entry cj = autocomplete_entry c
   /\ (forall k, k <> "view//" -> view_get k cj = view_get k c)
   /\ clear_cache_on_job_change cj = cj)
  /\ (equipment_count_entry ce = None /\ autocomplete_entry ce = None
      /\ upcoming_entry ce = None /\ view_get "view//" ce = None
      /\ jobs_count_entry ce = jobs_count_entry c
      /\ (forall k, k <> "view//" -> view_get k ce = view_get k c)
      /\ clear_cache_on_equipment_change ce = ce).
Proof.
  assert (F : forall l : list (string * entry dashboard),
            filter (fun p => negb (String.eqb (fst p) "view//"))
                   (filter (fun p => negb (String.eqb (fst p) "view//")) l)
            = filter (fun p => negb (String.eqb (fst p) "view//")) l).
  { induction l as [|p r IH]; [reflexivity|]. cbn [filter].
    destruct (negb _) eqn:E; [|exact IH]. cbn [filter]. rewrite E, IH. reflexivity. }
  cbv zeta. unfold clear_cache_on_job_change, clear_cache_on_equipment_change.
  repeat split; try apply view_get_delete.
  - intros k N. rewrite view_get_delete. apply String.eqb_neq in N. rewrite N.
    reflexivity.
  - unfold cache_delete, delete_memoized. cbn. rewrite F. reflexivity.
  - intros k N. rewrite view_get_delete. apply String.eqb_neq in N. rewrite N.
    reflexivity.
  - unfold cache_delete, delete_memoized. cbn. rewrite F. reflexivity.
Qed.

(** ** The dashboard *)

Lemma view_get_set key d timeout now c :
  view_get key (cache_set_view key d timeout now c)
  = Some {| value := d; expires_at := now + timeout |}.
Proof.
  unfold view_get, cache_set_view. cbn [view_entries find fst snd].
  rewrite String.eqb_refl. reflexivity.
Qed.

Lemma index_miss env w :
  lookup (now env) (view_get "view//" (cache w)) = None ->
  exists d fl c,
    index_body env w = (d, fl, c)
    /\ index env w
       = {| response := Render "dashboard.html" (Ctx_dashboard d);
            flashes := fl;
            world := with_cache w (cache_set_view "view//" d 300 (now env) c) |}.
Proof.
  intros M. unfold index. rewrite M.
  destruct (index_body env w) as [[d fl] c]. exists d, fl, c. auto.
Qed.

(** The dashboard is served from the cache for 300 seconds: after a request
    that missed, a request before the expiry answers the same page, flashes
    nothing and changes nothing, whatever the store holds by then. *)
Theorem dashboard_served_from_cache env env' w s' :
  lookup (now env) (view_get "view//" (cache w)) = None ->
  now env' < now env + 300 ->
  let o := index env w in
  let w' := {| store := s'; cache := cache (world o) |} in
  index env' w' = {| response := response o; flashes := []; world := w' |}.
Proof.
  intros M H. destruct (index_miss env w M) as (d & fl & c & _ & E).
  cbv zeta. rewrite E. cbn [response world with_cache cache].
  unfold index. cbn [cache]. rewrite view_get_set. cbn [lookup expires_at value].
  apply Z.ltb_lt in H. rewrite H. reflexivity.
Qed.

Lemma firstn_length_le {A} n (l : list A) : (List.length (firstn n l) <= n)%nat.
Proof. rewrite length_firstn. apply Nat.le_min_l. Qed.

(** A dashboard computed with the database up and nothing cached shows the
    number of equipment and of jobs of the store, the two counters of the
    upcoming services, and the first ten rows of their list, at most. *)
Theorem dashboard_fresh env w :
  db_up env = true ->
  lookup (now env) (view_get "view//" (cache w)) = None ->
  lookup (now env) (equipment_count_entry (cache w)) = None ->
  lookup (now env) (jobs_count_entry (cache w)) = None ->
  lookup (now env) (upcoming_entry (cache w)) = None ->
  let data := upcoming_services_try (today env) (store w) in
  let o := index env w in
  response o
  = Render "dashboard.html"
      (Ctx_dashboard
         {| d_total_equipment := count (equipments (store w));
            d_total_jobs := count (jobs (store w));
            d_total_upcoming := total_upcoming data;
            d_services_vencidos := services_vencidos data;
            d_upcoming_services := firstn 10 (upcoming_services data) |})
  /\ flashes o = []
  /\ store (world o) = store w
  /\ (List.length (firstn 10 (upcoming_services data)) <= 10)%nat.
Proof.
  intros U Mv M1 M2 M3. cbv zeta.
  destruct (index_miss env w Mv) as (d & fl & c & B & E). rewrite E.
  unfold index_body, get_cached_equipment_count, get_cached_jobs_count,
    get_cached_upcoming_services in B.
  rewrite upcoming_services_fn_total in B. unfold query in B. rewrite U in B.
  rewrite (memoize_miss equipment_count_slot 600 _ (now env) (cache w) M1) in B.
  rewrite (memoize_miss jobs_count_slot 600 _ (now env)
             (slot_set equipment_count_slot _ (cache w)) M2) in B.
  rewrite (memoize_miss upcoming_slot 300 _ (now env)
             (slot_set jobs_count_slot _ (slot_set equipment_count_slot _ (cache w)))
             M3) in B.
  injection B as <- <- <-.
  repeat split. apply firstn_length_le.
Qed.

(** A dashboard computed while the database is down and nothing is cached is
    the page of zeros with the error message, and that page is stored under
    the dashboard's key for 300 seconds. *)
Theorem dashboard_failure_is_cached env w :
  db_up env = false ->
  lookup (now env) (view_get "view//" (cache w)) = None ->
  lookup (now env) (equipment_count_entry (cache w)) = None ->
  index env w
  = {| response := Render "dashboard.html" (Ctx_dashboard dashboard_default);
       flashes := [dashboard_error_flash];
       world := with_cache w
                  (cache_set_view "view//" dashboard_default 300 (now env) (cache w)) |}.
Proof.
  intros U Mv M1. destruct (index_miss env w Mv) as (d & fl & c & B & E). rewrite E.
  unfold index_body, get_cached_equipment_count, memoize, query in B.
  cbn [slot_get equipment_count_slot] in B. rewrite M1, U in B. injection B as <- <- <-. reflexivity.
Qed.

Lemma dashboard_served_from_cache_witness :
  index (env_at 299 (ymd2ord 2024 2 10) true)
    {| store := store w2;
       cache := cache (world (index (env_at 0 (ymd2ord 2024 2 10) true) w0)) |}
  = {| response := response (index (env_at 0 (ymd2ord 2024 2 10) true) w0);
       flashes := [];
       world := {| store := store w2;
                   cache := cache (world (index (env_at 0 (ymd2ord 2024 2 10) true)
                                            w0)) |} |}.
Proof.
  apply (dashboard_served_from_cache (env_at 0 (ymd2ord 2024 2 10) true)
           (env_at 299 (ymd2ord 2024 2 10) true) w0 (store w2)); reflexivity.
Defined.

Lemma dashboard_fresh_witness :
  flashes (index (env_at 0 (ymd2ord 2024 2 10) true) w2) = [].
Proof.
  apply (dashboard_fresh (env_at 0 (ymd2ord 2024 2 10) true) w2); reflexivity.
Defined.

Lemma dashboard_failure_is_cached_witness :
  index (env_at 0 (ymd2ord 2024 2 10) false) w2
  = {| response := Render "dashboard.html" (Ctx_dashboard dashboard_default);
       flashes := [dashboard_error_flash];
       world := with_cache w2
                  (cache_set_view "view//" dashboard_default 300 0 (cache w2)) |}.
Proof.
  apply (dashboard_failure_is_cached (env_at 0 (ymd2ord 2024 2 10) false) w2);
    reflexivity.
Defined.

(** ** The aggregations *)

(** The vocabulary holds each brand, each model and each non-empty owner of
    the equipment table once, and nothing else. *)
Theorem autocomplete_vocabulary s :
  let a := autocomplete_try s in
  NoDup (marcas a) /\ NoDup (modelos a) /\ NoDup (propietarios a)
  /\ (forall m, In m (marcas a) <-> exists e, In e (equipments s) /\ marca e = m)
  /\ (forall m, In m (modelos a) <-> exists e, In e (equipments s) /\ modelo e = m)
  /\ (forall p, In p (propietarios a)
                <-> p <> "" /\ exists e, In e (equipments s) /\ propietario e = Some p).
Proof.
  cbv zeta. unfold autocomplete_try, distinct. cbn [marcas modelos propietarios].
  split; [apply NoDup_nodup|]. split; [apply NoDup_nodup|]. split; [apply NoDup_nodup|].
  split; [|split]; intros x; rewrite nodup_In.
  - rewrite in_map_iff. split; intros (e & ? & ?); exists e; auto.
  - rewrite in_map_iff. split; intros (e & ? & ?); exists e; auto.
  - unfold owner_names. rewrite in_flat_map. split.
    + intros (e & I & H). destruct (propietario e) as [p|] eqn:P; [|destruct H].
      destruct (String.eqb_spec p "") as [|N]; [destruct H|].
      destruct H as [<-|[]]. split; [assumption|]. exists e. auto.
    + intros (N & e & I & P). exists e. split; [assumption|]. rewrite P.
      apply String.eqb_neq in N. rewrite N. left. reflexivity.
Qed.

(** The same holds of the models [api_modelos] answers for a brand. *)
Theorem api_modelos_of_the_brand s brand :
  NoDup (api_modelos s brand)
  /\ forall m, In m (api_modelos s brand)
               <-> exists e, In e (equipments s) /\ marca e = brand /\ modelo e = m.
Proof.
  unfold api_modelos, distinct. split; [apply NoDup_nodup|].
  intros m. rewrite nodup_In, in_map_iff. split.
  - intros (e & Q & I). apply filter_In in I. destruct I as [I B].
    apply String.eqb_eq in B. exists e. auto.
  - intros (e & I & B & Q). exists e. split; [assumption|].
    apply filter_In. split; [assumption|]. apply String.eqb_eq. assumption.
Qed.

Lemma filter_length_le {A} (p : A -> bool) (l : list A) :
  (List.length (filter p l) <= List.length l)%nat.
Proof.
  induction l as [|x r IH]; cbn [filter List.length]; [lia|].
  destruct (p x); cbn [List.length]; lia.
Qed.

Lemma filter_length_mono {A} (p q : A -> bool) (l : list A) :
  (forall x, p x = true -> q x = true) ->
  (List.length (filter p l) <= List.length (filter q l))%nat.
Proof.
  intros H. induction l as [|x r IH]; cbn [filter List.length]; [lia|].
  destruct (p x) eqn:P.
  - rewrite (H x P). cbn [List.length]. lia.
  - destruct (q x); cbn [List.length]; lia.
Qed.

Lemma flat_map_rows_length today s es :
  (List.length (flat_map (equipment_rows today s) es) <= List.length es)%nat.
Proof.
  induction es as [|e r IH]; cbn [flat_map List.length]; [lia|].
  rewrite length_app. unfold equipment_rows at 1.
  destruct (last_job s e) as [j|]; [destruct (next_service_date j)|];
    cbn [List.length]; lia.
Qed.

(** The counters of the upcoming services are ordered: the overdue services
    are among those due within 30 days, those are among the rows of the list,
    and there is at most one row for each equipment. *)
Theorem upcoming_counters_ordered today s :
  let d := upcoming_services_try today s in
  0 <= services_vencidos d <= total_upcoming d
  /\ total_upcoming d <= count (upcoming_services d)
  /\ count (upcoming_services d) <= count (equipments s).
Proof.
  cbv zeta. rewrite upcoming_services_try_eq.
  cbn [services_vencidos total_upcoming upcoming_services]. unfold count.
  rewrite sort_by_length.
  pose proof (filter_length_mono (fun r => days_left r <? 0)
                (fun r => days_left r <=? 30)
                (flat_map (equipment_rows today s) (equipments s))) as A.
  pose proof (filter_length_le (fun r => days_left r <=? 30)
                (flat_map (equipment_rows today s) (equipments s))) as B.
  pose proof (flat_map_rows_length today s (equipments s)) as C.
  assert (forall x : service_row, (days_left x <? 0) = true -> (days_left x <=? 30) = true).
  { intros x H. apply Z.ltb_lt in H. apply Z.leb_le. lia. }
  specialize (A H). lia.
Qed.

Lemma Qle_bool_total a b : Qle_bool a b = false -> Qle_bool b a = true.
Proof.
  intros H. apply Qle_bool_iff. apply Qlt_le_weak. apply Qnot_le_lt.
  intros L. apply Qle_bool_iff in L. congruence.
Qed.

Lemma Qle_bool_trans a b c :
  Qle_bool a b = true -> Qle_bool b c = true -> Qle_bool a c = true.
Proof.
  rewrite !Qle_bool_iff. apply Qle_trans.
Qed.

Lemma sort_by_desc_sorted {A} (key : A -> Q) (l : list A) :
  StronglySorted (fun a b => (key b <= key a)%Q)
                 (sort_by (fun a b => Qle_bool (key b) (key a)) l).
Proof.
  eapply StronglySorted_ind with
    (P := fun l => StronglySorted (fun a b => (key b <= key a)%Q) l);
    [constructor| |apply (sort_by_sorted (fun a b => Qle_bool (key b) (key a)))].
  - intros a r _ IH Ha. constructor; [assumption|].
    eapply Forall_impl; [|exact Ha]. intros b Hb. apply Qle_bool_iff. assumption.
  - intros a b. apply Qle_bool_total.
  - intros a b c H1 H2. eapply Qle_bool_trans; eassumption.
Qed.

Lemma In_firstn {A} n (l : list A) x : In x (firstn n l) -> In x l.
Proof.
  revert l. induction n as [|n IH]; intros [|y r] H; cbn [firstn] in H;
    try (destruct H; fail).
  destruct H as [<-|H]; [left; reflexivity|right; apply IH, H].
Qed.

Lemma StronglySorted_firstn {A} (R : A -> A -> Prop) n (l : list A) :
  StronglySorted R l -> StronglySorted R (firstn n l).
Proof.
  revert l. induction n as [|n IH]; intros l S; [constructor|].
  destruct S as [|a r S F]; cbn [firstn]; constructor; [apply IH, S|].
  rewrite Forall_forall in *. intros x I. apply F. eapply In_firstn. eassumption.
Qed.

(** The ranking of the statistics page has at most ten entries, by
    descending total; each is an equipment of the store with at least one
    job, its number of jobs and the sum of their budgets. *)
Theorem top_equipos_ranking s :
  (List.length (top_equipos s) <= 10)%nat
  /\ StronglySorted (fun a b => (top_total b <= top_total a)%Q) (top_equipos s)
  /\ forall t, In t (top_equipos s) ->
       exists e, In e (equipments s)
                 /\ top_name t = (marca e ++ " " ++ modelo e)%string
                 /\ top_jobs t = count (jobs_of s e) /\ 0 < top_jobs t
                 /\ top_total t = sum_budget (jobs_of s e).
Proof.
  unfold top_equipos. split; [apply firstn_length_le|]. split.
  - apply StronglySorted_firstn, sort_by_desc_sorted.
  - intros t I. apply In_firstn in I. apply sort_by_In in I.
    apply in_flat_map in I. destruct I as (e & Ie & It). exists e.
    split; [assumption|]. cbv zeta in It.
    destruct (Z.ltb_spec 0 (count (jobs_of s e))) as [L|L]; [|destruct It].
    destruct It as [<-|[]]. cbn [top_name top_jobs top_total]. auto.
Qed.

Lemma sumZ_app l l' : sumZ (l ++ l') = sumZ l + sumZ l'.
Proof. unfold sumZ. induction l as [|x r IH]; cbn [app fold_right]; lia. Qed.

Lemma sumZ_perm l l' : Permutation l l' -> sumZ l = sumZ l'.
Proof. unfold sumZ. induction 1; cbn [fold_right]; lia. Qed.

Lemma sumZ_map_add {A} (f g : A -> Z) (l : list A) :
  sumZ (map (fun x => f x + g x) l) = sumZ (map f l) + sumZ (map g l).
Proof. unfold sumZ. induction l as [|x r IH]; cbn [map fold_right]; lia. Qed.

Lemma sumZ_indicator (k : string) (keys : list string) :
  NoDup keys ->
  sumZ (map (fun m => if String.eqb k m then 1 else 0) keys)
  = if in_dec string_dec k keys then 1 else 0.
Proof.
  unfold sumZ. induction 1 as [|m r N U IH]; [reflexivity|].
  cbn [map fold_right]. rewrite IH.
  destruct (String.eqb_spec k m) as [->|Q].
  - destruct (in_dec string_dec m r); [contradiction|].
    destruct (in_dec string_dec m (m :: r)) as [|X]; [lia|].
    exfalso. apply X. left. reflexivity.
  - destruct (in_dec string_dec k r) as [I|I];
      destruct (in_dec string_dec k (m :: r)) as [J|J]; try lia.
    + exfalso. apply J. right. assumption.
    + exfalso. destruct J as [J|J]; [congruence|contradiction].
Qed.

Lemma count_cons {A} (x : A) (l : list A) : count (x :: l) = 1 + count l.
Proof. unfold count. cbn [List.length]. lia. Qed.

Lemma count_by_key (keys : list string) (l : list Equipment) :
  NoDup keys -> (forall e, In e l -> In (marca e) keys) ->
  sumZ (map (fun m => count (filter (fun e => String.eqb (marca e) m) l)) keys)
  = count l.
Proof.
  intros U. induction l as [|e r IH]; intros H.
  - clear U H. cbn [filter]. unfold sumZ, count. cbn [List.length].
    induction keys as [|k ks IHk]; cbn [map fold_right]; [reflexivity|].
    rewrite IHk. reflexivity.
  - assert (Ind : sumZ (map (fun m => if String.eqb (marca e) m then 1 else 0) keys) = 1).
    { rewrite (sumZ_indicator (marca e) keys U).
      destruct (in_dec string_dec (marca e) keys) as [_|N]; [reflexivity|].
      exfalso. apply N, H. left. reflexivity. }
    rewrite count_cons, <- IH by (intros; apply H; right; assumption).
    rewrite <- Ind, <- sumZ_map_add.
    f_equal. apply map_ext. intros m. cbn [filter].
    destruct (String.eqb (marca e) m); [apply count_cons|lia].
Qed.

(** The brand distribution has one entry for each brand of the table, with
    the number of equipment of that brand, which is at least one; the
    numbers add up to the number of equipment. *)
Theorem marcas_dist_partition s :
  NoDup (map fst (marcas_dist s))
  /\ (forall m, In m (map fst (marcas_dist s))
                <-> exists e, In e (equipments s) /\ marca e = m)
  /\ (forall m n, In (m, n) (marcas_dist s) ->
        1 <= n
        /\ n = count (filter (fun e => String.eqb (marca e) m) (equipments s)))
  /\ sumZ (map snd (marcas_dist s)) = count (equipments s).
Proof.
  unfold marcas_dist, distinct. rewrite !map_map. cbn [fst snd]. rewrite map_id.
  split; [apply NoDup_nodup|]. split; [|split].
  - intros m. rewrite nodup_In, in_map_iff.
    split; intros (e & ? & ?); exists e; auto.
  - intros m n I. apply in_map_iff in I. destruct I as (m' & [= <- <-] & I).
    split; [|reflexivity]. apply nodup_In, in_map_iff in I.
    destruct I as (e & Q & I).
    assert (F : In e (filter (fun e => String.eqb (marca e) m') (equipments s))).
    { apply filter_In. split; [assumption|]. apply String.eqb_eq. assumption. }
    unfold count. destruct (filter _ _); [destruct F|]. cbn [List.length]. lia.
  - apply count_by_key; [apply NoDup_nodup|].
    intros e I. apply nodup_In, in_map. assumption.
Qed.

(** *** The owners' page *)

Lemma dict_update_names p f d :
  (forall c, nombre (f c) = nombre c) ->
  map nombre (dict_update p f d)
  = if in_dec string_dec p (map nombre d) then map nombre d
    else (map nombre d ++ [p])%list.
Proof.
  intros Hf. induction d as [|c r IH]; cbn [dict_update map app].
  - rewrite Hf. reflexivity.
  - destruct (String.eqb_spec (nombre c) p) as [Q|Q]; cbn [map].
    + rewrite Hf. destruct (in_dec string_dec p (nombre c :: map nombre r)) as [|N];
        [reflexivity|]. exfalso. apply N. left. assumption.
    + rewrite IH. destruct (in_dec string_dec p (map nombre r)) as [I|I];
        destruct (in_dec string_dec p (nombre c :: map nombre r)) as [J|J];
        try reflexivity.
      * exfalso. apply J. right. assumption.
      * exfalso. destruct J as [J|J]; [congruence|contradiction].
Qed.

Lemma dict_update_In p f d c' :
  In c' (dict_update p f d) ->
  In c' d
  \/ exists c, (In c d \/ c = cliente_nuevo p) /\ nombre c = p /\ c' = f c.
Proof.
  induction d as [|c r IH]; cbn [dict_update].
  - intros [<-|[]]. right. exists (cliente_nuevo p). auto.
  - destruct (String.eqb_spec (nombre c) p) as [Q|Q]; intros [<-|I].
    + right. exists c. split; [left; left; reflexivity|auto].
    + left. right. assumption.
    + left. left. reflexivity.
    + destruct (IH I) as [I'|(c0 & [I0|I0] & Q0 & E)].
      * left. right. assumption.
      * right. exists c0. split; [left; right; assumption|auto].
      * right. exists c0. auto.
Qed.

Lemma dict_update_keeps p f d c :
  In c d ->
  In c (dict_update p f d) \/ (nombre c = p /\ In (f c) (dict_update p f d)).
Proof.
  induction d as [|c0 r IH]; [intros []|]. cbn [dict_update].
  destruct (String.eqb_spec (nombre c0) p) as [Q|Q]; intros [->|I].
  - right. split; [assumption|left; reflexivity].
  - left. right. assumption.
  - left. left. reflexivity.
  - destruct (IH I) as [I'|[Q' I']]; [left|right; split; [assumption|]];
      right; assumption.
Qed.

Lemma dict_update_has p f d :
  exists c, (In c d \/ c = cliente_nuevo p) /\ nombre c = p
            /\ In (f c) (dict_update p f d).
Proof.
  induction d as [|c0 r IH]; cbn [dict_update].
  - exists (cliente_nuevo p). split; [right; reflexivity|].
    split; [reflexivity|left; reflexivity].
  - destruct (String.eqb_spec (nombre c0) p) as [Q|Q].
    + exists c0. split; [left; left; reflexivity|]. split; [assumption|left; reflexivity].
    + destruct IH as (c & [I|I] & Qc & Ic); exists c.
      * split; [left; right; assumption|]. split; [assumption|right; assumption].
      * split; [right; assumption|]. split; [assumption|right; assumption].
Qed.

Lemma dict_update_total s e p d :
  sumZ (map total_equipos (dict_update p (cliente_add s e) d))
  = sumZ (map total_equipos d) + 1.
Proof.
  unfold sumZ. induction d as [|c r IH]; cbn [dict_update map fold_right].
  - reflexivity.
  - destruct (String.eqb (nombre c) p); cbn [map fold_right total_equipos cliente_add].
    + lia.
    + rewrite IH. lia.
Qed.

Lemma count_app_one {A} (l : list A) (x : A) : count (l ++ [x]) = count l + 1.
Proof. unfold count. rewrite length_app. cbn [List.length]. lia. Qed.

Lemma grouped_step s d done e :
  grouped d done ->
  grouped (dict_update (owner_or_default e) (cliente_add s e) d) (done ++ [e]).
Proof.
  intros (N & G & C & T). unfold grouped.
  set (p := owner_or_default e).
  assert (Hf : forall c, nombre (cliente_add s e c) = nombre c) by reflexivity.
  split; [|split; [|split]].
  - rewrite dict_update_names by exact Hf.
    destruct (in_dec string_dec p (map nombre d)) as [I|I]; [exact N|].
    apply Permutation_NoDup with (l := p :: map nombre d);
      [apply Permutation_cons_append|]. constructor; assumption.
  - intros c' I. apply dict_update_In in I.
    destruct I as [I|(c & Hc & Q & ->)].
    + destruct (G c' I) as (G1 & G2 & G3). repeat split; try assumption.
      * apply in_or_app. left. apply G3. assumption.
      * apply G3. assumption.
    + assert (B : total_equipos c = count (equipos c) /\ 0 <= total_equipos c
                  /\ forall x, In x (equipos c) -> In x done /\ owner_or_default x = nombre c).
      { destruct Hc as [I| ->].
        - destruct (G c I) as (G1 & G2 & G3). repeat split; try assumption; try lia;
            apply G3; assumption.
        - cbn. repeat split; try reflexivity; try lia; contradiction. }
      destruct B as (B1 & B2 & B3).
      cbn [cliente_add total_equipos equipos nombre].
      rewrite count_app_one. repeat split; try lia.
      * apply in_app_or in H. apply in_or_app.
        destruct H as [H|[<-|[]]]; [left; apply B3; assumption|right; left; reflexivity].
      * apply in_app_or in H. destruct H as [H|[<-|[]]]; [apply B3; assumption|].
        symmetry. exact Q.
  - intros x I. apply in_app_or in I. destruct I as [I|[<-|[]]].
    + destruct (C x I) as (c & Ic & Qc & Ix).
      destruct (dict_update_keeps p (cliente_add s e) d c Ic) as [K|[_ K]].
      * exists c. auto.
      * exists (cliente_add s e c). split; [assumption|]. split; [assumption|].
        cbn [cliente_add equipos]. apply in_or_app. left. assumption.
    + destruct (dict_update_has p (cliente_add s e) d) as (c & _ & Qc & Ic).
      exists (cliente_add s e c). split; [assumption|]. split; [exact Qc|].
      cbn [cliente_add equipos]. apply in_or_app. right. left. reflexivity.
  - rewrite dict_update_total, T, count_app_one. reflexivity.
Qed.

Lemma grouped_fold s es : forall d done,
  grouped d done ->
  grouped (fold_left (fun d e => dict_update (owner_or_default e) (cliente_add s e) d)
                     es d)
          (done ++ es).
Proof.
  induction es as [|e r IH]; intros d done G; cbn [fold_left].
  - rewrite app_nil_r. exact G.
  - replace (done ++ e :: r)%list with ((done ++ [e]) ++ r)%list
      by (rewrite <- app_assoc; reflexivity).
    apply IH, grouped_step, G.
Qed.

(** The owners' list groups the equipment by owner: the names are distinct,
    the list is by descending total spent, every equipment scanned is in the
    entry of its owner (or of [Sin especificar] when it has none), each entry
    holds equipment of that owner only and counts it, and the counts add up
    to the number of equipment scanned. *)
Theorem clientes_grouped_by_owner s es :
  let d := clientes_data s es in
  NoDup (map nombre d)
  /\ StronglySorted (fun a b => (total_gastado b <= total_gastado a)%Q) d
  /\ (forall c, In c d ->
        total_equipos c = count (equipos c) /\ 1 <= total_equipos c
        /\ forall e, In e (equipos c) -> In e es /\ owner_or_default e = nombre c)
  /\ (forall e, In e es ->
        exists c, In c d /\ nombre c = owner_or_default e /\ In e (equipos c))
  /\ sumZ (map total_equipos d) = count es.
Proof.
  cbv zeta. unfold clientes_data.
  assert (G0 : grouped [] []).
  { repeat split; try constructor; try contradiction. }
  destruct (grouped_fold s es [] [] G0) as (N & G & C & T). cbn [app] in *.
  set (d := fold_left _ es []) in *.
  pose proof (sort_by_perm (fun a b => Qle_bool (total_gastado b) (total_gastado a)) d) as P.
  split; [|split; [|split; [|split]]].
  - eapply Permutation_NoDup; [|exact N]. apply Permutation_map. symmetry. exact P.
  - apply sort_by_desc_sorted.
  - intros c I. apply sort_by_In in I. apply G, I.
  - intros e I. destruct (C e I) as (c & Ic & Q & Ie). exists c.
    split; [apply sort_by_In; assumption|auto].
  - rewrite <- T. apply sumZ_perm, Permutation_map. exact P.
Qed.

(** *** Averages *)

Lemma count_pos_nonzero {A} (l : list A) : 0 < count l -> ~ (inject_Z (count l) == 0)%Q.
Proof.
  intros H Q. unfold Qeq, inject_Z in Q. cbn [Qnum Qden] in Q. lia.
Qed.

(** The two averages never divide by zero: the average budget of the
    statistics page is 0 without jobs and otherwise the total budget over
    the number of jobs, and the average of an equipment's page is 0 for an
    equipment without jobs and otherwise its total over its number of
    jobs. *)
Theorem averages_guard_the_division s e :
  (jobs s = [] -> avg_budget s = 0%Q)
  /\ (jobs s <> [] ->
      (avg_budget s * inject_Z (count (jobs s)) == sum_budget (jobs s))%Q)
  /\ (jobs_of s e = [] -> det_promedio (equipo_detail_data_of s e) = 0%Q)
  /\ (jobs_of s e <> [] ->
      (det_promedio (equipo_detail_data_of s e) * inject_Z (count (jobs_of s e))
       == det_total_gastado (equipo_detail_data_of s e))%Q).
Proof.
  split; [|split; [|split]].
  - intros E. unfold avg_budget. rewrite E. reflexivity.
  - intros N. unfold avg_budget.
    assert (P : 0 < count (jobs s)).
    { unfold count. destruct (jobs s); [contradiction|]. cbn [List.length]. lia. }
    apply Z.ltb_lt in P. rewrite P. apply Z.ltb_lt in P.
    rewrite Qmult_comm. apply Qmult_div_r, count_pos_nonzero, P.
  - intros E. unfold equipo_detail_data_of, order_by_date_done_desc.
    rewrite E. reflexivity.
  - intros N. unfold equipo_detail_data_of. cbn [det_promedio det_total_gastado].
    set (rows := map _ (order_by_date_done_desc (jobs_of s e))).
    assert (L : count rows = count (jobs_of s e)).
    { unfold rows, count, order_by_date_done_desc.
      rewrite length_map, sort_by_length. reflexivity. }
    assert (P : 0 < count rows).
    { rewrite L. unfold count. destruct (jobs_of s e); [contradiction|].
      cbn [List.length]. lia. }
    destruct rows as [|r0 rs] eqn:R; [unfold count in P; cbn in P; lia|].
    rewrite <- L. rewrite Qmult_comm. apply Qmult_div_r, count_pos_nonzero, P.
Qed.

Lemma averages_witness :
  (avg_budget (store w2) * inject_Z (count (jobs (store w2)))
   == sum_budget (jobs (store w2)))%Q.
Proof.
  apply (averages_guard_the_division (store w2) E1). vm_compute. discriminate.
Defined.

(** *** Consecutive months *)

Lemma month_index_month_first i : month_index (month_first i) = i.
Proof.
  apply month_index_unique. pose proof (month_first_lt_succ i). lia.
Qed.

Lemma month_index_plus_30 n : month_index n <= month_index (n + 30) <= month_index n + 2.
Proof.
  split; [apply month_index_mono; lia|].
  pose proof (month_index_bounds n) as B.
  pose proof (month_index_bounds (n + 30)) as B'.
  pose proof (month_first_lt_succ (month_index n + 1)) as S1.
  pose proof (month_first_lt_succ (month_index n + 2)) as S2.
  replace (month_index n + 1 + 1) with (month_index n + 2) in S1 by lia.
  replace (month_index n + 2 + 1) with (month_index n + 3) in S2 by lia.
  destruct (Z_le_gt_dec (month_index (n + 30)) (month_index n + 2)) as [|G];
    [assumption|].
  pose proof (month_first_mono (month_index n + 3) (month_index (n + 30)) ltac:(lia)).
  lia.
Qed.

(** Two consecutive turns of the monthly loop start in the same month, in
    consecutive months, or two months apart, and the two extremes occur: on
    2024-01-31 the last two buckets both start in January 2024, and on
    2023-03-01 the bucket before the last starts in January 2023, so that no
    bucket covers February 2023. *)
Theorem consecutive_buckets_months today i :
  0 <= i < 11 -> 331 <= today <= MAXORD - 2 ->
  (exists f1 s1 e1 f0 s0 e0,
     month_bounds today (i + 1) = Ok (f1, s1, e1)
     /\ month_bounds today i = Ok (f0, s0, e0)
     /\ month_index s1 <= month_index s0 <= month_index s1 + 2)
  /\ (exists s, month_bounds (ymd2ord 2024 1 31) 1 = Ok (ymd2ord 2024 1 1, s, ymd2ord 2024 1 31)
                /\ month_bounds (ymd2ord 2024 1 31) 0
                   = Ok (ymd2ord 2024 1 31, s, ymd2ord 2024 1 31))
  /\ month_bounds (ymd2ord 2023 3 1) 1
     = Ok (ymd2ord 2023 1 30, ymd2ord 2023 1 1, ymd2ord 2023 1 31)
  /\ month_bounds (ymd2ord 2023 3 1) 0
     = Ok (ymd2ord 2023 3 1, ymd2ord 2023 3 1, ymd2ord 2023 3 1).
Proof.
  intros Hi Ht. split; [|split; [|split]].
  - rewrite !month_bounds_bucket by lia. do 6 eexists.
    split; [reflexivity|]. split; [reflexivity|].
    rewrite !bucket_start_month_first, !month_index_month_first.
    replace (anchor today i) with (anchor today (i + 1) + 30) by (unfold anchor; lia).
    apply month_index_plus_30.
  - eexists. split; vm_compute; reflexivity.
  - vm_compute. reflexivity.
  - vm_compute. reflexivity.
Qed.

Lemma consecutive_buckets_months_witness :
  month_bounds (ymd2ord 2023 3 1) 1
  = Ok (ymd2ord 2023 1 30, ymd2ord 2023 1 1, ymd2ord 2023 1 31).
Proof.
  assert (H : 331 <= ymd2ord 2023 3 1 <= MAXORD - 2) by (vm_compute; split; discriminate).
  exact (proj1 (proj2 (proj2 (consecutive_buckets_months (ymd2ord 2023 3 1) 0
                                ltac:(lia) H)))).
Defined.

(** ** After a rename, and the wipe *)

Section Rename_and_wipe.
Context {lib : PyLib} {utils : Utils}.

Lemma equipos_de_renamed s nombre nuevo :
  nuevo <> nombre -> equipos_de s nuevo = [] ->
  equipos_de (fst (update_propietario s nombre nuevo)) nombre = []
  /\ map eq_id (equipos_de (fst (update_propietario s nombre nuevo)) nuevo)
     = map eq_id (equipos_de s nombre).
Proof.
  intros N. unfold equipos_de, update_propietario. cbn [fst equipments].
  induction (equipments s) as [|e r IH]; intros E; [split; reflexivity|].
  cbn [filter map] in *.
  destruct (propietario e) as [p|] eqn:P.
  - destruct (String.eqb_spec p nuevo) as [->|Q1]; [discriminate|].
    destruct (IH E) as [A B].
    destruct (String.eqb_spec p nombre) as [->|Q2]; cbn [propietario].
    + rewrite String.eqb_refl.
      destruct (String.eqb_spec nuevo nombre); [contradiction|].
      split; [assumption|]. cbn [map eq_id]. rewrite B. reflexivity.
    + rewrite P. destruct (String.eqb_spec p nombre); [contradiction|].
      destruct (String.eqb_spec p nuevo); [contradiction|]. auto.
  - rewrite P. apply IH, E.
Qed.

(** After a successful rename no equipment is left with the old owner, the
    equipment of the new owner is the equipment the old owner had, and the
    table has as many rows as before. *)
Theorem rename_moves_the_equipment env nombre req w :
  method req = POST -> db_up env = true ->
  let nuevo := strip (get_default "nuevo_nombre" "" (form req)) in
  let s' := store (world (cliente_edit env nombre req w)) in
  nuevo <> "" -> nuevo <> nombre ->
  (forall e, In e (equipments (store w)) -> propietario e <> Some nuevo) ->
  equipos_de s' nombre = []
  /\ map eq_id (equipos_de s' nuevo) = map eq_id (equipos_de (store w) nombre)
  /\ map eq_id (equipments s') = map eq_id (equipments (store w)).
Proof.
  intros Hm Hd nuevo s' H1 H2 Hn.
  assert (E : equipos_de (store w) nuevo = []).
  { unfold equipos_de. destruct (filter _ _) as [|e r] eqn:F; [reflexivity|].
    assert (I : In e (e :: r)) by (left; reflexivity).
    rewrite <- F in I. apply filter_In in I. destruct I as [I P].
    destruct (propietario e) as [p|] eqn:Q; [|discriminate].
    apply String.eqb_eq in P. subst p. exfalso. exact (Hn e I Q). }
  unfold s'. rewrite (cliente_edit_post env nombre req w Hm H1 H2 Hd). fold nuevo.
  rewrite E. cbn [world store].
  destruct (equipos_de_renamed (store w) nombre nuevo H2 E) as [A B].
  split; [exact A|]. split; [exact B|]. apply update_propietario_ids.
Qed.

(** The wipe asks for the word: unless the stripped, upper-cased
    confirmation is [CONFIRMAR] nothing is deleted and nothing is cleared;
    with it, the store is what [clear_all_data] leaves, and the cache is
    emptied when [clear_all_data] reports success and kept otherwise. *)
Theorem wipe_needs_confirmation req w :
  let o := clear_all_data_route req w in
  let word := upper (strip (get_default "confirmation" "" (form req))) in
  response o = Redirect "admin_panel" no_arg
  /\ (word <> "CONFIRMAR" -> world o = w)
  /\ (word = "CONFIRMAR" ->
      store (world o) = fst (clear_all_data (store w))
      /\ cache (world o)
         = match snd (clear_all_data (store w)) with
           | inr (true, _) => empty_cache
           | _ => cache w
           end).
Proof.
  cbv zeta. unfold clear_all_data_route.
  destruct (String.eqb_spec (upper (strip (get_default "confirmation" "" (form req))))
              "CONFIRMAR") as [Q|Q]; cbn [negb].
  - destruct (clear_all_data (store w)) as [s' [e|[[|] m]]]; cbn [fst snd];
      (split; [reflexivity|]); (split; [intros N; contradiction|]); intros _;
      split; reflexivity.
  - split; [reflexivity|]. split; [reflexivity|]. intros E. contradiction.
Qed.

End Rename_and_wipe.

Lemma rename_moves_the_equipment_witness :
  equipos_de (store (world (cliente_edit (lib := Reference.lib)
                              (env_at 10 (ymd2ord 2024 2 10) true) "Ana" (rename "Eva")
                              w_owners))) "Ana"
  = [].
Proof.
  apply (rename_moves_the_equipment (lib := Reference.lib)
           (env_at 10 (ymd2ord 2024 2 10) true) "Ana" (rename "Eva") w_owners
           eq_refl eq_refl).
  - vm_compute. discriminate.
  - vm_compute. discriminate.
  - intros e H. vm_compute in H. destruct H as [<-|[<-|[<-|[]]]]; discriminate.
Defined.
